(** * spacemouse-desktop: the event-routing and profile engine

    A shallow embedding of [src/spacemouse-desktop.c] and the properties
    its specification states about it.

    Conventions of the embedding.
    - A C [int] is an integer of [Z] between [INT_MIN] and [INT_MAX];
      where the source can leave that range the wrap-around is written
      out ([c_abs], [double_to_int], [atoi]).
    - A C [double] is the real number it denotes ([double := R]):
      infinities, NaN and signed zeros are not represented, and the
      arithmetic of the curve and of the router is that of the real
      numbers, without the rounding of binary64. Where a statement
      depends on that rounding it says so: the accumulator is stated
      for an addition that rounds as it may ([feed]) and computed in
      binary64 itself ([Binary64]), and the bound on a configuration
      ([bounded_config]) keeps a margin for it.
    - A C string is a [string] without NUL; [snprintf] into a buffer of
      [n] bytes keeps the first [n - 1] bytes of the formatted text.
    - json-c is not part of the repository: a parsed document is a
      [json] value, and the library's value getters are parameters
      ([json_c]).
    - Calls into libdbus and writes to the uinput device are recorded as
      a trace of [effect]s. *)

From Stdlib Require Import ZArith Reals Lra Lia List String Ascii Bool.
From Stdlib Require Import Psatz.
From Stdlib Require Floats.
Import ListNotations.

Set Warnings "-register-all".

Local Open Scope string_scope.
Local Open Scope list_scope.
Local Open Scope Z_scope.

(* ------------------------------------------------------------------ *)
(** ** C integers and doubles *)

Definition INT_MIN : Z := - 2 ^ 31.
Definition INT_MAX : Z := 2 ^ 31 - 1.
Definition LONG_MIN : Z := - 2 ^ 63.
Definition LONG_MAX : Z := 2 ^ 63 - 1.


(** Conversion of a wider integer to [int]: reduction modulo 2^32 into
    the signed range. *)
Definition wrap_int (n : Z) : Z := (n + 2 ^ 31) mod 2 ^ 32 - 2 ^ 31.

(** [abs] of <stdlib.h>: the negation of a negative [int], computed in
    32 bits, so that [abs(INT_MIN)] is [INT_MIN] again. *)
Definition c_abs (n : Z) : Z := wrap_int (Z.abs n).

Definition double : Type := R.
Bind Scope R_scope with double.

(** [(double)n] for an [int] [n]: exact. *)
Definition int_to_double (n : Z) : double := IZR n.

Definition fabs (x : double) : double := Rabs x.

(** Truncation toward zero of a real number. *)
Definition trunc (x : double) : Z :=
  if Rle_dec 0 x then Int_part x else - Int_part (- x).

(** [(int)x] for a [double] [x]: truncation toward zero when the result
    is an [int]. Outside that range C leaves the conversion undefined;
    the x86-64 instruction compilers emit for it (cvttsd2si) yields
    [INT_MIN], which is what the model returns. *)
Definition double_to_int (x : double) : Z :=
  let t := trunc x in
  if (INT_MIN <=? t) && (t <=? INT_MAX) then t else INT_MIN.

(** [pow] of <math.h> on a base that is not negative, the only bases the
    curve passes to it: [pow(x, 0) = 1] for every [x], [pow(0, y) = 0]
    for [y > 0], and [exp (y * ln x)] for [x > 0]. ([pow(0, y)] for
    [y < 0] is an infinity in C; the model has [0] there, and no
    statement below with a negative exponent depends on it.) *)
Definition c_pow (x y : double) : double :=
  if Req_dec_T y 0 then 1%R
  else if Rlt_dec 0 x then Rpower x y
  else 0%R.

(* ------------------------------------------------------------------ *)
(** ** Nonlinear curve *)

(** [apply_curve]. For [deadzone = 350] the quotient is a division by
    zero, an infinity or NaN in C, which the real numbers do not have;
    the statements below that depend on its value have
    [deadzone < 350]. *)
Definition apply_curve (raw deadzone : Z) (exponent scale : double) : double :=
  let v := int_to_double raw in
  if Rlt_dec (fabs v) (int_to_double deadzone) then 0%R
  else
    let sign := if Rgt_dec v 0 then 1%R else (-1)%R in
    let norm := ((fabs v - int_to_double deadzone)
                 / (350 - int_to_double deadzone))%R in
    let norm := if Rgt_dec norm 1 then 1%R else norm in
    let norm := if Rlt_dec norm 0 then 0%R else norm in
    (sign * c_pow norm exponent * scale)%R.

(** The device's maximum raw magnitude. *)
Definition MAX_RAW : Z := 350.

Definition clamp (lo hi x : R) : R := Rmax lo (Rmin hi x).

(** The contract of the specification, in its words: zero inside the
    deadzone, otherwise the normalised magnitude clamped to [0,1],
    raised to [exponent], scaled, with the sign [sg raw] restored. The
    sign function is a parameter: [sgn] is the mathematical one,
    [sign_of_curve] the one the source computes. *)
Definition shape (sg : Z -> R) (raw deadzone : Z) (exponent scale : double)
  : double :=
  if Z.abs raw <? deadzone then 0%R
  else (sg raw
        * c_pow (clamp 0 1 (IZR (Z.abs raw - deadzone)
                            / IZR (MAX_RAW - deadzone))) exponent
        * scale)%R.

Definition sgn (raw : Z) : R := IZR (Z.sgn raw).

Definition sign_of_curve (raw : Z) : R := if 0 <? raw then 1%R else (-1)%R.

(** "The result has the same sign as raw, or is zero." *)
Definition same_sign_or_zero (raw : Z) (y : R) : Prop :=
  y = 0%R \/ (0 < raw /\ (0 < y)%R) \/ (raw < 0 /\ (y < 0)%R).

(* ------------------------------------------------------------------ *)
(** ** Scroll accumulator *)

Record scroll_acc := mk_scroll_acc {
  acc_x : double;
  acc_y : double;
  acc_z : double
}.

Definition scroll_acc_reset : scroll_acc := mk_scroll_acc 0 0 0.

(** [scroll_acc_consume(&acc)]: the returned [int] and the new [*acc]. *)
Definition scroll_acc_consume (acc : double) : Z * double :=
  let val := double_to_int acc in
  (val, (acc - IZR val)%R).

(** One use of the accumulator as the main loop makes it:
    [acc += delta], then [scroll_acc_consume(&acc)]. The addition is
    the one of binary64, which rounds: [fadd remainder delta] is the
    double it yields, and what is stated about [feed] is stated for
    every [fadd]. Inside [scroll_acc_consume] nothing rounds as long
    as the conversion has a result: the [int] converts back exactly,
    and the difference, the fraction of [acc], is a double. *)
Definition feed (fadd : double -> double -> double)
    (remainder delta : double) : Z * double :=
  scroll_acc_consume (fadd remainder delta).

(** Feeding a sequence of deltas: the integers returned, and the
    remainder left. *)
Fixpoint feed_all (fadd : double -> double -> double) (remainder : double)
    (deltas : list double) : list Z * double :=
  match deltas with
  | [] => ([], remainder)
  | d :: ds =>
      let '(v, r) := feed fadd remainder d in
      let '(vs, r') := feed_all fadd r ds in
      (v :: vs, r')
  end.




(** The conversion [(int)x] has a result: [x] truncates to an [int]. *)
Definition convertible (x : double) : Prop :=
  (IZR INT_MIN - 1 < x < IZR INT_MAX + 1)%R.

(** *** The accumulator in binary64

    The same operations on the doubles themselves, bit for bit, for
    the inputs at which the rounding of the addition decides. *)
Module Binary64.

Import PrimFloat FloatOps SpecFloat.

(** [(int)x]: truncation toward zero, and [INT_MIN] where the result
    is no [int] (cvttsd2si). *)
Definition double_to_int (x : float) : Z :=
  match Prim2SF x with
  | S754_zero _ => 0
  | S754_finite s m e =>
      let t := if 0 <=? e then Zpos m * 2 ^ e else Zpos m / 2 ^ (- e) in
      let t := if s then - t else t in
      if (INT_MIN <=? t) && (t <=? INT_MAX) then t else INT_MIN
  | _ => INT_MIN
  end.

(** [(double)n] for an [int] [n]: exact. *)
Definition int_to_double (n : Z) : float :=
  if n <? 0 then opp (of_uint63 (Uint63.of_Z (- n)))
  else of_uint63 (Uint63.of_Z n).

Definition scroll_acc_consume (acc : float) : Z * float :=
  let val := double_to_int acc in
  (val, sub acc (int_to_double val)).

Definition feed (remainder delta : float) : Z * float :=
  scroll_acc_consume (add remainder delta).

Fixpoint feed_all (remainder : float) (deltas : list float)
  : list Z * float :=
  match deltas with
  | [] => ([], remainder)
  | d :: ds =>
      let '(v, r) := feed remainder d in
      let '(vs, r') := feed_all r ds in
      (v :: vs, r')
  end.

(** The real number a finite double denotes ([0] for the others). *)
Definition value (x : float) : R :=
  match Prim2SF x with
  | S754_finite s m e =>
      let v := if 0 <=? e then IZR (Zpos m * 2 ^ e)
               else (IZR (Zpos m) / IZR (2 ^ (- e)))%R in
      if s then (- v)%R else v
  | _ => 0%R
  end.

Definition int_max : float := 2147483647%float.
Definition two_32 : float := 0x1p32%float.

Definition sample_acc : float := (-2.75)%float.

(** The deltas 1.5, 0.75 and -3, and the remainder -0.75. *)
Definition sample_deltas : list float := [1.5; 0.75; -3]%float.
Definition sample_remainder : float := (-0.75)%float.

End Binary64.

(* ------------------------------------------------------------------ *)
(** ** C strings *)

(** [snprintf(buf, size, "%s...", ...)]: the formatted [text], cut to the
    [size - 1] bytes the buffer has room for. *)
Definition snprintf (size : nat) (text : string) : string :=
  substring 0 (size - 1) text.

(** [strncat(dest, src, n)]: [dest] followed by at most [n] bytes of
    [src]. *)
Definition strncat (dest src : string) (n : nat) : string :=
  (dest ++ substring 0 n src)%string.

(** [isspace] and [tolower] in the C locale (the program never calls
    [setlocale]). *)
Definition isspace (c : ascii) : bool :=
  let n := nat_of_ascii c in
  (n =? 32)%nat || ((9 <=? n)%nat && (n <=? 13)%nat).

Definition tolower (c : ascii) : ascii :=
  let n := nat_of_ascii c in
  if ((65 <=? n)%nat && (n <=? 90)%nat)%bool then ascii_of_nat (n + 32) else c.

Definition digit_value (c : ascii) : option Z :=
  let n := nat_of_ascii c in
  if ((48 <=? n)%nat && (n <=? 57)%nat)%bool
  then Some (Z.of_nat (n - 48)) else None.

(** The line feed that ends every response. *)
Definition LF : string := String "010" EmptyString.

(** [strcasecmp(a, b) == 0]. *)
Fixpoint strcasecmp_eq (a b : string) : bool :=
  match a, b with
  | EmptyString, EmptyString => true
  | String x a', String y b' =>
      Ascii.eqb (tolower x) (tolower y) && strcasecmp_eq a' b'
  | _, _ => false
  end.

(** [strcmp(a, b) == 0]. *)
Definition strcmp_eq (a b : string) : bool := String.eqb a b.

(** [strncmp(buf, prefix, strlen(prefix)) == 0]; when it holds, the rest
    of [buf] ([buf + strlen(prefix)]). *)
Fixpoint strip_prefix (pre buf : string) : option string :=
  match pre, buf with
  | EmptyString, _ => Some buf
  | String x pre', String y buf' =>
      if Ascii.eqb x y then strip_prefix pre' buf' else None
  | String _ _, EmptyString => None
  end.

(** [atoi] as glibc has it, [(int) strtol(s, NULL, 10)]: white space is
    skipped, an optional sign is read, then the longest run of decimal
    digits; [strtol] saturates at the bounds of [long], and the
    conversion to [int] wraps. A string with no digits gives 0. *)
Fixpoint skip_spaces (s : string) : string :=
  match s with
  | String c s' => if isspace c then skip_spaces s' else s
  | EmptyString => s
  end.

Fixpoint digits (acc : Z) (s : string) : Z :=
  match s with
  | String c s' =>
      match digit_value c with
      | Some d => digits (10 * acc + d) s'
      | None => acc
      end
  | EmptyString => acc
  end.

Definition strtol (s : string) : Z :=
  let s := skip_spaces s in
  let v :=
    match s with
    | String "-" s' => - digits 0 s'
    | String "+" s' => digits 0 s'
    | _ => digits 0 s
    end in
  Z.max LONG_MIN (Z.min LONG_MAX v).

Definition atoi (s : string) : Z := wrap_int (strtol s).

(* ------------------------------------------------------------------ *)
(** ** The configuration document (json-c) *)

(** A parsed JSON document. An object keeps its members in document
    order, one per key. *)
Inductive json : Type :=
| JNull
| JBool (b : bool)
| JInt (n : Z)
| JDouble (x : R)
| JString (s : string)
| JArray (items : list json)
| JObject (members : list (string * json)).

(** The value getters of json-c, which coerce a value of any type to the
    type asked for. The library is not part of the repository: its
    getters are parameters of the model. [json_object_get_string] gives
    [None] where the library returns [NULL]. *)
Class json_c : Type := {
  json_object_get_int : json -> Z;
  json_object_get_double : json -> double;
  json_object_get_boolean : json -> bool;
  json_object_get_string : json -> option string
}.

Fixpoint member (key : string) (members : list (string * json))
  : option json :=
  match members with
  | [] => None
  | (k, v) :: rest => if String.eqb k key then Some v else member key rest
  end.

(** [json_object_object_get_ex(obj, key, &val)]: [Some val] when it
    returns true; false for every [obj] that is not an object. *)
Definition json_object_object_get_ex (obj : json) (key : string)
  : option json :=
  match obj with
  | JObject members => member key members
  | _ => None
  end.

(** The members an iteration from [json_object_iter_begin(obj)] to
    [json_object_iter_end(obj)] visits. The library requires [obj] to
    be an object and dereferences its table; [None] stands for the
    crash on any other value. *)
Definition json_object_iter (obj : json) : option (list (string * json)) :=
  match obj with
  | JObject members => Some members
  | _ => None
  end.

(** The elements [json_object_array_length] and
    [json_object_array_get_idx] give access to; the library requires an
    array. *)
Definition json_object_array (arr : json) : option (list json) :=
  match arr with
  | JArray items => Some items
  | _ => None
  end.

(* ------------------------------------------------------------------ *)
(** ** Configuration and profiles *)

Definition MAX_PROFILES : nat := 32.
Definition MAX_WM_CLASSES : nat := 8.
Definition CMD_BUF_SIZE : nat := 256.

Definition DEFAULT_DEADZONE : Z := 15.
Definition DEFAULT_SCROLL_SPEED : double := 3.
Definition DEFAULT_SCROLL_EXP : double := 2.
Definition DEFAULT_ZOOM_SPEED : double := 2.
Definition DEFAULT_DSWITCH_THRESH : Z := 200.
Definition DEFAULT_DSWITCH_COOL_MS : Z := 500.
Definition DEFAULT_SENSITIVITY : double := 1.

Inductive axis_action : Type :=
| ACT_NONE | ACT_SCROLL_H | ACT_SCROLL_V | ACT_ZOOM | ACT_DESKTOP_SWITCH.

Inductive btn_action : Type :=
| BTNACT_NONE | BTNACT_OVERVIEW | BTNACT_SHOW_DESKTOP.

Record config : Type := mk_config {
  deadzone : Z;
  scroll_speed : double;
  scroll_exponent : double;
  zoom_speed : double;
  dswitch_threshold : Z;
  dswitch_cooldown_ms : Z;
  axis_map : list axis_action;     (* 6 slots *)
  btn_map : list btn_action;       (* 16 slots *)
  invert_scroll_x : bool;
  invert_scroll_y : bool;
  sensitivity : double
}.

Record profile : Type := mk_profile {
  name : string;                   (* char name[64] *)
  wm_classes : list string;        (* wm_class_count entries *)
  cfg : config
}.

(** [a[i] = v] on an array held as a list; the source checks the index
    before every store. *)
Fixpoint array_set {A : Type} (a : list A) (i : nat) (v : A) : list A :=
  match a, i with
  | [], _ => []
  | _ :: t, O => v :: t
  | h :: t, S i' => h :: array_set t i' v
  end.

Definition set_deadzone (c : config) (v : Z) : config :=
  mk_config v (scroll_speed c) (scroll_exponent c) (zoom_speed c)
    (dswitch_threshold c) (dswitch_cooldown_ms c) (axis_map c) (btn_map c)
    (invert_scroll_x c) (invert_scroll_y c) (sensitivity c).
Definition set_scroll_speed (c : config) (v : double) : config :=
  mk_config (deadzone c) v (scroll_exponent c) (zoom_speed c)
    (dswitch_threshold c) (dswitch_cooldown_ms c) (axis_map c) (btn_map c)
    (invert_scroll_x c) (invert_scroll_y c) (sensitivity c).
Definition set_scroll_exponent (c : config) (v : double) : config :=
  mk_config (deadzone c) (scroll_speed c) v (zoom_speed c)
    (dswitch_threshold c) (dswitch_cooldown_ms c) (axis_map c) (btn_map c)
    (invert_scroll_x c) (invert_scroll_y c) (sensitivity c).
Definition set_zoom_speed (c : config) (v : double) : config :=
  mk_config (deadzone c) (scroll_speed c) (scroll_exponent c) v
    (dswitch_threshold c) (dswitch_cooldown_ms c) (axis_map c) (btn_map c)
    (invert_scroll_x c) (invert_scroll_y c) (sensitivity c).
Definition set_dswitch_threshold (c : config) (v : Z) : config :=
  mk_config (deadzone c) (scroll_speed c) (scroll_exponent c) (zoom_speed c)
    v (dswitch_cooldown_ms c) (axis_map c) (btn_map c)
    (invert_scroll_x c) (invert_scroll_y c) (sensitivity c).
Definition set_dswitch_cooldown_ms (c : config) (v : Z) : config :=
  mk_config (deadzone c) (scroll_speed c) (scroll_exponent c) (zoom_speed c)
    (dswitch_threshold c) v (axis_map c) (btn_map c)
    (invert_scroll_x c) (invert_scroll_y c) (sensitivity c).
Definition set_axis_map (c : config) (v : list axis_action) : config :=
  mk_config (deadzone c) (scroll_speed c) (scroll_exponent c) (zoom_speed c)
    (dswitch_threshold c) (dswitch_cooldown_ms c) v (btn_map c)
    (invert_scroll_x c) (invert_scroll_y c) (sensitivity c).
Definition set_btn_map (c : config) (v : list btn_action) : config :=
  mk_config (deadzone c) (scroll_speed c) (scroll_exponent c) (zoom_speed c)
    (dswitch_threshold c) (dswitch_cooldown_ms c) (axis_map c) v
    (invert_scroll_x c) (invert_scroll_y c) (sensitivity c).
Definition set_invert_scroll_x (c : config) (v : bool) : config :=
  mk_config (deadzone c) (scroll_speed c) (scroll_exponent c) (zoom_speed c)
    (dswitch_threshold c) (dswitch_cooldown_ms c) (axis_map c) (btn_map c)
    v (invert_scroll_y c) (sensitivity c).
Definition set_invert_scroll_y (c : config) (v : bool) : config :=
  mk_config (deadzone c) (scroll_speed c) (scroll_exponent c) (zoom_speed c)
    (dswitch_threshold c) (dswitch_cooldown_ms c) (axis_map c) (btn_map c)
    (invert_scroll_x c) v (sensitivity c).
Definition set_sensitivity (c : config) (v : double) : config :=
  mk_config (deadzone c) (scroll_speed c) (scroll_exponent c) (zoom_speed c)
    (dswitch_threshold c) (dswitch_cooldown_ms c) (axis_map c) (btn_map c)
    (invert_scroll_x c) (invert_scroll_y c) v.

Definition parse_axis_action (s : option string) : axis_action :=
  match s with
  | None => ACT_NONE
  | Some s =>
      if strcmp_eq s "scroll_h" then ACT_SCROLL_H
      else if strcmp_eq s "scroll_v" then ACT_SCROLL_V
      else if strcmp_eq s "zoom" then ACT_ZOOM
      else if strcmp_eq s "desktop_switch" then ACT_DESKTOP_SWITCH
      else ACT_NONE
  end.

Definition parse_btn_action (s : option string) : btn_action :=
  match s with
  | None => BTNACT_NONE
  | Some s =>
      if strcmp_eq s "overview" then BTNACT_OVERVIEW
      else if strcmp_eq s "show_desktop" then BTNACT_SHOW_DESKTOP
      else BTNACT_NONE
  end.

(** [config_defaults]: the structure zeroed, then the built-in values. *)
Definition config_defaults : config :=
  {| deadzone := DEFAULT_DEADZONE;
     scroll_speed := DEFAULT_SCROLL_SPEED;
     scroll_exponent := DEFAULT_SCROLL_EXP;
     zoom_speed := DEFAULT_ZOOM_SPEED;
     dswitch_threshold := DEFAULT_DSWITCH_THRESH;
     dswitch_cooldown_ms := DEFAULT_DSWITCH_COOL_MS;
     axis_map := [ACT_SCROLL_H; ACT_SCROLL_V; ACT_ZOOM;
                  ACT_NONE; ACT_DESKTOP_SWITCH; ACT_NONE];
     btn_map := BTNACT_OVERVIEW :: BTNACT_SHOW_DESKTOP
                :: repeat BTNACT_NONE 14;
     invert_scroll_x := false;
     invert_scroll_y := false;
     sensitivity := DEFAULT_SENSITIVITY |}.

Definition empty_config : config :=
  mk_config 0 0 0 0 0 0 [] [] false false 0.

(** A [struct profile] after [memset(p, 0, sizeof p[0])]. *)
Definition empty_profile : profile := mk_profile "" [] empty_config.

Section Configuration.

Context {J : json_c}.

(** [if (json_object_object_get_ex(obj, key, &val)) c->field = ...]. *)
Definition with_key (obj : json) (key : string)
    (store : json -> config -> config) (c : config) : config :=
  match json_object_object_get_ex obj key with
  | Some val => store val c
  | None => c
  end.

Definition set_axis (i : nat) (ax : json) (c : config) : config :=
  set_axis_map c
    (array_set (axis_map c) i (parse_axis_action (json_object_get_string ax))).

Definition parse_axis_mapping (amap : json) (c : config) : config :=
  let c := with_key amap "tx" (set_axis 0) c in
  let c := with_key amap "ty" (set_axis 1) c in
  let c := with_key amap "tz" (set_axis 2) c in
  let c := with_key amap "rx" (set_axis 3) c in
  let c := with_key amap "ry" (set_axis 4) c in
  let c := with_key amap "rz" (set_axis 5) c in
  c.

(** One turn of the loop over the members of [button_mapping]. *)
Definition button_entry (c : config) (entry : string * json) : config :=
  let bnum := atoi (fst entry) in
  let bval := snd entry in
  if (0 <=? bnum) && (bnum <? 16) then
    set_btn_map c
      (array_set (btn_map c) (Z.to_nat bnum)
         (parse_btn_action (json_object_get_string bval)))
  else c.

Definition parse_button_mapping (obj : json) (c : config) : option config :=
  match json_object_object_get_ex obj "button_mapping" with
  | None => Some c
  | Some bmap =>
      match json_object_iter bmap with
      | None => None
      | Some members => Some (fold_left button_entry members c)
      end
  end.

(** The loop over [match_wm_class]: at most [MAX_WM_CLASSES] elements
    are read, and each one with a string is appended. *)
Definition wm_class_entry (wms : list string) (item : json) : list string :=
  match json_object_get_string item with
  | Some s => wms ++ [s]
  | None => wms
  end.

Definition parse_wm_classes (obj : json) (wms : list string)
  : option (list string) :=
  match json_object_object_get_ex obj "match_wm_class" with
  | None => Some wms
  | Some wmarr =>
      match json_object_array wmarr with
      | None => None
      | Some items =>
          Some (fold_left wm_class_entry (firstn MAX_WM_CLASSES items) wms)
      end
  end.

(** [parse_profile_obj(obj, p, defaults)]: the profile [p] afterwards;
    [None] when json-c is handed a value of the wrong kind to iterate. *)
Definition parse_profile_obj (obj : json) (p : profile)
    (defaults : option config) : option profile :=
  let c := match defaults with
           | Some d => d
           | None => config_defaults
           end in
  let c := with_key obj "deadzone"
             (fun val c => set_deadzone c (json_object_get_int val)) c in
  let c := with_key obj "scroll_speed"
             (fun val c => set_scroll_speed c (json_object_get_double val)) c in
  let c := with_key obj "scroll_exponent"
             (fun val c => set_scroll_exponent c (json_object_get_double val)) c in
  let c := with_key obj "zoom_speed"
             (fun val c => set_zoom_speed c (json_object_get_double val)) c in
  let c := with_key obj "desktop_switch_threshold"
             (fun val c => set_dswitch_threshold c (json_object_get_int val)) c in
  let c := with_key obj "desktop_switch_cooldown_ms"
             (fun val c => set_dswitch_cooldown_ms c (json_object_get_int val)) c in
  let c := with_key obj "invert_scroll_x"
             (fun val c => set_invert_scroll_x c (json_object_get_boolean val)) c in
  let c := with_key obj "invert_scroll_y"
             (fun val c => set_invert_scroll_y c (json_object_get_boolean val)) c in
  let c := with_key obj "sensitivity"
             (fun val c => set_sensitivity c (json_object_get_double val)) c in
  let c := with_key obj "axis_mapping" parse_axis_mapping c in
  match parse_button_mapping obj c with
  | None => None
  | Some c =>
      match parse_wm_classes obj (wm_classes p) with
      | None => None
      | Some wms => Some (mk_profile (name p) wms c)
      end
  end.

(** What the running program prints on stderr: the lines of
    [config_load_all], and the line of [cmd_handle_client] for a
    profile a client has switched to. *)
Inductive log_line : Type :=
| LOG_config_not_found (path : string)
| LOG_loaded (count : nat) (path : string)
| LOG_profile (i : nat) (name : string) (wm_class_count : nat)
| LOG_switched (name : string).

(** The lines of the closing loop, one per profile, from index [i]. *)
Fixpoint log_profiles (i : nat) (ps : list profile) : list log_line :=
  match ps with
  | [] => []
  | p :: rest =>
      LOG_profile i (name p) (List.length (wm_classes p))
      :: log_profiles (S i) rest
  end.

(** The second loop of the multi-profile branch: [loaded] is
    [g_profiles[0 .. g_profile_count - 1]]. *)
Fixpoint load_named (defaults : config) (members : list (string * json))
    (loaded : list profile) : option (list profile) :=
  match members with
  | [] => Some loaded
  | (pname, obj) :: rest =>
      if negb (strcmp_eq pname "default")
         && (List.length loaded <? MAX_PROFILES)%nat
      then
        match parse_profile_obj obj
                (mk_profile (snprintf 64 pname) [] empty_config)
                (Some defaults) with
        | None => None
        | Some p => load_named defaults rest (loaded ++ [p])
        end
      else load_named defaults rest loaded
  end.

(** The profile table and the active index. *)
Record store : Type := mk_store {
  g_profiles : list profile;       (* g_profile_count entries *)
  g_active_profile : nat
}.

(** [config_load_all(path)]: [root] is what [json_object_from_file(path)]
    returns, [None] for a document that cannot be read or parsed. The
    result is the return value, the new table with the active index, and
    the lines logged. *)
Definition config_load_all (root : option json) (path : string)
  : option (Z * store * list log_line) :=
  let p0 := mk_profile (snprintf 64 "default") [] empty_config in
  match root with
  | None =>
      Some (0, mk_store [mk_profile (name p0) [] config_defaults] 0,
            [LOG_config_not_found path])
  | Some root =>
      match json_object_object_get_ex root "profiles" with
      | Some profiles_obj =>
          let first :=
            match json_object_object_get_ex profiles_obj "default" with
            | Some def_obj => parse_profile_obj def_obj p0 None
            | None => Some (mk_profile (name p0) [] config_defaults)
            end in
          match first with
          | None => None
          | Some d =>
              match json_object_iter profiles_obj with
              | None => None
              | Some members =>
                  match load_named (cfg d) members [d] with
                  | None => None
                  | Some ps =>
                      Some (0, mk_store ps 0,
                            LOG_loaded (List.length ps) path
                            :: log_profiles 0 ps)
                  end
              end
          end
      | None =>
          match parse_profile_obj root p0 None with
          | None => None
          | Some d =>
              Some (0, mk_store [d] 0,
                    LOG_loaded 1 path :: log_profiles 0 [d])
          end
      end
  end.

End Configuration.

(* ------------------------------------------------------------------ *)
(** ** Command socket *)

Fixpoint find_index {A : Type} (f : A -> bool) (l : list A) : option nat :=
  match l with
  | [] => None
  | x :: t => if f x then Some O else option_map S (find_index f t)
  end.

Definition profile_at (ps : list profile) (i : nat) : profile :=
  nth i ps empty_profile.

Definition is_eol (c : ascii) : bool :=
  Ascii.eqb c "010" || Ascii.eqb c "013".

(** The loop that replaces trailing ['\n'] and ['\r'] by NUL. *)
Fixpoint strip_trailing (buf : string) : string :=
  match buf with
  | EmptyString => EmptyString
  | String c rest =>
      match strip_trailing rest with
      | EmptyString => if is_eol c then EmptyString else String c EmptyString
      | kept => String c kept
      end
  end.

(** The bytes of a buffer up to its first NUL. *)
Fixpoint c_str (buf : string) : string :=
  match buf with
  | EmptyString => EmptyString
  | String c rest => if Ascii.eqb c "000" then EmptyString
                     else String c (c_str rest)
  end.

(** The command line the handler interprets: at most
    [CMD_BUF_SIZE - 1] bytes are read, the trailing line ends are
    stripped, and the buffer is used as a C string. *)
Definition command_line (received : string) : string :=
  c_str (strip_trailing (substring 0 (CMD_BUF_SIZE - 1) received)).

(** The loop of [STATUS] over the profile names. *)
Fixpoint status_names (response : string) (ps : list profile) : string :=
  match ps with
  | [] => response
  | p :: rest =>
      let rem := (CMD_BUF_SIZE - String.length response - 1)%nat in
      if (rem <? 2)%nat then response
      else
        let response := strncat response " " rem in
        let response := strncat response (name p) (rem - 1) in
        status_names response rest
  end.

(** [cmd_handle_client]: [received] is what [read] delivered on the
    accepted connection ([None] when [accept] fails). The result is the
    table, the reload flag and the response written, if any; what the
    function prints on stderr is [cmd_handle_client_stderr] below. *)
Definition cmd_handle_client (s : store) (g_reload : bool)
    (received : option string) : store * bool * option string :=
  match received with
  | None => (s, g_reload, None)
  | Some received =>
      if (String.length (substring 0 (CMD_BUF_SIZE - 1) received) =? 0)%nat
      then (s, g_reload, None)
      else
        let buf := command_line received in
        match strip_prefix "PROFILE " buf with
        | Some name0 =>
            match find_index (fun p => strcasecmp_eq (name p) name0)
                    (g_profiles s) with
            | Some found =>
                (mk_store (g_profiles s) found, g_reload,
                 Some (snprintf CMD_BUF_SIZE
                         ("OK " ++ name (profile_at (g_profiles s) found)
                          ++ LF)%string))
            | None =>
                (s, g_reload,
                 Some (snprintf CMD_BUF_SIZE
                         ("ERR unknown profile '" ++ name0 ++ "'"
                          ++ LF)%string))
            end
        | None =>
            if strcmp_eq buf "RELOAD" then
              (s, true,
               Some (snprintf CMD_BUF_SIZE
                       ("OK reloading" ++ LF)%string))
            else if strcmp_eq buf "STATUS" then
              let response :=
                snprintf CMD_BUF_SIZE
                  ("ACTIVE "
                   ++ name (profile_at (g_profiles s) (g_active_profile s))
                   ++ LF ++ "PROFILES")%string in
              let response := status_names response (g_profiles s) in
              (s, g_reload,
               Some (strncat response LF
                       (CMD_BUF_SIZE - String.length response - 1)))
            else
              (s, g_reload,
               Some (snprintf CMD_BUF_SIZE
                       ("ERR unknown command" ++ LF)%string))
        end
  end.

(** What [cmd_handle_client] prints on stderr: the line
    [switched to profile '<name>'] when a [PROFILE] request finds its
    profile, and nothing on any other path. *)
Definition cmd_handle_client_stderr (s : store) (received : option string)
  : list log_line :=
  match received with
  | None => []
  | Some received =>
      if (String.length (substring 0 (CMD_BUF_SIZE - 1) received) =? 0)%nat
      then []
      else
        match strip_prefix "PROFILE " (command_line received) with
        | Some name0 =>
            match find_index (fun p => strcasecmp_eq (name p) name0)
                    (g_profiles s) with
            | Some found =>
                [LOG_switched (name (profile_at (g_profiles s) found))]
            | None => []
            end
        | None => []
        end
  end.

(* ------------------------------------------------------------------ *)
(** ** Reload in the main loop *)

(** The [if (g_reload)] block at the top of the main loop. *)
Definition reload {J : json_c} (root : option json) (path : string)
    (s : store) : option (store * bool * scroll_acc * list log_line) :=
  let old_name :=
    snprintf 64 (name (profile_at (g_profiles s) (g_active_profile s))) in
  match config_load_all root path with
  | None => None
  | Some (_, s', log) =>
      let active :=
        match find_index (fun p => strcmp_eq (name p) old_name)
                (g_profiles s') with
        | Some i => i
        | None => O
        end in
      Some (mk_store (g_profiles s') active, false, scroll_acc_reset, log)
  end.

(* ------------------------------------------------------------------ *)
(** ** Output collaborators *)

(** Event types and codes of <linux/input-event-codes.h> the program
    writes. *)
Inductive ev_type : Type := EV_SYN | EV_KEY | EV_REL.
Inductive ev_code : Type :=
| SYN_REPORT | KEY_LEFTCTRL
| REL_WHEEL | REL_HWHEEL | REL_WHEEL_HI_RES | REL_HWHEEL_HI_RES.

Inductive DBusConnection : Type := Session_bus.

(** The calls the program makes on its collaborators. A call on libdbus
    records the connection handle it is given, [None] for [NULL]. *)
Inductive effect : Type :=
| EMIT (fd : Z) (type : ev_type) (code : ev_code) (value : Z)
| KWIN_CALL (conn : DBusConnection) (method : string)
| KGLOBALACCEL_CALL (conn : DBusConnection) (shortcut : string)
| DBUS_SEND (conn : option DBusConnection) (method : string) (arg : bool)
| DBUS_FLUSH (conn : option DBusConnection).

(** The collaborators as [main] set them up: the uinput descriptor
    (negative when [uinput_open] failed), the D-Bus connection ([None]
    when [dbus_connect] failed), and whether libdbus can allocate a
    message. *)
Record collaborators : Type := mk_collaborators {
  g_uinput_fd : Z;
  g_dbus : option DBusConnection;
  message_allocated : bool
}.

Definition emit_event (fd : Z) (type : ev_type) (code : ev_code) (val : Z)
  : list effect := [EMIT fd type code val].

Definition emit_scroll (fd dx dy : Z) : list effect :=
  (if dy =? 0 then []
   else emit_event fd EV_REL REL_WHEEL dy
        ++ emit_event fd EV_REL REL_WHEEL_HI_RES (wrap_int (dy * 120)))
  ++ (if dx =? 0 then []
      else emit_event fd EV_REL REL_HWHEEL dx
           ++ emit_event fd EV_REL REL_HWHEEL_HI_RES (wrap_int (dx * 120)))
  ++ (if negb (dx =? 0) || negb (dy =? 0)
      then emit_event fd EV_SYN SYN_REPORT 0 else []).

Definition emit_zoom (fd dz : Z) : list effect :=
  if dz =? 0 then []
  else emit_event fd EV_KEY KEY_LEFTCTRL 1
       ++ emit_event fd EV_SYN SYN_REPORT 0
       ++ emit_event fd EV_REL REL_WHEEL dz
       ++ emit_event fd EV_REL REL_WHEEL_HI_RES (wrap_int (dz * 120))
       ++ emit_event fd EV_SYN SYN_REPORT 0
       ++ emit_event fd EV_KEY KEY_LEFTCTRL 0
       ++ emit_event fd EV_SYN SYN_REPORT 0.

Definition dbus_call_kwin (k : collaborators) (method : string)
  : list effect :=
  match g_dbus k with
  | None => []
  | Some conn => if message_allocated k then [KWIN_CALL conn method] else []
  end.

Definition dbus_call_kglobalaccel (k : collaborators) (shortcut : string)
  : list effect :=
  match g_dbus k with
  | None => []
  | Some conn =>
      if message_allocated k then [KGLOBALACCEL_CALL conn shortcut] else []
  end.

(* ------------------------------------------------------------------ *)
(** ** Event routing in the main loop *)

Inductive direction : Type := Next | Previous.

(** The test of the [ACT_DESKTOP_SWITCH] case: the direction fired, if
    any, and the new [last_dswitch]. *)
Definition dswitch_gate (c : config) (last_dswitch : Z) (axis now : Z)
  : option direction * Z :=
  if (c_abs axis >? dswitch_threshold c)
     && (now - last_dswitch >? dswitch_cooldown_ms c)
  then (Some (if axis >? 0 then Next else Previous), now)
  else (None, last_dswitch).

Definition direction_method (d : direction) : string :=
  match d with
  | Next => "nextDesktop"
  | Previous => "previousDesktop"
  end.

Record router_state : Type := mk_router_state {
  sacc : scroll_acc;
  last_dswitch : Z;
  desktop_shown : bool
}.

(** One turn of the loop over the six axes; [now] is what [time_ms()]
    returns in that turn. *)
Definition route_axis (c : config) (k : collaborators) (now : Z)
    (action : axis_action) (raw : Z) (st : router_state)
  : router_state * list effect :=
  let a := sacc st in
  match action with
  | ACT_SCROLL_H =>
      let val := (apply_curve raw (deadzone c) (scroll_exponent c)
                    (scroll_speed c) * sensitivity c)%R in
      let val := if invert_scroll_x c then (- val)%R else val in
      (mk_router_state
         (mk_scroll_acc (acc_x a + val) (acc_y a) (acc_z a))
         (last_dswitch st) (desktop_shown st), [])
  | ACT_SCROLL_V =>
      let val := (apply_curve raw (deadzone c) (scroll_exponent c)
                    (scroll_speed c) * sensitivity c)%R in
      let val := if invert_scroll_y c then (- val)%R else val in
      (mk_router_state
         (mk_scroll_acc (acc_x a) (acc_y a - val) (acc_z a))
         (last_dswitch st) (desktop_shown st), [])
  | ACT_ZOOM =>
      let val := (apply_curve raw (deadzone c) (scroll_exponent c)
                    (zoom_speed c) * sensitivity c)%R in
      (mk_router_state
         (mk_scroll_acc (acc_x a) (acc_y a) (acc_z a + val))
         (last_dswitch st) (desktop_shown st), [])
  | ACT_DESKTOP_SWITCH =>
      match dswitch_gate c (last_dswitch st) raw now with
      | (Some d, last) =>
          (mk_router_state a last (desktop_shown st),
           dbus_call_kwin k (direction_method d))
      | (None, _) => (st, [])
      end
  | ACT_NONE => (st, [])
  end.

(** The loop over the axes: [clock i] is the reading of [time_ms()] in
    turn [i]. *)
Fixpoint route_axes (c : config) (k : collaborators) (clock : nat -> Z)
    (i : nat) (axes : list Z) (st : router_state)
  : router_state * list effect :=
  match axes with
  | [] => (st, [])
  | raw :: rest =>
      let '(st1, out1) :=
        route_axis c k (clock i) (nth i (axis_map c) ACT_NONE) raw st in
      let '(st2, out2) := route_axes c k clock (S i) rest st1 in
      (st2, out1 ++ out2)
  end.

(** A [SPNAV_EVENT_MOTION] event; [axes] are its six values. *)
Definition handle_motion (c : config) (k : collaborators) (clock : nat -> Z)
    (axes : list Z) (st : router_state) : router_state * list effect :=
  let '(st1, out) := route_axes c k clock 0 axes st in
  if g_uinput_fd k >=? 0 then
    let a := sacc st1 in
    let '(sx, ax) := scroll_acc_consume (acc_x a) in
    let '(sy, ay) := scroll_acc_consume (acc_y a) in
    let '(sz, az) := scroll_acc_consume (acc_z a) in
    (mk_router_state (mk_scroll_acc ax ay az)
       (last_dswitch st1) (desktop_shown st1),
     out ++ emit_scroll (g_uinput_fd k) sx sy
         ++ (if sz =? 0 then [] else emit_zoom (g_uinput_fd k) sz))
  else (st1, out).

(** A [SPNAV_EVENT_BUTTON] event. *)
Definition handle_button (c : config) (k : collaborators)
    (press : bool) (bnum : Z) (st : router_state)
  : router_state * list effect :=
  if negb press then (st, [])
  else if (bnum <? 0) || (bnum >=? 16) then (st, [])
  else
    match nth (Z.to_nat bnum) (btn_map c) BTNACT_NONE with
    | BTNACT_OVERVIEW => (st, dbus_call_kglobalaccel k "ExposeAll")
    | BTNACT_SHOW_DESKTOP =>
        let shown := negb (desktop_shown st) in
        (mk_router_state (sacc st) (last_dswitch st) shown,
         if message_allocated k
         then [DBUS_SEND (g_dbus k) "showDesktop" shown;
               DBUS_FLUSH (g_dbus k)]
         else [])
    | BTNACT_NONE => (st, [])
    end.

(** The samples the gate sees, in order: the triggers it fires, each
    with the time it fired at. *)
Fixpoint gate_run (c : config) (last_dswitch : Z) (samples : list (Z * Z))
  : list (direction * Z) :=
  match samples with
  | [] => []
  | (axis, now) :: rest =>
      match dswitch_gate c last_dswitch axis now with
      | (Some d, last) => (d, now) :: gate_run c last rest
      | (None, last) => gate_run c last rest
      end
  end.

(* ------------------------------------------------------------------ *)
(** ** An instance of the getters *)

(** json-c's getters on a value of the type asked for (an integer is
    cut to the range of [int]), and on [null]; every other coercion is
    taken to give the library's zero. Used to run the model on concrete
    documents. *)
Definition plain_get_int (v : json) : Z :=
  match v with
  | JInt n => Z.max INT_MIN (Z.min INT_MAX n)
  | JBool b => if b then 1 else 0
  | _ => 0
  end.

Definition plain_get_double (v : json) : double :=
  match v with
  | JDouble x => x
  | JInt n => IZR n
  | _ => 0%R
  end.

Definition plain_get_boolean (v : json) : bool :=
  match v with
  | JBool b => b
  | JInt n => negb (n =? 0)
  | _ => false
  end.

Definition plain_get_string (v : json) : option string :=
  match v with
  | JString s => Some s
  | _ => None
  end.

Definition plain_json_c : json_c :=
  {| json_object_get_int := plain_get_int;
     json_object_get_double := plain_get_double;
     json_object_get_boolean := plain_get_boolean;
     json_object_get_string := plain_get_string |}.

(* ------------------------------------------------------------------ *)
(** ** The words of the specification *)

(** "A profile omitting field F has the default profile's F; a profile
    specifying F has the specified value." *)
Definition effective {A : Type} (specified : option A) (inherited : A) : A :=
  match specified with
  | Some v => v
  | None => inherited
  end.

(** The value of the last member of a [button_mapping] whose key
    converts to button [b]. *)
Definition last_entry (b : Z) (members : list (string * json))
  : option json :=
  option_map snd (find (fun kv => atoi (fst kv) =? b) (rev members)).

Definition axis_keys : list string := ["tx"; "ty"; "tz"; "rx"; "ry"; "rz"].

(** What a profile object says about axis slot [i], and about button
    [b], if anything. *)
Definition specified_axis (obj : json) (i : nat) : option json :=
  match json_object_object_get_ex obj "axis_mapping" with
  | Some amap => json_object_object_get_ex amap (nth i axis_keys "")
  | None => None
  end.

Definition specified_button (obj : json) (b : Z) : option json :=
  match json_object_object_get_ex obj "button_mapping" with
  | Some (JObject members) => last_entry b members
  | _ => None
  end.

(** The named members of a [profiles] object, in document order. *)
Definition named_members (members : list (string * json))
  : list (string * json) :=
  filter (fun kv => negb (strcmp_eq (fst kv) "default")) members.

(** The configuration [c] is what the profile object [obj] gives over
    the inherited configuration [d]: field by field for the scalar
    fields, entry by entry for the two mappings. *)
Definition inherits {J : json_c} (obj : json) (c d : config) : Prop :=
  deadzone c
    = effective (option_map json_object_get_int
                   (json_object_object_get_ex obj "deadzone")) (deadzone d)
  /\ scroll_speed c
    = effective (option_map json_object_get_double
                   (json_object_object_get_ex obj "scroll_speed"))
        (scroll_speed d)
  /\ scroll_exponent c
    = effective (option_map json_object_get_double
                   (json_object_object_get_ex obj "scroll_exponent"))
        (scroll_exponent d)
  /\ zoom_speed c
    = effective (option_map json_object_get_double
                   (json_object_object_get_ex obj "zoom_speed")) (zoom_speed d)
  /\ dswitch_threshold c
    = effective (option_map json_object_get_int
                   (json_object_object_get_ex obj "desktop_switch_threshold"))
        (dswitch_threshold d)
  /\ dswitch_cooldown_ms c
    = effective (option_map json_object_get_int
                   (json_object_object_get_ex obj "desktop_switch_cooldown_ms"))
        (dswitch_cooldown_ms d)
  /\ invert_scroll_x c
    = effective (option_map json_object_get_boolean
                   (json_object_object_get_ex obj "invert_scroll_x"))
        (invert_scroll_x d)
  /\ invert_scroll_y c
    = effective (option_map json_object_get_boolean
                   (json_object_object_get_ex obj "invert_scroll_y"))
        (invert_scroll_y d)
  /\ sensitivity c
    = effective (option_map json_object_get_double
                   (json_object_object_get_ex obj "sensitivity"))
        (sensitivity d)
  /\ (forall i : nat, (i < 6)%nat ->
      nth i (axis_map c) ACT_NONE
      = effective (option_map
                     (fun ax => parse_axis_action (json_object_get_string ax))
                     (specified_axis obj i))
          (nth i (axis_map d) ACT_NONE))
  /\ (forall b : Z, 0 <= b < 16 ->
      nth (Z.to_nat b) (btn_map c) BTNACT_NONE
      = effective (option_map
                     (fun bval => parse_btn_action (json_object_get_string bval))
                     (specified_button obj b))
          (nth (Z.to_nat b) (btn_map d) BTNACT_NONE)).

(** A name with its letters in lower case: two names are the same
    "case-insensitively" when these agree. *)
Fixpoint lowercase (s : string) : string :=
  match s with
  | EmptyString => EmptyString
  | String c s' => String (tolower c) (lowercase s')
  end.

(** The profile a named member [(pname, obj)] is loaded as, over the
    default configuration [d]. *)
Definition loaded_as {J : json_c} (d : config) (member : string * json)
    (p : profile) : Prop :=
  parse_profile_obj (snd member)
    (mk_profile (snprintf 64 (fst member)) [] empty_config) (Some d) = Some p.

(** The table is one a load can have produced and a command can have
    switched: every name fits [char name[64]], and the active index is
    within the table. *)
Definition store_ok (s : store) : Prop :=
  Forall (fun p => (String.length (name p) <= 63)%nat) (g_profiles s)
  /\ (g_active_profile s < List.length (g_profiles s))%nat.

(** The kinds of value json-c can iterate: a [button_mapping] that is
    an object, a [match_wm_class] that is an array, a [profiles] that is
    an object. *)
Definition profile_obj_ok (obj : json) : bool :=
  match json_object_object_get_ex obj "button_mapping" with
  | None | Some (JObject _) => true
  | Some _ => false
  end
  && match json_object_object_get_ex obj "match_wm_class" with
     | None | Some (JArray _) => true
     | Some _ => false
     end.

Definition document_ok (root : option json) : bool :=
  match root with
  | None => true
  | Some root =>
      match json_object_object_get_ex root "profiles" with
      | None => profile_obj_ok root
      | Some (JObject members) =>
          forallb (fun kv => profile_obj_ok (snd kv)) members
      | Some _ => false
      end
  end.

(* ------------------------------------------------------------------ *)
(** ** Sample documents *)

(** [{"profiles": {"Web": {"deadzone": 7, "button_mapping": {"2":
    "overview"}}, "default": {"deadzone": 20, "scroll_speed": 5}}}] *)
Definition web_profile : json :=
  JObject [("deadzone", JInt 7);
           ("button_mapping", JObject [("2", JString "overview")])].

Definition sample_members : list (string * json) :=
  [("Web", web_profile);
   ("default", JObject [("deadzone", JInt 20); ("scroll_speed", JInt 5)])].

Definition sample_document : json :=
  JObject [("profiles", JObject sample_members)].

(** The same, with a default profile that maps button 0 to
    "show_desktop". *)
Definition sample_members' : list (string * json) :=
  [("Web", web_profile);
   ("default",
    JObject [("button_mapping", JObject [("0", JString "show_desktop")])])].

Definition sample_document' : json :=
  JObject [("profiles", JObject sample_members')].

(** A table with the default profile alone, and a profile name of 240
    bytes. *)
Definition default_store : store :=
  mk_store [mk_profile "default" [] config_defaults] 0.

Definition long_name : string := string_of_list_ascii (repeat "x"%char 240).

Definition store_of (loaded : option (Z * store * list log_line)) : store :=
  match loaded with
  | Some (_, s, _) => s
  | None => mk_store [] 0
  end.

Definition log_of (loaded : option (Z * store * list log_line))
  : list log_line :=
  match loaded with
  | Some (_, _, log) => log
  | None => []
  end.

Definition sample_store : store :=
  store_of (@config_load_all plain_json_c (Some sample_document) "config.json").

Definition sample_store' : store :=
  store_of (@config_load_all plain_json_c (Some sample_document') "config.json").

(* ------------------------------------------------------------------ *)
(** ** Sample configurations and effects *)

(** The built-in configuration with a cooldown of -1 ms. *)
Definition negative_cooldown : config :=
  set_dswitch_cooldown_ms config_defaults (-1).

(** Which collaborator a call goes through. *)
Definition through_uinput (e : effect) : bool :=
  match e with
  | EMIT _ _ _ _ => true
  | _ => false
  end.

Definition through_dbus (e : effect) : bool :=
  match e with
  | EMIT _ _ _ _ => false
  | _ => true
  end.

(** Both collaborators absent, as after a failed [uinput_open] and a
    failed [dbus_connect]. *)
Definition no_collaborators : collaborators := mk_collaborators (-1) None true.

Definition initial_router_state : router_state :=
  mk_router_state scroll_acc_reset 0 false.

(** The table of the specification's STATUS scenario: profiles
    "default", "Blender" and "Web", with "Blender" active. *)
Definition scenario_store : store :=
  mk_store [mk_profile "default" [] config_defaults;
            mk_profile "Blender" [] config_defaults;
            mk_profile "Web" [] config_defaults] 1.

(* ------------------------------------------------------------------ *)
(** ** Words for the properties of the router *)

(** The largest magnitude one axis can add to an accumulator in one
    turn: the larger of the two speeds, times the sensitivity. *)
Definition speed_bound (c : config) : R :=
  (Rmax (Rabs (scroll_speed c)) (Rabs (zoom_speed c))
   * Rabs (sensitivity c))%R.

(** The three accumulators hold remainders. *)
Definition remainders (a : scroll_acc) : Prop :=
  (Rabs (acc_x a) < 1)%R /\ (Rabs (acc_y a) < 1)%R /\ (Rabs (acc_z a) < 1)%R.

(** A configuration under which the curve stays finite and six axes
    cannot push an accumulator out of the range of [int]: what they
    add is at most 2^30, half that range, which leaves the rounding of
    the multiplications and additions of binary64 (a relative 2^-53
    each) far more room than it needs. *)
Definition bounded_config (c : config) : Prop :=
  deadzone c <> 350
  /\ (0 <= scroll_exponent c)%R
  /\ (6 * speed_bound c <= 1073741824)%R.

(** The [if (g_uinput_fd >= 0)] block that ends the handling of a
    motion event: the three accumulators are consumed, and what they
    give is written. *)
Definition consume_block (k : collaborators) (st : router_state)
  : router_state * list effect :=
  if g_uinput_fd k >=? 0 then
    let a := sacc st in
    let '(sx, ax) := scroll_acc_consume (acc_x a) in
    let '(sy, ay) := scroll_acc_consume (acc_y a) in
    let '(sz, az) := scroll_acc_consume (acc_z a) in
    (mk_router_state (mk_scroll_acc ax ay az)
       (last_dswitch st) (desktop_shown st),
     emit_scroll (g_uinput_fd k) sx sy
     ++ (if sz =? 0 then [] else emit_zoom (g_uinput_fd k) sz))
  else (st, []).

(** A state after the routing of a motion event: 2.5 to scroll
    horizontally, -1.25 vertically, 0.75 to zoom. *)
Definition routed_state : router_state :=
  mk_router_state (mk_scroll_acc 2.5 (-1.25) 0.75) 0 false.

(** A call of [nextDesktop] or [previousDesktop]. *)
Definition is_switch (e : effect) : bool :=
  match e with
  | KWIN_CALL _ _ => true
  | _ => false
  end.

(** The values written for the Ctrl key, in order. *)
Definition ctrl_values (out : list effect) : list Z :=
  flat_map (fun e => match e with
                     | EMIT _ EV_KEY KEY_LEFTCTRL v => [v]
                     | _ => []
                     end) out.

(** The writes to the uinput device among the calls. *)
Definition uinput_writes (out : list effect) : list effect :=
  filter through_uinput out.

Definition with_uinput : collaborators := mk_collaborators 3 None true.


(** Every axis mapped to the desktop switch, and a session bus. *)
Definition all_switch_config : config :=
  set_axis_map config_defaults
    [ACT_DESKTOP_SWITCH; ACT_DESKTOP_SWITCH; ACT_DESKTOP_SWITCH;
     ACT_DESKTOP_SWITCH; ACT_DESKTOP_SWITCH; ACT_DESKTOP_SWITCH].

Definition through_session : collaborators :=
  mk_collaborators 3 (Some Session_bus) true.

(* ------------------------------------------------------------------ *)
(** ** Words for the properties of the table *)

(** The profile fits [struct profile]: [char name[64]],
    [char *wm_classes[MAX_WM_CLASSES]], [axis_map[6]], [btn_map[16]]. *)
Definition within_bounds (p : profile) : Prop :=
  (String.length (name p) <= 63)%nat
  /\ (List.length (wm_classes p) <= MAX_WM_CLASSES)%nat
  /\ List.length (axis_map (cfg p)) = 6%nat
  /\ List.length (btn_map (cfg p)) = 16%nat.

(** Index [i] is within the table and is the first one with its
    profile's name. *)
Definition first_with_name (ps : list profile) (i : nat) : Prop :=
  (i < List.length ps)%nat
  /\ forall j : nat, (j < i)%nat ->
       name (profile_at ps j) <> name (profile_at ps i).

(** A document in the legacy flat format:
    [{"deadzone": 30, "match_wm_class": ["firefox"]}] *)
Definition flat_document : json :=
  JObject [("deadzone", JInt 30);
           ("match_wm_class", JArray [JString "firefox"])].

(* ------------------------------------------------------------------ *)
(** ** Words for the properties of the command socket *)

(** The names of the table, each after a space, as [STATUS] lists
    them when the response has room. *)
Fixpoint names_text (ps : list profile) : string :=
  match ps with
  | [] => ""
  | p :: rest => (" " ++ name p ++ names_text rest)%string
  end.

Definition status_text (s : store) : string :=
  ("ACTIVE " ++ name (profile_at (g_profiles s) (g_active_profile s))
   ++ LF ++ "PROFILES" ++ names_text (g_profiles s) ++ LF)%string.

Definition ends_with_LF (t : string) : Prop :=
  exists front : string, t = (front ++ LF)%string.

(** Every byte is a line feed or a carriage return. *)
Fixpoint all_eol (e : string) : bool :=
  match e with
  | EmptyString => true
  | String c rest => is_eol c && all_eol rest
  end.

(* ------------------------------------------------------------------ *)
(** ** The main loop *)

(** An event as [spnav_poll_event] delivers it: a motion with its six
    axes, a button with [press] and [bnum], or an event of another
    type, which the loop ignores. *)
Inductive spnav_event : Type :=
| SPNAV_EVENT_MOTION (x y z rx ry rz : Z)
| SPNAV_EVENT_BUTTON (press bnum : Z)
| SPNAV_EVENT_OTHER.

(** The body of [while (spnav_poll_event(&ev))] for one event; the
    second component of [ev] gives the readings of [time_ms()] in the
    turns of the loop over the axes. *)
Definition handle_event (c : config) (k : collaborators)
    (ev : spnav_event * (nat -> Z)) (st : router_state)
  : router_state * list effect :=
  match fst ev with
  | SPNAV_EVENT_MOTION x y z rx ry rz =>
      handle_motion c k (snd ev) [x; y; z; rx; ry; rz] st
  | SPNAV_EVENT_BUTTON press bnum =>
      handle_button c k (negb (press =? 0)) bnum st
  | SPNAV_EVENT_OTHER => (st, [])
  end.

(** The events [spnav_poll_event] yields until it returns 0. *)
Fixpoint drain_events (c : config) (k : collaborators)
    (evs : list (spnav_event * (nat -> Z))) (st : router_state)
  : router_state * list effect :=
  match evs with
  | [] => (st, [])
  | ev :: rest =>
      let '(st1, out1) := handle_event c k ev st in
      let '(st2, out2) := drain_events c k rest st1 in
      (st2, out1 ++ out2)
  end.

(** What [poll] reports: a failure with [errno == EINTR], another
    failure, a timeout, or readiness, with the [POLLIN] bits of the
    spacenavd descriptor and of the command socket. *)
Inductive poll_result : Type :=
| POLL_EINTR
| POLL_FAILED
| POLL_TIMEOUT
| POLL_READY (spnav_in cmd_in : bool).

(** The state the loop carries from one turn to the next: the table
    with the active index, [g_reload], and the locals [sacc],
    [last_dswitch] and [desktop_shown]. *)
Record main_state : Type := mk_main_state {
  m_store : store;
  m_reload : bool;
  m_router : router_state
}.

(** What the environment supplies in one turn: the signals delivered
    since the previous turn's tests, the document the configuration
    file holds should it be loaded, the result of [poll], what a client
    sent, and the events pending at spacenavd. *)
Record turn : Type := mk_turn {
  sigterm : bool;
  sighup : bool;
  document : option json;
  polled : poll_result;
  client : option string;
  pending : list (spnav_event * (nat -> Z))
}.

Inductive next_step : Type := CONTINUE | BREAK.

(** What one turn produces besides the next state. *)
Record turn_output : Type := mk_turn_output {
  effects : list effect;
  logged : list log_line;
  response : option string
}.

Section MainLoop.

Context {J : json_c}.

(** The [if (g_reload)] block at the top of the body, on the whole
    state. *)
Definition reload_block (path : string) (i : turn) (m : main_state)
  : option (main_state * list log_line) :=
  if m_reload m || sighup i then
    match reload (document i) path (m_store m) with
    | None => None
    | Some (s', flag, acc, log) =>
        Some (mk_main_state s' flag
                (mk_router_state acc (last_dswitch (m_router m))
                   (desktop_shown (m_router m))),
              log)
    end
  else Some (m, []).

(** [if (nfds > 1 && (fds[1].revents & POLLIN))]: the client is served
    and the accumulators are reset. *)
Definition command_block (cmd_fd : Z) (cmd_in : bool) (i : turn)
    (m : main_state) : main_state * option string :=
  if (cmd_fd >=? 0) && cmd_in then
    let '(s', flag, resp) :=
      cmd_handle_client (m_store m) (m_reload m) (client i) in
    (mk_main_state s' flag
       (mk_router_state scroll_acc_reset (last_dswitch (m_router m))
          (desktop_shown (m_router m))),
     resp)
  else (m, None).

(** What that block prints on stderr. *)
Definition command_block_stderr (cmd_fd : Z) (cmd_in : bool) (i : turn)
    (m : main_state) : list log_line :=
  if (cmd_fd >=? 0) && cmd_in
  then cmd_handle_client_stderr (m_store m) (client i)
  else [].

(** [if (fds[0].revents & POLLIN)]: the pending events are routed with
    the configuration of the active profile. *)
Definition events_block (k : collaborators) (spnav_in : bool) (i : turn)
    (m : main_state) : main_state * list effect :=
  if spnav_in then
    let c := cfg (profile_at (g_profiles (m_store m))
                    (g_active_profile (m_store m))) in
    let '(st, out) := drain_events c k (pending i) (m_router m) in
    (mk_main_state (m_store m) (m_reload m) st, out)
  else (m, []).

(** One turn of [while (g_running)]; [None] when the reload hands
    json-c a value of the wrong kind to iterate. *)
Definition main_loop_turn (path : string) (k : collaborators) (cmd_fd : Z)
    (i : turn) (m : main_state)
  : option (main_state * next_step * turn_output) :=
  match reload_block path i m with
  | None => None
  | Some (m1, log) =>
      match polled i with
      | POLL_EINTR => Some (m1, CONTINUE, mk_turn_output [] log None)
      | POLL_FAILED => Some (m1, BREAK, mk_turn_output [] log None)
      | POLL_TIMEOUT => Some (m1, CONTINUE, mk_turn_output [] log None)
      | POLL_READY spnav_in cmd_in =>
          let '(m2, resp) := command_block cmd_fd cmd_in i m1 in
          let '(m3, out) := events_block k spnav_in i m2 in
          Some (m3, CONTINUE,
                mk_turn_output out
                  (log ++ command_block_stderr cmd_fd cmd_in i m1) resp)
      end
  end.

(** The loop over the turns the environment supplies: it ends when
    [g_running] is found cleared, when [poll] fails, or with the
    turns. The result is the final state and the outputs of the turns
    taken. *)
Fixpoint main_loop (path : string) (k : collaborators) (cmd_fd : Z)
    (turns : list turn) (m : main_state)
  : option (main_state * list turn_output) :=
  match turns with
  | [] => Some (m, [])
  | i :: rest =>
      if sigterm i then Some (m, [])
      else
        match main_loop_turn path k cmd_fd i m with
        | None => None
        | Some (m1, BREAK, o) => Some (m1, [o])
        | Some (m1, CONTINUE, o) =>
            match main_loop path k cmd_fd rest m1 with
            | None => None
            | Some (m2, os) => Some (m2, o :: os)
            end
        end
  end.

End MainLoop.

(** Everything the turns wrote to the collaborators, in order. *)
Definition all_effects (os : list turn_output) : list effect :=
  flat_map effects os.

(** The table is safe to index: the active index is within it, and
    every profile fits its structure. *)
Definition main_state_ok (m : main_state) : Prop :=
  store_ok (m_store m)
  /\ Forall within_bounds (g_profiles (m_store m)).

(** Every configuration of the table is bounded. *)
Definition bounded_table (s : store) : Prop :=
  Forall (fun p => bounded_config (cfg p)) (g_profiles s).

(** The Control key goes down and up in turns, and ends up. *)
Fixpoint balanced (values : list Z) : bool :=
  match values with
  | [] => true
  | 1 :: 0 :: rest => balanced rest
  | _ => false
  end.

(** Turns of a session: a motion that zooms, a client that selects a
    profile while a button is pressed, a hangup signal during a
    timeout. *)
Definition zoom_turn : turn :=
  mk_turn false false None (POLL_READY true false) None
    [(SPNAV_EVENT_MOTION 0 0 350 0 0 0, fun _ => 1000)].

Definition client_turn : turn :=
  mk_turn false false None (POLL_READY true true)
    (Some ("PROFILE default" ++ LF)%string)
    [(SPNAV_EVENT_BUTTON 1 0, fun _ => 2000)].

Definition hangup_turn : turn :=
  mk_turn false true None POLL_TIMEOUT None [].

Definition sample_turns : list turn := [zoom_turn; client_turn; hangup_turn].

Definition initial_main_state : main_state :=
  mk_main_state default_store false initial_router_state.

Definition reload_turn : turn :=
  mk_turn false false None (POLL_READY true true)
    (Some ("RELOAD" ++ LF)%string)
    [(SPNAV_EVENT_BUTTON 1 0, fun _ => 2000)].

(* ------------------------------------------------------------------ *)
(** ** The clock and the command line *)

Definition wrap_long_long (n : Z) : Z := (n + 2 ^ 63) mod 2 ^ 64 - 2 ^ 63.

(** [time_ms()] for the [struct timespec] that [clock_gettime] fills
    in: the arithmetic is in [long long], and [/] truncates. *)
Definition time_ms (tv_sec tv_nsec : Z) : Z :=
  wrap_long_long (wrap_long_long (tv_sec * 1000) + Z.quot tv_nsec 1000000).

(** The timespec [(s1, n1)] is not later than [(s2, n2)]. *)
Definition not_later (s1 n1 s2 n2 : Z) : Prop :=
  s1 < s2 \/ (s1 = s2 /\ n1 <= n2).

(** What [getopt(argc, argv, "fc:h")] returns, one value per option:
    ['f'], ['c'] with [optarg], ['h'], or ['?'] for anything else. *)
Inductive getopt_result : Type :=
| OPT_f
| OPT_c (optarg : string)
| OPT_h
| OPT_unknown.

(** The path [main] starts from: below [$HOME] when it is set. *)
Definition default_config_path (home : option string) : string :=
  match home with
  | Some h => snprintf 512 (h ++ "/.config/spacemouse/config.json")%string
  | None => snprintf 512 "/etc/spacemouse-desktop.conf"
  end.

(** The loop over the options: [inl code] when [main] returns from
    within the loop, after [usage], and otherwise [foreground] and
    [g_config_path] as the loop leaves them. *)
Fixpoint parse_options (opts : list getopt_result) (foreground : bool)
    (g_config_path : string) : Z + bool * string :=
  match opts with
  | [] => inr (foreground, g_config_path)
  | OPT_f :: rest => parse_options rest true g_config_path
  | OPT_c optarg :: rest => parse_options rest foreground (snprintf 512 optarg)
  | OPT_h :: _ => inl 0
  | OPT_unknown :: _ => inl 1
  end.

Definition is_exit (o : getopt_result) : bool :=
  match o with
  | OPT_h | OPT_unknown => true
  | _ => false
  end.

(** The argument of the last [-c] of the options, if any. *)
Definition last_config (opts : list getopt_result) : option string :=
  fold_left (fun acc o => match o with OPT_c a => Some a | _ => acc end)
    opts None.

Definition has_f (opts : list getopt_result) : bool :=
  existsb (fun o => match o with OPT_f => true | _ => false end) opts.

(* ------------------------------------------------------------------ *)
(** ** Documents json-c cannot iterate *)

(** [{"profiles": []}], [{"button_mapping": "overview"}] and
    [{"match_wm_class": "firefox"}]: each parses as JSON, and each
    hands json-c a value of the wrong kind to iterate. *)
Definition profiles_array_document : json :=
  JObject [("profiles", JArray [])].

Definition button_string_document : json :=
  JObject [("button_mapping", JString "overview")].

Definition wm_class_string_document : json :=
  JObject [("match_wm_class", JString "firefox")].

(* ------------------------------------------------------------------ *)
(** ** Words for the keys of a button mapping *)







(* ================================================================== *)
(** * Properties *)

(* ------------------------------------------------------------------ *)
(** ** The model on concrete inputs *)

Example atoi_samples :
  atoi "12" = 12 /\ atoi " -3x" = -3 /\ atoi "+7" = 7 /\ atoi "1foo" = 1
  /\ atoi "" = 0 /\ atoi "4294967296" = 0
  /\ atoi "99999999999999999999" = -1.
Proof. repeat split. Qed.

Example binary64_samples :
  Binary64.feed_all PrimFloat.zero Binary64.sample_deltas
  = ([1; 1; -2], Binary64.sample_remainder)
  /\ Binary64.double_to_int Binary64.two_32 = INT_MIN
  /\ Binary64.int_to_double 2147483647 = Binary64.int_max.
Proof. repeat split. Qed.

Example c_abs_samples :
  c_abs 5 = 5 /\ c_abs (-5) = 5 /\ c_abs INT_MIN = INT_MIN.
Proof. repeat split. Qed.

Example command_line_samples :
  command_line ("PROFILE Web" ++ String "013" LF)%string = "PROFILE Web"
  /\ command_line (LF ++ LF)%string = ""
  /\ strip_prefix "PROFILE " "PROFILE Web" = Some "Web"
  /\ strip_prefix "PROFILE " "profile Web" = None
  /\ strcasecmp_eq "Blender" "bLENDER" = true
  /\ strcasecmp_eq "Web" "Web2" = false.
Proof. repeat split. Qed.

Example gate_run_sample :
  gate_run config_defaults 0
    [(300, 600); (300, 700); (-300, 1101); (300, 1601); (300, 1602)]
  = [(Next, 600); (Previous, 1101); (Next, 1602)].
Proof. reflexivity. Qed.

Example sample_store_values :
  List.map name (g_profiles sample_store) = ["default"; "Web"]
  /\ deadzone (cfg (profile_at (g_profiles sample_store) 0)) = 20
  /\ deadzone (cfg (profile_at (g_profiles sample_store) 1)) = 7
  /\ scroll_speed (cfg (profile_at (g_profiles sample_store) 1)) = 5%R
  /\ zoom_speed (cfg (profile_at (g_profiles sample_store) 1)) = 2%R.
Proof. repeat split. Qed.

Example emit_scroll_sample :
  emit_scroll 3 0 (-2)
  = [EMIT 3 EV_REL REL_WHEEL (-2); EMIT 3 EV_REL REL_WHEEL_HI_RES (-240);
     EMIT 3 EV_SYN SYN_REPORT 0]
  /\ emit_scroll 3 0 0 = [].
Proof. repeat split. Qed.

(* ------------------------------------------------------------------ *)
(** ** Numbers *)

Ltac int_range :=
  change INT_MIN with (-2147483648) in *;
  change INT_MAX with 2147483647 in *.

Lemma trunc_IZR (n : Z) : trunc (IZR n) = n.
Proof.
  unfold trunc. destruct (Rle_dec 0 (IZR n)).
  - symmetry. apply Int_part_spec. lra.
  - rewrite <- opp_IZR. rewrite <- (Int_part_spec (IZR (- n)) (- n)); [lia | lra].
Qed.

Lemma trunc_bounds (x : R) : (Rabs (x - IZR (trunc x)) < 1)%R.
Proof.
  unfold trunc. destruct (Rle_dec 0 x).
  - destruct (base_Int_part x). apply Rabs_def1; lra.
  - destruct (base_Int_part (- x)). rewrite opp_IZR. apply Rabs_def1; lra.
Qed.

Lemma trunc_range (x : R) :
  (IZR INT_MIN - 1 < x < IZR INT_MAX + 1)%R -> INT_MIN <= trunc x <= INT_MAX.
Proof.
  intros [Hlo Hhi]. unfold trunc. destruct (Rle_dec 0 x).
  - destruct (base_Int_part x) as [H1 H2].
    assert (Hz : (0 - 1 < IZR (Int_part x))%R) by lra.
    assert (Hu : (IZR (Int_part x) < IZR INT_MAX + 1)%R) by lra.
    rewrite <- plus_IZR in Hu. apply lt_IZR in Hu.
    replace (0 - 1)%R with (IZR (-1)) in Hz by (simpl; lra).
    apply lt_IZR in Hz. unfold INT_MIN, INT_MAX in *. lia.
  - destruct (base_Int_part (- x)) as [H1 H2].
    assert (Hz : (0 - 1 < IZR (Int_part (- x)))%R) by lra.
    assert (Hu : (IZR (Int_part (- x)) < IZR (- INT_MIN) + 1)%R)
      by (rewrite opp_IZR; lra).
    rewrite <- plus_IZR in Hu. apply lt_IZR in Hu.
    replace (0 - 1)%R with (IZR (-1)) in Hz by (simpl; lra).
    apply lt_IZR in Hz. unfold INT_MIN, INT_MAX in *. lia.
Qed.

Lemma double_to_int_in_range (x : R) :
  (IZR INT_MIN - 1 < x < IZR INT_MAX + 1)%R -> double_to_int x = trunc x.
Proof.
  intros H. apply trunc_range in H. unfold double_to_int.
  destruct H as [H1 H2].
  apply Z.leb_le in H1. apply Z.leb_le in H2. now rewrite H1, H2.
Qed.

(* ------------------------------------------------------------------ *)
(** ** Curve transform *)

Lemma c_pow_nonneg (x e : R) : (0 <= c_pow x e)%R.
Proof.
  unfold c_pow. destruct (Req_dec_T e 0); [lra|].
  destruct (Rlt_dec 0 x); [|lra].
  unfold Rpower. left. apply exp_pos.
Qed.

Lemma c_pow_monotone (x y e : R) :
  (0 < e)%R -> (0 <= x <= y)%R -> (c_pow x e <= c_pow y e)%R.
Proof.
  intros He [Hx Hxy]. unfold c_pow.
  destruct (Req_dec_T e 0); [lra|].
  destruct (Rlt_dec 0 x) as [Hpos|Hnpos].
  - destruct (Rlt_dec 0 y); [|lra].
    apply Rle_Rpower_l; lra.
  - destruct (Rlt_dec 0 y); [|lra].
    unfold Rpower. left. apply exp_pos.
Qed.

Lemma c_pow_one (x : R) : (0 < x)%R -> c_pow x 1 = x.
Proof.
  intros Hx. unfold c_pow.
  destruct (Req_dec_T 1 0); [lra|].
  destruct (Rlt_dec 0 x); [|lra].
  now apply Rpower_1.
Qed.

Lemma c_pow_zero_exponent (x : R) : c_pow x 0 = 1%R.
Proof. unfold c_pow. destruct (Req_dec_T 0 0); [reflexivity|lra]. Qed.

(** The two tests of the source, in sequence, are the clamp to [0,1]. *)
Lemma clamp_as_tests (x : R) :
  (let n := if Rgt_dec x 1 then 1%R else x in
   if Rlt_dec n 0 then 0%R else n) = clamp 0 1 x.
Proof.
  unfold clamp, Rmax, Rmin. cbv zeta.
  destruct (Rgt_dec x 1); destruct (Rle_dec 1 x);
    repeat match goal with
           | |- context [Rlt_dec ?a ?b] => destruct (Rlt_dec a b)
           | |- context [Rle_dec ?a ?b] => destruct (Rle_dec a b)
           end; lra.
Qed.

Lemma deadzone_test (raw deadzone : Z) :
  (if Rlt_dec (fabs (int_to_double raw)) (int_to_double deadzone)
   then true else false) = (Z.abs raw <? deadzone).
Proof.
  unfold fabs, int_to_double. rewrite <- abs_IZR.
  destruct (Rlt_dec (IZR (Z.abs raw)) (IZR deadzone)) as [H|H];
    symmetry.
  - apply Z.ltb_lt. now apply lt_IZR.
  - apply Z.ltb_ge. apply Z.le_ngt. intro Hlt. apply H. now apply IZR_lt.
Qed.

Lemma sign_test (raw : Z) :
  (if Rgt_dec (int_to_double raw) 0 then 1%R else (-1)%R) = sign_of_curve raw.
Proof.
  unfold sign_of_curve, int_to_double.
  destruct (Rgt_dec (IZR raw) 0) as [H|H]; destruct (Z.ltb_spec 0 raw) as [L|L];
    try reflexivity.
  - apply lt_IZR in H. lia.
  - exfalso. apply H. now apply IZR_lt.
Qed.

Lemma apply_curve_shape (raw deadzone : Z) (exponent scale : double) :
  apply_curve raw deadzone exponent scale
  = shape sign_of_curve raw deadzone exponent scale.
Proof.
  unfold apply_curve, shape. cbv zeta.
  pose proof (deadzone_test raw deadzone) as Ht.
  destruct (Rlt_dec (fabs (int_to_double raw)) (int_to_double deadzone));
    rewrite <- Ht; [reflexivity|].
  rewrite sign_test.
  pose proof (clamp_as_tests
    ((fabs (int_to_double raw) - int_to_double deadzone)
     / (350 - int_to_double deadzone))) as Hc.
  cbv zeta in Hc. rewrite Hc.
  unfold fabs, int_to_double, MAX_RAW.
  now rewrite !minus_IZR, abs_IZR.
Qed.

Lemma sign_of_curve_sgn (raw : Z) : raw <> 0 -> sign_of_curve raw = sgn raw.
Proof.
  intros H. unfold sign_of_curve, sgn.
  destruct (Z.ltb_spec 0 raw).
  - now rewrite Z.sgn_pos.
  - rewrite Z.sgn_neg by lia. reflexivity.
Qed.

(** C1 (as amended). For every deadzone, exponent and scale: when
    [|raw| < deadzone] the curve transform returns exactly 0; and for
    every raw sample other than 0 outside the deadzone it returns
    [sign(raw) * clamp((|raw| - deadzone) / (350 - deadzone), 0, 1)
    ^ exponent * scale]. So the result is the contract's [shape] for
    every sample that is not 0 or lies inside the deadzone. *)
Theorem apply_curve_contract (raw deadzone : Z) (exponent scale : double) :
  (Z.abs raw < deadzone -> apply_curve raw deadzone exponent scale = 0%R)
  /\ (deadzone <= Z.abs raw -> raw <> 0 ->
      apply_curve raw deadzone exponent scale
      = (sgn raw
         * c_pow (clamp 0 1 (IZR (Z.abs raw - deadzone)
                             / IZR (MAX_RAW - deadzone))) exponent
         * scale)%R)
  /\ (raw <> 0 \/ Z.abs raw < deadzone ->
      apply_curve raw deadzone exponent scale
      = shape sgn raw deadzone exponent scale).
Proof.
  rewrite apply_curve_shape. split; [|split].
  - intros H. unfold shape. apply Z.ltb_lt in H. now rewrite H.
  - intros Hout H. unfold shape. apply Z.ltb_ge in Hout. rewrite Hout.
    now rewrite sign_of_curve_sgn.
  - intros [H|H]; unfold shape.
    + now rewrite sign_of_curve_sgn.
    + apply Z.ltb_lt in H. now rewrite H.
Qed.

Lemma apply_curve_contract_witness :
  apply_curve 100 15 2 3 = shape sgn 100 15 2 3
  /\ apply_curve 10 15 2 3 = 0%R.
Proof.
  split.
  - apply (proj2 (proj2 (apply_curve_contract 100 15 2 3))). left. lia.
  - apply (proj1 (apply_curve_contract 10 15 2 3)). simpl. lia.
Defined.

(** C1 as stated fails at a sample of zero outside the deadzone: with
    deadzone 0 and exponent 0 the source returns [-scale] for [raw = 0],
    where the contract with [sign(0) = 0] gives 0. *)
Lemma apply_curve_sign_at_zero :
  apply_curve 0 0 0 1 = (-1)%R /\ shape sgn 0 0 0 1 = 0%R
  /\ apply_curve 0 0 0 1 <> shape sgn 0 0 0 1.
Proof.
  assert (H1 : apply_curve 0 0 0 1 = (-1)%R).
  { rewrite apply_curve_shape. unfold shape, sign_of_curve. simpl.
    rewrite c_pow_zero_exponent. lra. }
  assert (H2 : shape sgn 0 0 0 1 = 0%R).
  { unfold shape, sgn. simpl. lra. }
  repeat split; try assumption. rewrite H1, H2. lra.
Qed.

(** Outside the deadzone and up to [MAX_RAW] the normalised magnitude
    needs no clamping. *)
Lemma shape_unclamped (sg : Z -> R) (raw deadzone : Z) (e s : double) :
  deadzone <= Z.abs raw <= MAX_RAW -> deadzone < MAX_RAW ->
  shape sg raw deadzone e s
  = (sg raw * c_pow (IZR (Z.abs raw - deadzone) / IZR (MAX_RAW - deadzone)) e
     * s)%R
  /\ (0 <= IZR (Z.abs raw - deadzone) / IZR (MAX_RAW - deadzone) <= 1)%R.
Proof.
  intros [Hlo Hhi] Hdz. unfold shape.
  destruct (Z.ltb_spec (Z.abs raw) deadzone); [lia|].
  assert (Hd : (0 < IZR (MAX_RAW - deadzone))%R) by (apply IZR_lt; lia).
  assert (Hn : (0 <= IZR (Z.abs raw - deadzone))%R) by (apply IZR_le; lia).
  assert (Hu : (IZR (Z.abs raw - deadzone) <= IZR (MAX_RAW - deadzone))%R)
    by (apply IZR_le; lia).
  assert (Hq : (0 <= IZR (Z.abs raw - deadzone) / IZR (MAX_RAW - deadzone)
                <= 1)%R).
  { split.
    - apply Rmult_le_pos; [assumption|]. left. now apply Rinv_0_lt_compat.
    - apply (Rmult_le_reg_r (IZR (MAX_RAW - deadzone))); [assumption|].
      unfold Rdiv. rewrite Rmult_assoc, Rinv_l by lra. lra. }
  split; [|exact Hq].
  unfold clamp. rewrite Rmin_right by apply Hq. now rewrite Rmax_right by apply Hq.
Qed.

Lemma Rabs_sign_of_curve (raw : Z) : Rabs (sign_of_curve raw) = 1%R.
Proof.
  unfold sign_of_curve. destruct (0 <? raw).
  - apply Rabs_R1.
  - rewrite Rabs_left; lra.
Qed.

Lemma apply_curve_sign (raw deadzone : Z) (e s : double) :
  raw <> 0 -> (0 <= s)%R ->
  same_sign_or_zero raw (apply_curve raw deadzone e s).
Proof.
  intros Hraw Hs. rewrite apply_curve_shape. unfold shape, same_sign_or_zero.
  destruct (Z.abs raw <? deadzone); [now left|].
  set (p := c_pow _ e). pose proof (c_pow_nonneg
    (clamp 0 1 (IZR (Z.abs raw - deadzone) / IZR (MAX_RAW - deadzone))) e) as Hp.
  fold p in Hp. unfold sign_of_curve.
  destruct (Z.ltb_spec 0 raw) as [Hpos|Hneg].
  - destruct (Req_dec (1 * p * s) 0) as [Hz|Hnz]; [now left|].
    right; left. split; [assumption|].
    assert (0 <= 1 * p * s)%R by nra. lra.
  - destruct (Req_dec (-1 * p * s) 0) as [Hz|Hnz]; [now left|].
    right; right. split; [lia|].
    assert (0 <= p * s)%R by nra. lra.
Qed.

(** C2 (as amended). For every pair of samples with
    [deadzone <= |raw1| < |raw2| <= 350] and equal sign, every
    exponent [> 0] and every scale, [|shape raw1| <= |shape raw2|]; and
    when the scale is not negative the result for each sample has the
    sign of that sample, or is zero. *)
Theorem apply_curve_monotone (raw1 raw2 deadzone : Z) (exponent scale : double) :
  deadzone <= Z.abs raw1 -> Z.abs raw1 < Z.abs raw2 -> Z.abs raw2 <= MAX_RAW ->
  Z.sgn raw1 = Z.sgn raw2 ->
  (0 < exponent)%R ->
  (Rabs (apply_curve raw1 deadzone exponent scale)
   <= Rabs (apply_curve raw2 deadzone exponent scale))%R
  /\ ((0 <= scale)%R ->
      same_sign_or_zero raw1 (apply_curve raw1 deadzone exponent scale)
      /\ same_sign_or_zero raw2 (apply_curve raw2 deadzone exponent scale)).
Proof.
  intros Hlo Hlt Hhi Hsg He. split.
  - rewrite !apply_curve_shape.
    destruct (shape_unclamped sign_of_curve raw1 deadzone exponent scale)
      as [E1 [L1 U1]]; [lia|lia|].
    destruct (shape_unclamped sign_of_curve raw2 deadzone exponent scale)
      as [E2 [L2 U2]]; [lia|lia|].
    rewrite E1, E2, !Rabs_mult, !Rabs_sign_of_curve, !Rmult_1_l.
    apply Rmult_le_compat_r; [apply Rabs_pos|].
    rewrite !Rabs_pos_eq by apply c_pow_nonneg.
    apply c_pow_monotone; [assumption|]. split; [assumption|].
    assert (Hd : (0 < IZR (MAX_RAW - deadzone))%R) by (apply IZR_lt; lia).
    apply Rmult_le_compat_r; [left; now apply Rinv_0_lt_compat|].
    apply IZR_le. lia.
  - intros Hs.
    assert (H2 : raw2 <> 0) by lia.
    assert (H1 : raw1 <> 0) by lia.
    split; now apply apply_curve_sign.
Qed.

Lemma apply_curve_monotone_witness :
  (Rabs (apply_curve 100 15 2 3) <= Rabs (apply_curve 200 15 2 3))%R
  /\ same_sign_or_zero 100 (apply_curve 100 15 2 3).
Proof.
  assert (H := apply_curve_monotone 100 200 15 2 3).
  destruct H as [Hm Hs].
  - simpl. lia.
  - simpl. lia.
  - unfold MAX_RAW. simpl. lia.
  - reflexivity.
  - lra.
  - split; [exact Hm|]. apply Hs. lra.
Defined.

(** C2 as stated fails for a negative scale: the sample 100 with
    deadzone 15, exponent 1 and scale -1 lies between the deadzone and
    [MAX_RAW] and is mapped to [-(85/335)], which has the opposite
    sign. *)
Lemma apply_curve_negative_scale :
  15 <= Z.abs 100 /\ Z.abs 100 <= MAX_RAW /\ (0 < 1)%R
  /\ apply_curve 100 15 1 (-1) = (- (85 / 335))%R
  /\ ~ same_sign_or_zero 100 (apply_curve 100 15 1 (-1)).
Proof.
  assert (E : apply_curve 100 15 1 (-1) = (- (85 / 335))%R).
  { rewrite apply_curve_shape.
    destruct (shape_unclamped sign_of_curve 100 15 1 (-1)) as [E _];
      [unfold MAX_RAW; simpl; lia|unfold MAX_RAW; lia|].
    rewrite E. unfold sign_of_curve, MAX_RAW. simpl.
    rewrite c_pow_one by lra. lra. }
  repeat split; try (unfold MAX_RAW; simpl; lia); try lra; try exact E.
  rewrite E. unfold same_sign_or_zero. intros [H|[[_ H]|[H _]]]; try lra; lia.
Qed.

(* ------------------------------------------------------------------ *)
(** ** Scroll accumulator *)

Lemma Forall_prefix {A : Type} (P : A -> Prop) (n : nat) : forall l : list A,
  Forall P l -> Forall P (firstn n l).
Proof.
  induction n as [|n IH]; intros [|a l] H; cbn; try constructor.
  - now inversion H.
  - apply IH. now inversion H.
Qed.



(** The two models of [scroll_acc_consume] side by side at -2.75: the
    operation on the double and the operation on the real number it
    denotes return the same integer and leave the same remainder. *)
Example scroll_acc_consume_models_agree :
  scroll_acc_consume (Binary64.value Binary64.sample_acc)
  = (fst (Binary64.scroll_acc_consume Binary64.sample_acc),
     Binary64.value (snd (Binary64.scroll_acc_consume Binary64.sample_acc))).
Proof.
  replace (fst (Binary64.scroll_acc_consume Binary64.sample_acc)) with (-2)
    by (vm_compute; reflexivity).
  replace (snd (Binary64.scroll_acc_consume Binary64.sample_acc))
    with Binary64.sample_remainder by (vm_compute; reflexivity).
  assert (Va : Binary64.value Binary64.sample_acc = (- (11 / 4))%R).
  { unfold Binary64.value.
    replace (FloatOps.Prim2SF Binary64.sample_acc)
      with (SpecFloat.S754_finite true 6192449487634432 (-51))
      by (vm_compute; reflexivity).
    change (- (IZR 6192449487634432 / IZR 2251799813685248)
            = - (11 / 4))%R. lra. }
  assert (Vr : Binary64.value Binary64.sample_remainder = (- (3 / 4))%R).
  { unfold Binary64.value.
    replace (FloatOps.Prim2SF Binary64.sample_remainder)
      with (SpecFloat.S754_finite true 6755399441055744 (-53))
      by (vm_compute; reflexivity).
    change (- (IZR 6755399441055744 / IZR 9007199254740992)
            = - (3 / 4))%R. lra. }
  rewrite Va, Vr.
  assert (Ht : trunc (- (11 / 4)) = -2).
  { unfold trunc. destruct (Rle_dec 0 (- (11 / 4))) as [H|_]; [lra|].
    rewrite <- (Int_part_spec (- - (11 / 4)) 2); [reflexivity|simpl; lra]. }
  unfold scroll_acc_consume. cbv zeta.
  rewrite double_to_int_in_range by (int_range; lra).
  rewrite Ht. f_equal. simpl. lra.
Qed.




(* ------------------------------------------------------------------ *)
(** ** Arrays *)

Lemma array_set_length {A : Type} (v : A) : forall (a : list A) (i : nat),
  List.length (array_set a i v) = List.length a.
Proof.
  induction a as [|h t IH]; intros [|i]; cbn; try reflexivity.
  now rewrite IH.
Qed.

Lemma nth_array_set_same {A : Type} (v d : A) : forall (a : list A) (i : nat),
  (i < List.length a)%nat -> nth i (array_set a i v) d = v.
Proof.
  induction a as [|h t IH]; intros [|i] Hi; cbn in *; try lia; try reflexivity.
  apply IH. lia.
Qed.

Lemma nth_array_set_other {A : Type} (v d : A) : forall (a : list A) (i j : nat),
  i <> j -> nth j (array_set a i v) d = nth j a d.
Proof.
  induction a as [|h t IH]; intros [|i] [|j] Hij; cbn; try reflexivity;
    try contradiction.
  apply IH. lia.
Qed.

(* ------------------------------------------------------------------ *)
(** ** The table between loads *)

(** A command changes the active index or the reload flag, never a
    profile of the table. *)
Lemma cmd_handle_client_profiles (s : store) (g_reload : bool)
    (received : option string) :
  g_profiles (fst (fst (cmd_handle_client s g_reload received)))
  = g_profiles s.
Proof.
  unfold cmd_handle_client. destruct received as [received|]; [|reflexivity].
  destruct (String.length _ =? 0)%nat; [reflexivity|].
  destruct (strip_prefix "PROFILE " (command_line received)).
  - now destruct (find_index _ (g_profiles s)).
  - destruct (strcmp_eq (command_line received) "RELOAD"); [reflexivity|].
    now destruct (strcmp_eq (command_line received) "STATUS").
Qed.

(* ------------------------------------------------------------------ *)
(** ** Loading the configuration *)

Section Loading.

Context {J : json_c}.

(** C8. For every path whose document cannot be read or parsed
    ([json_object_from_file] gives no root), [config_load_all] does not
    fail: it returns 0 with a table of exactly one profile, at index 0
    and active, named "default", with no window classes and the
    built-in default configuration, and it logs the warning. *)
Theorem config_load_all_unreadable (path : string) :
  exists (s : store) (p : profile),
    config_load_all None path = Some (0, s, [LOG_config_not_found path])
    /\ g_profiles s = [p]
    /\ g_active_profile s = O
    /\ name p = "default"
    /\ wm_classes p = []
    /\ cfg p = config_defaults
    /\ config_defaults
       = mk_config 15 3 2 2 200 500
           [ACT_SCROLL_H; ACT_SCROLL_V; ACT_ZOOM;
            ACT_NONE; ACT_DESKTOP_SWITCH; ACT_NONE]
           (BTNACT_OVERVIEW :: BTNACT_SHOW_DESKTOP :: repeat BTNACT_NONE 14)
           false false 1.
Proof.
  exists (mk_store [mk_profile "default" [] config_defaults] 0).
  exists (mk_profile "default" [] config_defaults).
  repeat split.
Qed.

(* Button mapping *)


Lemma button_entry_frame (c : config) (entry : string * json) :
  button_entry c entry = set_btn_map c (btn_map (button_entry c entry)).
Proof.
  unfold button_entry. destruct ((0 <=? atoi (fst entry)) && _).
  - reflexivity.
  - now destruct c.
Qed.

Lemma button_entry_length (c : config) (entry : string * json) :
  List.length (btn_map (button_entry c entry)) = List.length (btn_map c).
Proof.
  unfold button_entry. destruct ((0 <=? atoi (fst entry)) && _);
    [|reflexivity].
  cbn. apply array_set_length.
Qed.

Lemma button_entries_length (members : list (string * json)) :
  forall c : config,
  List.length (btn_map (fold_left button_entry members c))
  = List.length (btn_map c).
Proof.
  induction members as [|m ms IH]; intros c; cbn; [reflexivity|].
  rewrite IH. apply button_entry_length.
Qed.

Lemma button_entries_frame (members : list (string * json)) :
  forall c : config,
  fold_left button_entry members c
  = set_btn_map c (btn_map (fold_left button_entry members c)).
Proof.
  induction members as [|m ms IH]; intros c; cbn.
  - now destruct c.
  - rewrite IH. rewrite (button_entry_frame c m) at 1. reflexivity.
Qed.

Lemma button_entry_nth (c : config) (key : string) (bval : json) (b : Z) :
  List.length (btn_map c) = 16%nat -> 0 <= b < 16 ->
  nth (Z.to_nat b) (btn_map (button_entry c (key, bval))) BTNACT_NONE
  = if atoi key =? b then parse_btn_action (json_object_get_string bval)
    else nth (Z.to_nat b) (btn_map c) BTNACT_NONE.
Proof.
  intros Hlen Hb. unfold button_entry. cbn [fst snd].
  destruct (Z.eqb_spec (atoi key) b) as [->|Hne].
  - replace ((0 <=? b) && (b <? 16)) with true
      by (symmetry; apply andb_true_iff; split; [apply Z.leb_le|apply Z.ltb_lt]; lia).
    cbn. apply nth_array_set_same. lia.
  - destruct ((0 <=? atoi key) && (atoi key <? 16)) eqn:E; [|reflexivity].
    cbn. apply nth_array_set_other.
    apply andb_true_iff in E. destruct E as [E1 _]. apply Z.leb_le in E1. lia.
Qed.

Lemma button_entries_nth (members : list (string * json)) (c : config) (b : Z) :
  List.length (btn_map c) = 16%nat -> 0 <= b < 16 ->
  nth (Z.to_nat b) (btn_map (fold_left button_entry members c)) BTNACT_NONE
  = effective
      (option_map (fun bval => parse_btn_action (json_object_get_string bval))
         (last_entry b members))
      (nth (Z.to_nat b) (btn_map c) BTNACT_NONE).
Proof.
  intros Hlen Hb. induction members as [|[key bval] ms IH] using rev_ind.
  - reflexivity.
  - rewrite fold_left_app. cbn [fold_left].
    rewrite button_entry_nth by (rewrite ?button_entries_length; assumption).
    unfold last_entry. rewrite rev_app_distr. cbn [rev app find fst].
    destruct (atoi key =? b); [reflexivity|]. exact IH.
Qed.

(** *** Conversion of the keys *)









(* Fields of a parsed profile *)

Lemma with_key_other {A : Type} (proj : config -> A) (obj : json)
    (key : string) (store : json -> config -> config) (c : config) :
  (forall v c', proj (store v c') = proj c') ->
  proj (with_key obj key store c) = proj c.
Proof.
  intros H. unfold with_key.
  destruct (json_object_object_get_ex obj key); [apply H|reflexivity].
Qed.

Lemma with_key_this {A : Type} (proj : config -> A) (obj : json)
    (key : string) (get : json -> A) (store : json -> config -> config)
    (c : config) :
  (forall v c', proj (store v c') = get v) ->
  proj (with_key obj key store c)
  = effective (option_map get (json_object_object_get_ex obj key)) (proj c).
Proof.
  intros H. unfold with_key.
  destruct (json_object_object_get_ex obj key); [apply H|reflexivity].
Qed.

Lemma parse_axis_mapping_frame (amap : json) (c : config) :
  parse_axis_mapping amap c = set_axis_map c (axis_map (parse_axis_mapping amap c)).
Proof.
  unfold parse_axis_mapping, with_key, set_axis.
  repeat match goal with
         | |- context [json_object_object_get_ex amap ?k] =>
             destruct (json_object_object_get_ex amap k)
         end; destruct c; reflexivity.
Qed.

Lemma parse_axis_mapping_nth (amap : json) (c : config) (i : nat) :
  List.length (axis_map c) = 6%nat -> (i < 6)%nat ->
  List.length (axis_map (parse_axis_mapping amap c)) = 6%nat
  /\ nth i (axis_map (parse_axis_mapping amap c)) ACT_NONE
     = effective
         (option_map (fun ax => parse_axis_action (json_object_get_string ax))
            (json_object_object_get_ex amap (nth i axis_keys "")))
         (nth i (axis_map c) ACT_NONE).
Proof.
  intros Hlen Hi. destruct c as [? ? ? ? ? ? am ? ? ? ?]. cbn in Hlen.
  do 6 (destruct am as [|? am]; [discriminate Hlen|]).
  destruct am; [clear Hlen|discriminate Hlen].
  unfold parse_axis_mapping, with_key, set_axis.
  do 6 (destruct i as [|i]; [
    cbn [nth axis_keys];
    repeat match goal with
           | |- context [json_object_object_get_ex amap ?k] =>
               destruct (json_object_object_get_ex amap k)
           end; split; reflexivity |]).
  lia.
Qed.

Ltac project_fields :=
  repeat match goal with
         | |- context [?proj (with_key ?obj ?key ?store ?c)] =>
             first
               [ rewrite (with_key_other proj obj key store c)
                   by (intros; reflexivity)
               | match store with
                 | (fun (val : json) (c' : config) => ?set c' (@?get val)) =>
                     rewrite (with_key_this proj obj key get store c)
                       by (intros; reflexivity)
                 end ]
         end.

Lemma parse_profile_obj_inherits (obj : json) (p p' : profile)
    (defaults : option config) :
  let d := match defaults with Some d => d | None => config_defaults end in
  List.length (axis_map d) = 6%nat -> List.length (btn_map d) = 16%nat ->
  parse_profile_obj obj p defaults = Some p' ->
  name p' = name p
  /\ inherits obj (cfg p') d
  /\ List.length (axis_map (cfg p')) = 6%nat
  /\ List.length (btn_map (cfg p')) = 16%nat.
Proof.
  intros d Ha Hb. unfold parse_profile_obj. fold d.
  set (c9 := with_key obj "sensitivity" _ _).
  set (c10 := with_key obj "axis_mapping" parse_axis_mapping c9).
  destruct (parse_button_mapping obj c10) as [c11|] eqn:Eb; [|discriminate].
  destruct (parse_wm_classes obj (wm_classes p)) as [wms|]; [|discriminate].
  intros E. injection E as <-. cbn [name cfg].
  assert (F11 : c11 = set_btn_map c10 (btn_map c11)).
  { unfold parse_button_mapping in Eb.
    destruct (json_object_object_get_ex obj "button_mapping") as [bmap|].
    - destruct (json_object_iter bmap); [|discriminate].
      injection Eb as <-. apply button_entries_frame.
    - injection Eb as <-. now destruct c10. }
  assert (F10 : c10 = set_axis_map c9 (axis_map c10)).
  { unfold c10, with_key.
    destruct (json_object_object_get_ex obj "axis_mapping").
    - apply parse_axis_mapping_frame.
    - now destruct c9. }
  assert (B9 : btn_map c9 = btn_map d /\ axis_map c9 = axis_map d).
  { unfold c9. split; project_fields; reflexivity. }
  destruct B9 as [B9 A9].
  assert (Hax : List.length (axis_map c10) = 6%nat
                /\ forall i, (i < 6)%nat ->
                   nth i (axis_map c10) ACT_NONE
                   = effective
                       (option_map
                          (fun ax => parse_axis_action (json_object_get_string ax))
                          (specified_axis obj i))
                       (nth i (axis_map d) ACT_NONE)).
  { unfold c10, with_key, specified_axis.
    destruct (json_object_object_get_ex obj "axis_mapping") as [amap|].
    - split.
      + apply (parse_axis_mapping_nth amap c9 0); [now rewrite A9|lia].
      + intros i Hi. rewrite <- A9.
        apply (parse_axis_mapping_nth amap c9 i); [now rewrite A9|exact Hi].
    - rewrite A9. split; [assumption|reflexivity]. }
  destruct Hax as [Hal Hax].
  assert (Hbt : List.length (btn_map c11) = 16%nat
                /\ forall b, 0 <= b < 16 ->
                   nth (Z.to_nat b) (btn_map c11) BTNACT_NONE
                   = effective
                       (option_map
                          (fun v => parse_btn_action (json_object_get_string v))
                          (specified_button obj b))
                       (nth (Z.to_nat b) (btn_map d) BTNACT_NONE)).
  { assert (B10 : btn_map c10 = btn_map d)
      by (rewrite F10; cbn; exact B9).
    unfold parse_button_mapping, specified_button in *.
    destruct (json_object_object_get_ex obj "button_mapping") as [bmap|].
    - destruct bmap; cbn in Eb; try discriminate.
      injection Eb as <-. split.
      + now rewrite button_entries_length, B10.
      + intros b Hb'. rewrite <- B10.
        apply button_entries_nth; [now rewrite B10|exact Hb'].
    - injection Eb as <-. rewrite B10. split; [assumption|reflexivity]. }
  destruct Hbt as [Hbl Hbt].
  split; [reflexivity|]. split; [|split].
  - unfold inherits. rewrite F11. cbn [deadzone scroll_speed scroll_exponent
      zoom_speed dswitch_threshold dswitch_cooldown_ms invert_scroll_x
      invert_scroll_y sensitivity axis_map btn_map set_btn_map].
    rewrite F10. cbn [deadzone scroll_speed scroll_exponent
      zoom_speed dswitch_threshold dswitch_cooldown_ms invert_scroll_x
      invert_scroll_y sensitivity axis_map btn_map set_axis_map].
    unfold c9.
    repeat split; try (project_fields; reflexivity).
    + exact Hax.
    + exact Hbt.
  - rewrite F11. cbn. exact Hal.
  - exact Hbl.
Qed.

(* The table of a multi-profile document *)

Lemma Forall2_nth_error_l {A B : Type} (R : A -> B -> Prop) :
  forall (l1 : list A) (l2 : list B) (i : nat) (x : A),
  Forall2 R l1 l2 -> nth_error l1 i = Some x ->
  exists y, nth_error l2 i = Some y /\ R x y.
Proof.
  intros l1 l2 i x H. revert i. induction H as [|a b l1 l2 Hab _ IH];
    intros [|i] Hx; cbn in *; try discriminate.
  - injection Hx as <-. now exists b.
  - now apply IH.
Qed.

Lemma load_named_spec (d : config) (members : list (string * json)) :
  forall loaded ps : list profile,
  load_named d members loaded = Some ps ->
  exists tail : list profile,
    ps = loaded ++ tail
    /\ Forall2 (loaded_as d)
         (firstn (MAX_PROFILES - List.length loaded) (named_members members))
         tail.
Proof.
  induction members as [|[pname obj] rest IH]; intros loaded ps;
    unfold named_members; cbn [load_named filter fst]; fold named_members.
  - intros E. injection E as <-. exists []. rewrite app_nil_r, firstn_nil.
    split; [reflexivity|constructor].
  - destruct (strcmp_eq pname "default") eqn:En; cbn [negb andb].
    + apply IH.
    + destruct (Nat.ltb_spec (List.length loaded) MAX_PROFILES) as [Hroom|Hfull].
      * destruct (parse_profile_obj obj _ (Some d)) as [p|] eqn:Ep;
          [|discriminate].
        intros E. destruct (IH _ _ E) as [tail [-> Ht]].
        exists (p :: tail). rewrite <- app_assoc. split; [reflexivity|].
        rewrite length_app in Ht. cbn in Ht.
        replace (MAX_PROFILES - List.length loaded)%nat
          with (S (MAX_PROFILES - (List.length loaded + 1)))%nat by lia.
        cbn. constructor; [exact Ep|exact Ht].
      * intros E. destruct (IH _ _ E) as [tail [-> Ht]].
        exists tail. split; [reflexivity|].
        replace (MAX_PROFILES - List.length loaded)%nat with O in * by lia.
        exact Ht.
Qed.

(** C4 (as amended). For every loaded multi-profile document, profile 0
    is named "default", and the named members of [profiles], in
    document order and up to the 31 the table has room for, are
    profiles 1, 2, ... of the table. For each of them and each of the
    nine scalar fields F: when the member omits F its F is the default
    profile's F as loaded, and when it specifies F its F is the value
    read from the member, whatever the default's. For [axis_mapping]
    and [button_mapping] the same holds entry by entry: an axis slot or
    button the member's mapping does not name keeps the default
    profile's action, also when the member has the mapping. The table
    holds the resulting values: inheritance is applied by the load, and
    no command changes a profile afterwards. *)
Theorem profile_inheritance (root : json) (path : string)
    (members : list (string * json)) (r : Z) (s : store) (log : list log_line) :
  json_object_object_get_ex root "profiles" = Some (JObject members) ->
  config_load_all (Some root) path = Some (r, s, log) ->
  exists p0 : profile,
    nth_error (g_profiles s) 0 = Some p0
    /\ name p0 = "default"
    /\ forall (i : nat) (pname : string) (obj : json),
        (i < MAX_PROFILES - 1)%nat ->
        nth_error (named_members members) i = Some (pname, obj) ->
        exists p : profile,
          nth_error (g_profiles s) (S i) = Some p
          /\ name p = snprintf 64 pname
          /\ inherits obj (cfg p) (cfg p0)
          /\ forall (g_reload : bool) (received : option string),
              nth_error
                (g_profiles (fst (fst (cmd_handle_client s g_reload received))))
                (S i) = Some p.
Proof.
  intros Hp. unfold config_load_all. rewrite Hp. cbn [json_object_iter].
  set (p0 := mk_profile (snprintf 64 "default") [] empty_config).
  destruct (match json_object_object_get_ex (JObject members) "default" with
            | Some def_obj => parse_profile_obj def_obj p0 None
            | None => Some (mk_profile (name p0) [] config_defaults)
            end) as [d|] eqn:Ed; [|discriminate].
  destruct (load_named (cfg d) members [d]) as [ps|] eqn:El; [|discriminate].
  intros E. injection E as _ <- _. cbn [g_profiles].
  assert (Hd : name d = "default"
               /\ List.length (axis_map (cfg d)) = 6%nat
               /\ List.length (btn_map (cfg d)) = 16%nat).
  { destruct (json_object_object_get_ex (JObject members) "default").
    - destruct (parse_profile_obj_inherits _ _ _ None eq_refl eq_refl Ed)
        as [Hn [_ [Ha Hb]]].
      repeat split; assumption.
    - injection Ed as <-. repeat split. }
  destruct Hd as [Hn [Ha Hb]].
  destruct (load_named_spec _ _ _ _ El) as [tail [-> Ht]].
  exists d. split; [reflexivity|]. split; [exact Hn|].
  intros i pname obj Hi Hm. cbn [List.length] in Ht.
  assert (Hf : nth_error (firstn (MAX_PROFILES - 1) (named_members members)) i
               = Some (pname, obj))
    by (rewrite nth_error_firstn; destruct (Nat.ltb_spec i (MAX_PROFILES - 1));
        [exact Hm|lia]).
  destruct (Forall2_nth_error_l _ _ _ _ _ Ht Hf) as [p [Hp' Hl]].
  exists p. split; [exact Hp'|].
  destruct (parse_profile_obj_inherits _ _ _ (Some (cfg d)) Ha Hb Hl)
    as [Hname [Hin _]].
  split; [assumption|]. split; [assumption|].
  intros g_reload received. now rewrite cmd_handle_client_profiles.
Qed.

End Loading.



Lemma profile_inheritance_witness :
  exists p0 : profile,
    nth_error (g_profiles sample_store) 0 = Some p0
    /\ name p0 = "default"
    /\ forall (i : nat) (pname : string) (obj : json),
        (i < MAX_PROFILES - 1)%nat ->
        nth_error (named_members sample_members) i = Some (pname, obj) ->
        exists p : profile,
          nth_error (g_profiles sample_store) (S i) = Some p
          /\ name p = snprintf 64 pname
          /\ @inherits plain_json_c obj (cfg p) (cfg p0)
          /\ forall (g_reload : bool) (received : option string),
              nth_error
                (g_profiles
                   (fst (fst (cmd_handle_client sample_store g_reload
                                received))))
                (S i) = Some p.
Proof.
  apply (@profile_inheritance plain_json_c sample_document "config.json"
           sample_members 0 sample_store
           (log_of (@config_load_all plain_json_c (Some sample_document)
                      "config.json"))); reflexivity.
Defined.

(** C4 as stated fails for the two mappings: the profile "Web" specifies
    [button_mapping] with the same value in both sample documents, and
    its effective button map follows the default profile's: buttons 0
    and 1, which its mapping does not name, are inherited. *)
Lemma inheritance_of_mappings_is_per_entry :
  json_object_object_get_ex web_profile "button_mapping"
  = Some (JObject [("2", JString "overview")])
  /\ member "Web" sample_members = Some web_profile
  /\ member "Web" sample_members' = Some web_profile
  /\ btn_map (cfg (profile_at (g_profiles sample_store) 1))
     = BTNACT_OVERVIEW :: BTNACT_SHOW_DESKTOP :: BTNACT_OVERVIEW
       :: repeat BTNACT_NONE 13
  /\ btn_map (cfg (profile_at (g_profiles sample_store') 1))
     = BTNACT_SHOW_DESKTOP :: BTNACT_SHOW_DESKTOP :: BTNACT_OVERVIEW
       :: repeat BTNACT_NONE 13
  /\ btn_map (cfg (profile_at (g_profiles sample_store) 1))
     <> btn_map (cfg (profile_at (g_profiles sample_store') 1)).
Proof.
  repeat split; try reflexivity. discriminate.
Qed.

(* ------------------------------------------------------------------ *)
(** ** Command socket *)

Lemma strcasecmp_eq_lowercase (a : string) : forall b : string,
  strcasecmp_eq a b = true <-> lowercase a = lowercase b.
Proof.
  induction a as [|x a IH]; intros [|y b]; cbn; split; intros H;
    try reflexivity; try discriminate.
  - apply andb_true_iff in H. destruct H as [Hc Hs].
    apply Ascii.eqb_eq in Hc. apply IH in Hs. now rewrite Hc, Hs.
  - injection H as Hc Hs. apply andb_true_iff. split.
    + now apply Ascii.eqb_eq.
    + now apply IH.
Qed.

Lemma find_index_none {A : Type} (f : A -> bool) (l : list A) :
  (forall x, In x l -> f x = false) -> find_index f l = None.
Proof.
  induction l as [|x t IH]; intros H; cbn; [reflexivity|].
  rewrite (H x) by now left. rewrite IH; [reflexivity|].
  intros y Hy. apply H. now right.
Qed.

Lemma find_index_first {A : Type} (f : A -> bool) (d : A) :
  forall (l : list A) (i : nat),
  (i < List.length l)%nat -> f (nth i l d) = true ->
  (forall j, (j < i)%nat -> f (nth j l d) = false) ->
  find_index f l = Some i.
Proof.
  induction l as [|x t IH]; intros i Hi Hf Hb; cbn in *; [lia|].
  destruct i as [|i].
  - now rewrite Hf.
  - rewrite (Hb O) by lia. rewrite (IH i); [reflexivity|lia|exact Hf|].
    intros j Hj. apply (Hb (S j)). lia.
Qed.

Lemma find_index_found {A : Type} (f : A -> bool) (d : A) :
  forall (l : list A) (i : nat),
  find_index f l = Some i ->
  (i < List.length l)%nat /\ f (nth i l d) = true.
Proof.
  induction l as [|x t IH]; intros i; cbn; [discriminate|].
  destruct (f x) eqn:Ex.
  - intros E. injection E as <-. split; [lia|exact Ex].
  - destruct (find_index f t) as [k|]; cbn; [|discriminate].
    intros E. injection E as <-. destruct (IH k eq_refl). split; [lia|assumption].
Qed.

(** A command leaves the table one a load can have produced. *)
Lemma cmd_handle_client_store_ok (s : store) (g_reload : bool)
    (received : option string) :
  store_ok s -> store_ok (fst (fst (cmd_handle_client s g_reload received))).
Proof.
  intros [Hn Ha]. unfold cmd_handle_client.
  destruct received as [received|]; [|now split].
  destruct (String.length _ =? 0)%nat; [now split|].
  destruct (strip_prefix "PROFILE " (command_line received)) as [name0|].
  - destruct (find_index _ (g_profiles s)) as [i|] eqn:Ef; [|now split].
    split; [exact Hn|]. cbn.
    now destruct (find_index_found _ empty_profile _ _ Ef).
  - destruct (strcmp_eq (command_line received) "RELOAD"); [now split|].
    destruct (strcmp_eq (command_line received) "STATUS"); now split.
Qed.

Lemma substring_short (s : string) : forall n : nat,
  (String.length s <= n)%nat -> substring 0 n s = s.
Proof.
  induction s as [|c s IH]; intros [|n] H; cbn in *; try reflexivity; try lia.
  rewrite IH by lia. reflexivity.
Qed.

Lemma substring_length_le (s : string) : forall n : nat,
  (String.length (substring 0 n s) <= n)%nat.
Proof.
  induction s as [|c s IH]; intros [|n]; cbn; try lia.
  specialize (IH n). lia.
Qed.

Lemma snprintf_fits (size : nat) (text : string) :
  (String.length text < size)%nat -> snprintf size text = text.
Proof. intros H. unfold snprintf. apply substring_short. lia. Qed.

Lemma string_length_app (a b : string) :
  String.length (a ++ b)%string = (String.length a + String.length b)%nat.
Proof. induction a as [|c a IH]; cbn; [reflexivity|now rewrite IH]. Qed.

Lemma empty_command_line (received : string) :
  String.length (substring 0 (CMD_BUF_SIZE - 1) received) = O ->
  command_line received = "".
Proof.
  unfold command_line.
  destruct (substring 0 (CMD_BUF_SIZE - 1) received); [reflexivity|discriminate].
Qed.

(** C6 (as amended). For every command whose line is [PROFILE <name>]:
    the name is looked up among the loaded profiles without regard to
    case, first match first. If no profile matches, the table and the
    active index are unchanged and the response is
    [ERR unknown profile '<name>'] and a line feed, cut to the 255
    bytes of the response buffer: the whole line when the name has at
    most 232 bytes. If a profile matches, the first such profile becomes
    the active one and the response is [OK ] with its stored name and a
    line feed (whole, the stored names having at most 63 bytes). *)
Theorem profile_command (s : store) (g_reload : bool)
    (received name0 : string) :
  command_line received = ("PROFILE " ++ name0)%string ->
  ((forall p, In p (g_profiles s) -> lowercase (name p) <> lowercase name0) ->
   cmd_handle_client s g_reload (Some received)
   = (s, g_reload,
      Some (snprintf CMD_BUF_SIZE
              ("ERR unknown profile '" ++ name0 ++ "'" ++ LF)%string))
   /\ ((String.length name0 <= 232)%nat ->
       snprintf CMD_BUF_SIZE ("ERR unknown profile '" ++ name0 ++ "'" ++ LF)%string
       = ("ERR unknown profile '" ++ name0 ++ "'" ++ LF)%string))
  /\ (forall i : nat,
      (i < List.length (g_profiles s))%nat ->
      lowercase (name (profile_at (g_profiles s) i)) = lowercase name0 ->
      (forall j, (j < i)%nat ->
         lowercase (name (profile_at (g_profiles s) j)) <> lowercase name0) ->
      cmd_handle_client s g_reload (Some received)
      = (mk_store (g_profiles s) i, g_reload,
         Some (snprintf CMD_BUF_SIZE
                 ("OK " ++ name (profile_at (g_profiles s) i) ++ LF)%string))
      /\ (store_ok s ->
          snprintf CMD_BUF_SIZE
            ("OK " ++ name (profile_at (g_profiles s) i) ++ LF)%string
          = ("OK " ++ name (profile_at (g_profiles s) i) ++ LF)%string)).
Proof.
  intros Hline.
  assert (Hc :
    cmd_handle_client s g_reload (Some received)
    = match find_index (fun p => strcasecmp_eq (name p) name0) (g_profiles s)
      with
      | Some found =>
          (mk_store (g_profiles s) found, g_reload,
           Some (snprintf CMD_BUF_SIZE
                   ("OK " ++ name (profile_at (g_profiles s) found) ++ LF)%string))
      | None =>
          (s, g_reload,
           Some (snprintf CMD_BUF_SIZE
                   ("ERR unknown profile '" ++ name0 ++ "'" ++ LF)%string))
      end).
  { unfold cmd_handle_client.
    destruct (Nat.eqb_spec
                (String.length (substring 0 (CMD_BUF_SIZE - 1) received)) 0)
      as [Hz|_].
    - apply empty_command_line in Hz. rewrite Hz in Hline. discriminate.
    - rewrite Hline.
      change (strip_prefix "PROFILE " ("PROFILE " ++ name0)%string)
        with (Some name0).
      reflexivity. }
  split.
  - intros Hnone. split.
    + rewrite Hc, find_index_none; [reflexivity|].
      intros p Hp. destruct (strcasecmp_eq (name p) name0) eqn:E;
        [|reflexivity].
      apply strcasecmp_eq_lowercase in E. now apply Hnone in Hp.
    + intros Hlen. apply snprintf_fits.
      rewrite !string_length_app. cbn. unfold CMD_BUF_SIZE. lia.
  - intros i Hi Hm Hfirst. split.
    + rewrite Hc, (find_index_first _ empty_profile _ i); [reflexivity|exact Hi| |].
      * now apply strcasecmp_eq_lowercase.
      * intros j Hj. fold (profile_at (g_profiles s) j).
        destruct (strcasecmp_eq (name (profile_at (g_profiles s) j)) name0)
          eqn:E; [|reflexivity].
        apply strcasecmp_eq_lowercase in E. now apply Hfirst in Hj.
    + intros [Hnames _]. apply snprintf_fits.
      rewrite !string_length_app. cbn.
      rewrite Forall_forall in Hnames.
      specialize (Hnames (profile_at (g_profiles s) i)
                    (nth_In _ _ Hi)).
      unfold CMD_BUF_SIZE. lia.
Qed.

Lemma profile_command_witness :
  cmd_handle_client sample_store false (Some ("PROFILE Blender" ++ LF)%string)
  = (sample_store, false, Some ("ERR unknown profile 'Blender'" ++ LF)%string)
  /\ cmd_handle_client sample_store false (Some ("PROFILE web" ++ LF)%string)
     = (mk_store (g_profiles sample_store) 1, false, Some ("OK Web" ++ LF)%string).
Proof.
  split.
  - destruct (profile_command sample_store false
                ("PROFILE Blender" ++ LF)%string "Blender" eq_refl)
      as [[H _] _]; [|exact H].
    intros p [<-|[<-|[]]]; discriminate.
  - destruct (profile_command sample_store false
                ("PROFILE web" ++ LF)%string "web" eq_refl)
      as [_ H].
    destruct (H 1%nat) as [E _]; [cbn; lia|reflexivity| |exact E].
    intros j Hj. assert (j = O) by lia. subst j. discriminate.
Defined.

(** C6 as stated fails for a long name: for a name of 240 bytes that no
    profile has, the response is cut to 255 bytes, in the middle of the
    name, and is not the line [ERR unknown profile '<name>']. *)
Lemma profile_command_long_name :
  command_line ("PROFILE " ++ long_name ++ LF)%string
  = ("PROFILE " ++ long_name)%string
  /\ cmd_handle_client default_store false
       (Some ("PROFILE " ++ long_name ++ LF)%string)
     = (default_store, false,
        Some ("ERR unknown profile '"
              ++ string_of_list_ascii (repeat "x"%char 234))%string)
  /\ ("ERR unknown profile '"
      ++ string_of_list_ascii (repeat "x"%char 234))%string
     <> ("ERR unknown profile '" ++ long_name ++ "'" ++ LF)%string
  /\ ("ERR unknown profile '"
      ++ string_of_list_ascii (repeat "x"%char 234))%string
     <> ("ERR unknown profile '" ++ long_name ++ "'")%string.
Proof.
  split; [vm_compute; reflexivity|].
  split; [vm_compute; reflexivity|].
  split; intros H; apply (f_equal String.length) in H; vm_compute in H;
    discriminate H.
Qed.

(* ------------------------------------------------------------------ *)
(** ** Reload *)

Section Reload.

Context {J : json_c}.

Lemma parse_profile_obj_name (obj : json) (p p' : profile)
    (defaults : option config) :
  parse_profile_obj obj p defaults = Some p' -> name p' = name p.
Proof.
  unfold parse_profile_obj.
  destruct (parse_button_mapping obj _); [|discriminate].
  destruct (parse_wm_classes obj _); [|discriminate].
  intros E. now injection E as <-.
Qed.

Lemma parse_profile_obj_total (obj : json) (p : profile)
    (defaults : option config) :
  profile_obj_ok obj = true ->
  exists p', parse_profile_obj obj p defaults = Some p'.
Proof.
  unfold profile_obj_ok, parse_profile_obj, parse_button_mapping,
    parse_wm_classes.
  intros H. apply andb_true_iff in H. destruct H as [Hb Hw].
  destruct (json_object_object_get_ex obj "button_mapping") as [[]|];
    try discriminate;
    destruct (json_object_object_get_ex obj "match_wm_class") as [[]|];
    try discriminate; cbn; eexists; reflexivity.
Qed.

Lemma load_named_total (d : config) (members : list (string * json)) :
  forallb (fun kv => profile_obj_ok (snd kv)) members = true ->
  forall loaded, exists ps, load_named d members loaded = Some ps.
Proof.
  induction members as [|[pname obj] rest IH]; intros H loaded;
    cbn [load_named].
  - now exists loaded.
  - cbn in H. apply andb_true_iff in H. destruct H as [Hobj Hrest].
    destruct (negb (strcmp_eq pname "default")
              && (List.length loaded <? MAX_PROFILES)%nat).
    + destruct (parse_profile_obj_total obj
                  (mk_profile (snprintf 64 pname) [] empty_config)
                  (Some d) Hobj) as [p ->].
      now apply IH.
    + now apply IH.
Qed.

Lemma member_ok (key : string) (v : json) :
  forall members : list (string * json),
  forallb (fun kv => profile_obj_ok (snd kv)) members = true ->
  member key members = Some v -> profile_obj_ok v = true.
Proof.
  induction members as [|[k w] rest IH]; cbn; [discriminate|].
  intros H. apply andb_true_iff in H. destruct H as [Hw Hrest].
  destruct (String.eqb k key).
  - intros E. now injection E as <-.
  - now apply IH.
Qed.

Lemma config_load_all_total (root : option json) (path : string) :
  document_ok root = true ->
  exists s log, config_load_all root path = Some (0, s, log).
Proof.
  destruct root as [root|]; cbn [document_ok config_load_all];
    [|intros _; eexists; eexists; reflexivity].
  destruct (json_object_object_get_ex root "profiles") as [profiles_obj|].
  - destruct profiles_obj; try discriminate. intros Hok.
    cbn [json_object_iter json_object_object_get_ex].
    assert (Hd : exists d,
      match member "default" members with
      | Some def_obj =>
          parse_profile_obj def_obj
            (mk_profile (snprintf 64 "default") [] empty_config) None
      | None =>
          Some (mk_profile
                  (name (mk_profile (snprintf 64 "default") [] empty_config))
                  [] config_defaults)
      end = Some d).
    { destruct (member "default" members) as [def_obj|] eqn:Em.
      - apply parse_profile_obj_total. eapply member_ok; eassumption.
      - eexists; reflexivity. }
    destruct Hd as [d ->].
    destruct (load_named_total (cfg d) members Hok [d]) as [ps ->].
    eexists; eexists; reflexivity.
  - intros Hok.
    destruct (parse_profile_obj_total root
                (mk_profile (snprintf 64 "default") [] empty_config) None Hok)
      as [d ->].
    eexists; eexists; reflexivity.
Qed.

Lemma snprintf_length (size : nat) (text : string) :
  (String.length (snprintf size text) <= size - 1)%nat.
Proof. apply substring_length_le. Qed.

Lemma load_named_names (d : config) (members : list (string * json)) :
  forall loaded ps : list profile,
  Forall (fun p => (String.length (name p) <= 63)%nat) loaded ->
  load_named d members loaded = Some ps ->
  Forall (fun p => (String.length (name p) <= 63)%nat) ps.
Proof.
  induction members as [|[pname obj] rest IH]; intros loaded ps Hl;
    cbn [load_named].
  - intros E. now injection E as <-.
  - destruct (negb (strcmp_eq pname "default")
              && (List.length loaded <? MAX_PROFILES)%nat).
    + destruct (parse_profile_obj obj _ (Some d)) as [p|] eqn:Ep;
        [|discriminate].
      apply IH. apply Forall_app. split; [exact Hl|].
      constructor; [|constructor].
      rewrite (parse_profile_obj_name _ _ _ _ Ep). cbn [name].
      apply (snprintf_length 64).
    + now apply IH.
Qed.

Lemma config_load_all_store_ok (root : option json) (path : string)
    (r : Z) (s : store) (log : list log_line) :
  config_load_all root path = Some (r, s, log) ->
  store_ok s /\ g_active_profile s = O
  /\ name (profile_at (g_profiles s) 0) = "default"
  /\ r = 0.
Proof.
  unfold config_load_all, store_ok.
  set (p0 := mk_profile (snprintf 64 "default") [] empty_config).
  destruct root as [root|].
  - destruct (json_object_object_get_ex root "profiles") as [profiles_obj|].
    + destruct (match json_object_object_get_ex profiles_obj "default" with
                | Some def_obj => parse_profile_obj def_obj p0 None
                | None => Some (mk_profile (name p0) [] config_defaults)
                end) as [d|] eqn:Ed; [|discriminate].
      destruct (json_object_iter profiles_obj) as [members|]; [|discriminate].
      destruct (load_named (cfg d) members [d]) as [ps|] eqn:El; [|discriminate].
      intros E. injection E as <- <- _. cbn [g_profiles g_active_profile].
      assert (Hn : name d = "default").
      { destruct (json_object_object_get_ex profiles_obj "default").
        - now rewrite (parse_profile_obj_name _ _ _ _ Ed).
        - now injection Ed as <-. }
      destruct (load_named_spec _ _ _ _ El) as [tail [Hps _]].
      split; [split|split; [|split]].
      * eapply load_named_names; [|exact El].
        constructor; [|constructor]. rewrite Hn. cbn. lia.
      * rewrite Hps. cbn. lia.
      * reflexivity.
      * rewrite Hps. exact Hn.
      * reflexivity.
    + destruct (parse_profile_obj root p0 None) as [d|] eqn:Ed; [|discriminate].
      intros E. injection E as <- <- _. cbn [g_profiles g_active_profile].
      pose proof (parse_profile_obj_name _ _ _ _ Ed) as Hn.
      change (name p0) with "default" in Hn.
      repeat split; cbn; try lia; try exact Hn.
      constructor; [rewrite Hn; cbn; lia|constructor].
  - intros E. injection E as <- <- _. cbn.
    repeat split; try lia. constructor; [cbn; lia|constructor].
Qed.

(** C7 (as amended). For every reload the main loop performs on a
    document json-c can iterate (and, more generally, for every reload
    that comes back with a table): the table is the one
    [config_load_all] builds from the document; afterwards the active
    profile has the name of the profile that was active before, if the
    new table has a profile of that name, and is profile 0, "default",
    otherwise; the reload flag is cleared and the three accumulators are
    zero. *)
Theorem reload_keeps_active_by_name (root : option json) (path : string)
    (s : store) :
  store_ok s ->
  (document_ok root = true ->
   exists (s' : store) (log : list log_line),
     reload root path s = Some (s', false, scroll_acc_reset, log))
  /\ (forall (s' : store) (flag : bool) (acc : scroll_acc)
             (log : list log_line),
      reload root path s = Some (s', flag, acc, log) ->
      config_load_all root path = Some (0, mk_store (g_profiles s') 0, log)
      /\ flag = false
      /\ acc = mk_scroll_acc 0 0 0
      /\ store_ok s'
      /\ name (profile_at (g_profiles s') 0) = "default"
      /\ ((exists p, In p (g_profiles s')
                     /\ name p = name (profile_at (g_profiles s)
                                         (g_active_profile s))) ->
          name (profile_at (g_profiles s') (g_active_profile s'))
          = name (profile_at (g_profiles s) (g_active_profile s)))
      /\ ((forall p, In p (g_profiles s') ->
                     name p <> name (profile_at (g_profiles s)
                                       (g_active_profile s))) ->
          g_active_profile s' = O)).
Proof.
  intros [Hnames Hact].
  set (old := name (profile_at (g_profiles s) (g_active_profile s))).
  assert (Hold : snprintf 64 old = old).
  { apply snprintf_fits. rewrite Forall_forall in Hnames.
    specialize (Hnames _ (nth_In _ empty_profile Hact)).
    fold (profile_at (g_profiles s) (g_active_profile s)) in Hnames.
    fold old in Hnames. lia. }
  split.
  - intros Hdoc.
    destruct (config_load_all_total root path Hdoc) as [s1 [log Hload]].
    unfold reload. rewrite Hload. eexists; eexists; reflexivity.
  - intros s' flag acc log. unfold reload. fold old. rewrite Hold.
    destruct (config_load_all root path) as [[[r s1] log1]|] eqn:Hload;
      [|discriminate].
    destruct (config_load_all_store_ok _ _ _ _ _ Hload)
      as [[Hn1 Hlen1] [Ha1 [Hd1 Hr]]].
    destruct s1 as [ps1 a1]. cbn [g_profiles g_active_profile] in *.
    subst a1 r.
    intros E. injection E as <- <- <- <-.
    cbn [g_profiles g_active_profile].
    split; [reflexivity|]. split; [reflexivity|]. split; [reflexivity|].
    destruct (find_index (fun p => strcmp_eq (name p) old) ps1)
      as [i|] eqn:Ef.
    + destruct (find_index_found _ empty_profile _ _ Ef) as [Hi Hm].
      apply String.eqb_eq in Hm.
      split; [now split|]. split; [assumption|]. split.
      * intros _. exact Hm.
      * intros Hnone. exfalso.
        apply (Hnone (nth i ps1 empty_profile)); [now apply nth_In|exact Hm].
    + split; [now split|]. split; [assumption|]. split; [|reflexivity].
      intros [p [Hp Hname]]. exfalso.
      assert (Hall : forall x, In x ps1 -> strcmp_eq (name x) old = false).
      { clear - Ef. induction ps1 as [|x t IH]; intros y []; cbn in Ef;
          destruct (strcmp_eq (name x) old) eqn:E; try discriminate;
          destruct (find_index _ t); try discriminate; subst; auto. }
      specialize (Hall p Hp). unfold strcmp_eq in Hall.
      apply String.eqb_neq in Hall. contradiction.
Qed.

End Reload.

Lemma reload_keeps_active_by_name_witness :
  exists (s' : store) (log : list log_line),
    @reload plain_json_c (Some sample_document') "config.json"
      (mk_store (g_profiles sample_store) 1)
    = Some (s', false, scroll_acc_reset, log)
    /\ name (profile_at (g_profiles s') (g_active_profile s')) = "Web".
Proof.
  destruct (@reload_keeps_active_by_name plain_json_c (Some sample_document')
              "config.json" (mk_store (g_profiles sample_store) 1))
    as [Hret Hprop].
  - split; [repeat constructor|cbn; lia].
  - destruct (Hret eq_refl) as [s' [log H]].
    exists s', log. split; [exact H|].
    destruct (Hprop s' false scroll_acc_reset log H)
      as [Hload [_ [_ [_ [_ [Hkeep _]]]]]].
    apply Hkeep.
    exists (profile_at (g_profiles sample_store') 1).
    split; [|reflexivity].
    assert (Hs : g_profiles s' = g_profiles sample_store')
      by (unfold sample_store'; rewrite Hload; reflexivity).
    rewrite Hs. right. left. reflexivity.
Defined.

(** C7 as stated fails for a document json-c cannot iterate: with the
    table of the built-in profile, whose active index is within it, a
    reload of [{"profiles": []}], of [{"button_mapping": "overview"}]
    or of [{"match_wm_class": "firefox"}] does not come back with a
    table, so that no profile is active afterwards. *)
Lemma reload_of_ill_typed_document :
  store_ok default_store
  /\ @reload plain_json_c (Some profiles_array_document) "config.json"
       default_store = None
  /\ @reload plain_json_c (Some button_string_document) "config.json"
       default_store = None
  /\ @reload plain_json_c (Some wm_class_string_document) "config.json"
       default_store = None.
Proof.
  split; [|repeat split].
  split; [repeat constructor; cbn; lia|cbn; lia].
Qed.

(* ------------------------------------------------------------------ *)
(** ** Desktop-switch gate *)

Lemma c_abs_exact (n : Z) : INT_MIN < n <= INT_MAX -> c_abs n = Z.abs n.
Proof.
  unfold INT_MIN, INT_MAX, c_abs, wrap_int. intros H.
  rewrite Z.mod_small by lia. lia.
Qed.

Lemma dswitch_gate_fires (c : config) (last axis now : Z) :
  fst (dswitch_gate c last axis now) <> None
  <-> (c_abs axis > dswitch_threshold c
       /\ now - last > dswitch_cooldown_ms c).
Proof.
  unfold dswitch_gate.
  destruct (Z.gtb_spec (c_abs axis) (dswitch_threshold c)) as [Ha|Ha];
    destruct (Z.gtb_spec (now - last) (dswitch_cooldown_ms c)) as [Hc|Hc];
    cbn [andb fst]; split.
  - intros _. split; lia.
  - intros _. discriminate.
  - intros H. now elim H.
  - intros [_ H]. lia.
  - intros H. now elim H.
  - intros [H _]. lia.
  - intros H. now elim H.
  - intros [H _]. lia.
Qed.

Lemma gate_run_spacing (c : config) (start T : Z) :
  0 < dswitch_cooldown_ms c ->
  forall (samples : list (Z * Z)) (last : Z),
  Forall (fun sample => start <= snd sample <= start + T) samples ->
  Z.of_nat (List.length (gate_run c last samples))
  * (dswitch_cooldown_ms c + 1)
  <= Z.max 0 (start + T - Z.max last (start - dswitch_cooldown_ms c - 1)).
Proof.
  intros Hcd. induction samples as [|[axis now] rest IH]; intros last Hw;
    cbn [gate_run].
  - cbn. lia.
  - inversion Hw as [|? ? Hnow Hrest]; subst. cbn [snd] in Hnow.
    unfold dswitch_gate.
    destruct (Z.gtb_spec (c_abs axis) (dswitch_threshold c)); cbn [andb];
      [|now apply IH].
    destruct (Z.gtb_spec (now - last) (dswitch_cooldown_ms c));
      [|now apply IH].
    specialize (IH now Hrest). cbn [List.length].
    rewrite Nat2Z.inj_succ. lia.
Qed.

(** C5 (as amended). For an axis value other than [INT_MIN] the gate
    fires on a sample if and only if [|axis_value| > threshold] and
    [now - last_trigger_time > cooldown_ms]; when it fires it fires
    "next" for a positive value and "previous" for a negative one and
    sets [last_trigger_time] to [now], and when it does not it leaves
    [last_trigger_time] as it was. Consequently, when [cooldown_ms] is
    positive, for any sequence of samples within a window of duration
    [T], whatever their values and spacing, the number of fired triggers
    is at most [floor(T / cooldown_ms) + 1]. *)
Theorem dswitch_gate_rate (c : config) (last axis now : Z)
    (samples : list (Z * Z)) (start T : Z) :
  (INT_MIN < axis <= INT_MAX ->
   (fst (dswitch_gate c last axis now) <> None
    <-> (Z.abs axis > dswitch_threshold c
         /\ now - last > dswitch_cooldown_ms c))
   /\ (fst (dswitch_gate c last axis now) <> None ->
       snd (dswitch_gate c last axis now) = now
       /\ (0 < axis -> fst (dswitch_gate c last axis now) = Some Next)
       /\ (axis < 0 -> fst (dswitch_gate c last axis now) = Some Previous))
   /\ (fst (dswitch_gate c last axis now) = None ->
       snd (dswitch_gate c last axis now) = last))
  /\ (0 < dswitch_cooldown_ms c -> 0 <= T ->
      Forall (fun sample => start <= snd sample <= start + T) samples ->
      Z.of_nat (List.length (gate_run c last samples))
      <= T / dswitch_cooldown_ms c + 1).
Proof.
  split.
  - intros Haxis. rewrite <- (c_abs_exact axis Haxis).
    split; [apply dswitch_gate_fires|].
    unfold dswitch_gate.
    destruct ((c_abs axis >? dswitch_threshold c)
              && (now - last >? dswitch_cooldown_ms c)); cbn [fst snd].
    + split.
      * intros _. split; [reflexivity|]. split; intros Hs.
        -- destruct (Z.gtb_spec axis 0); [reflexivity|lia].
        -- destruct (Z.gtb_spec axis 0); [lia|reflexivity].
      * discriminate.
    + split; [intros H; now elim H|reflexivity].
  - intros Hcd HT Hw.
    pose proof (gate_run_spacing c start T Hcd samples last Hw) as Hs.
    set (n := Z.of_nat (List.length (gate_run c last samples))) in *.
    assert (Hn : 0 <= n) by apply Nat2Z.is_nonneg.
    assert (Hq : n - 1 <= T / dswitch_cooldown_ms c).
    { destruct (Z.eq_dec n 0) as [->|Hnz].
      - pose proof (Z.div_pos T (dswitch_cooldown_ms c) HT Hcd). lia.
      - apply Z.div_le_lower_bound; [exact Hcd|]. nia. }
    lia.
Qed.

Lemma dswitch_gate_rate_witness :
  (fst (dswitch_gate config_defaults 0 300 600) <> None
   <-> (Z.abs 300 > 200 /\ 600 - 0 > 500))
  /\ Z.of_nat (List.length
       (gate_run config_defaults 0
          [(300, 600); (300, 700); (-300, 1101); (300, 1601); (300, 1602)]))
     <= 1100 / 500 + 1.
Proof.
  pose proof (dswitch_gate_rate config_defaults 0 300 600
                [(300, 600); (300, 700); (-300, 1101); (300, 1601); (300, 1602)]
                600 1100) as [Hg Hr].
  split.
  - apply Hg. unfold INT_MIN, INT_MAX. lia.
  - apply Hr; [reflexivity|lia|].
    repeat constructor; cbn; lia.
Defined.

(** C5 as stated fails in two places. A cooldown that is not positive
    does not limit the rate: with [cooldown_ms = -1] two samples at the
    same millisecond both fire, in a window of duration 0, where the
    bound is [floor(0 / -1) + 1 = 1]. And the sample [INT_MIN], whose
    magnitude [abs] cannot deliver, never fires. *)
Lemma dswitch_gate_negative_cooldown :
  gate_run negative_cooldown 0 [(300, 10); (300, 10)]
  = [(Next, 10); (Next, 10)]
  /\ Forall (fun sample => 10 <= snd sample <= 10 + 0) [(300, 10); (300, 10)]
  /\ ~ Z.of_nat (List.length
         (gate_run negative_cooldown 0 [(300, 10); (300, 10)]))
       <= 0 / dswitch_cooldown_ms negative_cooldown + 1
  /\ Z.abs INT_MIN > dswitch_threshold config_defaults
  /\ 1000 - 0 > dswitch_cooldown_ms config_defaults
  /\ fst (dswitch_gate config_defaults 0 INT_MIN 1000) = None.
Proof.
  split; [reflexivity|]. split; [repeat constructor; cbn; lia|].
  split; [cbn; lia|]. repeat split.
Qed.

(* ------------------------------------------------------------------ *)
(** ** Absent collaborators *)

(** C9, at its failing input. With the D-Bus connection absent, a press
    of button 1 under the built-in configuration (show-desktop) still
    calls [dbus_connection_send] and [dbus_connection_flush], on the
    [NULL] handle. *)
Theorem show_desktop_without_dbus :
  g_dbus no_collaborators = None
  /\ nth 1 (btn_map config_defaults) BTNACT_NONE = BTNACT_SHOW_DESKTOP
  /\ handle_button config_defaults no_collaborators true 1
       initial_router_state
     = (mk_router_state scroll_acc_reset 0 true,
        [DBUS_SEND None "showDesktop" true; DBUS_FLUSH None])
  /\ existsb through_dbus
       (snd (handle_button config_defaults no_collaborators true 1
               initial_router_state)) = true.
Proof. repeat split. Qed.

Lemma route_axis_no_uinput (c : config) (k : collaborators) (now : Z)
    (action : axis_action) (raw : Z) (st : router_state) :
  forallb (fun e => negb (through_uinput e))
    (snd (route_axis c k now action raw st)) = true.
Proof.
  unfold route_axis, dbus_call_kwin.
  destruct action; try reflexivity.
  destruct (dswitch_gate c (last_dswitch st) raw now) as [[d|] last];
    [|reflexivity].
  cbn [snd]. destruct (g_dbus k); [|reflexivity].
  now destruct (message_allocated k).
Qed.

Lemma route_axes_no_uinput (c : config) (k : collaborators) (clock : nat -> Z) :
  forall (axes : list Z) (i : nat) (st : router_state),
  forallb (fun e => negb (through_uinput e))
    (snd (route_axes c k clock i axes st)) = true.
Proof.
  induction axes as [|raw rest IH]; intros i st; cbn [route_axes];
    [reflexivity|].
  pose proof (route_axis_no_uinput c k (clock i)
                (nth i (axis_map c) ACT_NONE) raw st) as H1.
  destruct (route_axis c k (clock i) (nth i (axis_map c) ACT_NONE) raw st)
    as [st1 out1].
  specialize (IH (S i) st1).
  destruct (route_axes c k clock (S i) rest st1) as [st2 out2].
  cbn [snd] in *. rewrite forallb_app. now rewrite H1, IH.
Qed.

Lemma route_axes_no_dbus (c : config) (k : collaborators) (clock : nat -> Z) :
  g_dbus k = None ->
  forall (axes : list Z) (i : nat) (st : router_state),
  snd (route_axes c k clock i axes st) = [].
Proof.
  intros Hk. induction axes as [|raw rest IH]; intros i st; cbn [route_axes];
    [reflexivity|].
  assert (H1 : snd (route_axis c k (clock i)
                      (nth i (axis_map c) ACT_NONE) raw st) = []).
  { unfold route_axis, dbus_call_kwin. rewrite Hk.
    destruct (nth i (axis_map c) ACT_NONE); try reflexivity.
    now destruct (dswitch_gate c (last_dswitch st) raw (clock i)) as [[d|] ?]. }
  destruct (route_axis c k (clock i) (nth i (axis_map c) ACT_NONE) raw st)
    as [st1 out1].
  specialize (IH (S i) st1).
  destruct (route_axes c k clock (S i) rest st1) as [st2 out2].
  cbn [snd] in *. now rewrite H1, IH.
Qed.

(** X1. With the scroll/zoom emitter absent ([g_uinput_fd < 0]) no motion
    sample writes to it, and no button sample ever does. *)
Theorem no_emission_without_uinput (c : config) (k : collaborators)
    (clock : nat -> Z) (axes : list Z) (press : bool) (bnum : Z)
    (st : router_state) :
  g_uinput_fd k < 0 ->
  forallb (fun e => negb (through_uinput e))
    (snd (handle_motion c k clock axes st)) = true
  /\ forallb (fun e => negb (through_uinput e))
       (snd (handle_button c k press bnum st)) = true.
Proof.
  intros Hfd. split.
  - unfold handle_motion.
    pose proof (route_axes_no_uinput c k clock axes 0 st) as H.
    destruct (route_axes c k clock 0 axes st) as [st1 out].
    destruct (Z.geb_spec (g_uinput_fd k) 0); [lia|exact H].
  - unfold handle_button, dbus_call_kglobalaccel.
    destruct (negb press); [reflexivity|].
    destruct ((bnum <? 0) || (bnum >=? 16)); [reflexivity|].
    destruct (nth (Z.to_nat bnum) (btn_map c) BTNACT_NONE); try reflexivity.
    + destruct (g_dbus k); [|reflexivity]. now destruct (message_allocated k).
    + now destruct (message_allocated k).
Qed.

Lemma no_emission_without_uinput_witness :
  forallb (fun e => negb (through_uinput e))
    (snd (handle_motion config_defaults no_collaborators (fun _ => 1000)
            [300; 300; 300; 0; 300; 0] initial_router_state)) = true
  /\ forallb (fun e => negb (through_uinput e))
       (snd (handle_button config_defaults no_collaborators true 0
               initial_router_state)) = true.
Proof.
  apply (no_emission_without_uinput config_defaults no_collaborators
           (fun _ => 1000) [300; 300; 300; 0; 300; 0] true 0
           initial_router_state).
  reflexivity.
Defined.

(** X2. With the D-Bus connection absent, no motion sample (desktop switch
    included) and no press of an overview button calls libdbus. *)
Theorem no_dbus_call_for_motion_and_overview (c : config) (k : collaborators)
    (clock : nat -> Z) (axes : list Z) (press : bool) (bnum : Z)
    (st : router_state) :
  g_dbus k = None ->
  forallb (fun e => negb (through_dbus e))
    (snd (handle_motion c k clock axes st)) = true
  /\ (nth (Z.to_nat bnum) (btn_map c) BTNACT_NONE <> BTNACT_SHOW_DESKTOP ->
      snd (handle_button c k press bnum st) = []).
Proof.
  intros Hk. split.
  - unfold handle_motion.
    pose proof (route_axes_no_dbus c k clock Hk axes 0 st) as H.
    destruct (route_axes c k clock 0 axes st) as [st1 out].
    cbn [snd] in H. subst out.
    destruct (g_uinput_fd k >=? 0); [|reflexivity].
    destruct (scroll_acc_consume (acc_x (sacc st1))) as [sx ax].
    destruct (scroll_acc_consume (acc_y (sacc st1))) as [sy ay].
    destruct (scroll_acc_consume (acc_z (sacc st1))) as [sz az].
    cbn [snd app]. unfold emit_scroll, emit_zoom, emit_event.
    destruct (sy =? 0); destruct (sx =? 0); destruct (sz =? 0); reflexivity.
  - intros Hb. unfold handle_button, dbus_call_kglobalaccel. rewrite Hk.
    destruct (negb press); [reflexivity|].
    destruct ((bnum <? 0) || (bnum >=? 16)); [reflexivity|].
    destruct (nth (Z.to_nat bnum) (btn_map c) BTNACT_NONE);
      try reflexivity. now elim Hb.
Qed.

Lemma no_dbus_call_for_motion_and_overview_witness :
  forallb (fun e => negb (through_dbus e))
    (snd (handle_motion config_defaults no_collaborators (fun _ => 1000)
            [300; 300; 300; 0; 300; 0] initial_router_state)) = true
  /\ snd (handle_button config_defaults no_collaborators true 0
            initial_router_state) = [].
Proof.
  destruct (no_dbus_call_for_motion_and_overview config_defaults
              no_collaborators (fun _ => 1000) [300; 300; 300; 0; 300; 0]
              true 0 initial_router_state eq_refl) as [H1 H2].
  split; [exact H1|]. apply H2. discriminate.
Defined.

(* ------------------------------------------------------------------ *)
(** ** The other commands *)

(** [RELOAD] raises the reload flag and answers [OK reloading],
    whatever the table; the table and the active index are unchanged. *)
Lemma reload_command (s : store) (g_reload : bool) (received : string) :
  command_line received = "RELOAD" ->
  cmd_handle_client s g_reload (Some received)
  = (s, true, Some ("OK reloading" ++ LF)%string).
Proof.
  intros Hline. unfold cmd_handle_client.
  destruct (Nat.eqb_spec
              (String.length (substring 0 (CMD_BUF_SIZE - 1) received)) 0)
    as [Hz|_].
  - apply empty_command_line in Hz. rewrite Hz in Hline. discriminate.
  - rewrite Hline. reflexivity.
Qed.

Lemma reload_command_witness :
  cmd_handle_client scenario_store false
    (Some ("RELOAD" ++ String "013" LF)%string)
  = (scenario_store, true, Some ("OK reloading" ++ LF)%string).
Proof. apply (reload_command scenario_store false). reflexivity. Defined.

(** X4. A line that is neither [PROFILE <name>], [RELOAD] nor [STATUS] is
    answered [ERR unknown command] and changes nothing. *)
Theorem unknown_command (s : store) (g_reload : bool) (received : string) :
  (0 < String.length (substring 0 (CMD_BUF_SIZE - 1) received))%nat ->
  strip_prefix "PROFILE " (command_line received) = None ->
  command_line received <> "RELOAD" ->
  command_line received <> "STATUS" ->
  cmd_handle_client s g_reload (Some received)
  = (s, g_reload, Some ("ERR unknown command" ++ LF)%string).
Proof.
  intros Hn Hp Hr Hs. unfold cmd_handle_client.
  destruct (Nat.eqb_spec
              (String.length (substring 0 (CMD_BUF_SIZE - 1) received)) 0)
    as [Hz|_]; [lia|].
  rewrite Hp. unfold strcmp_eq.
  apply String.eqb_neq in Hr. apply String.eqb_neq in Hs.
  rewrite Hr, Hs. reflexivity.
Qed.

Lemma unknown_command_witness :
  cmd_handle_client scenario_store false (Some ("status" ++ LF)%string)
  = (scenario_store, false, Some ("ERR unknown command" ++ LF)%string).
Proof.
  apply (unknown_command scenario_store false ("status" ++ LF)%string).
  - cbn. lia.
  - reflexivity.
  - discriminate.
  - discriminate.
Defined.

(* ------------------------------------------------------------------ *)
(** ** Size of the table *)

(** X6. Every load leaves at least the default profile and at most
    [MAX_PROFILES] profiles in the table. *)
Theorem profile_table_bounded {J : json_c} (root : option json)
    (path : string) (r : Z) (s : store) (log : list log_line) :
  config_load_all root path = Some (r, s, log) ->
  (1 <= List.length (g_profiles s) <= MAX_PROFILES)%nat.
Proof.
  unfold config_load_all.
  destruct root as [root|];
    [|intros E; injection E as _ <- _; unfold MAX_PROFILES; cbn; lia].
  destruct (json_object_object_get_ex root "profiles") as [profiles_obj|].
  - destruct (match json_object_object_get_ex profiles_obj "default" with
              | Some _ => _ | None => _ end) as [d|]; [|discriminate].
    destruct (json_object_iter profiles_obj) as [members|]; [|discriminate].
    destruct (load_named (cfg d) members [d]) as [ps|] eqn:El; [|discriminate].
    intros E. injection E as _ <- _. cbn [g_profiles].
    destruct (load_named_spec _ _ _ _ El) as [tail [-> Ht]].
    apply Forall2_length in Ht. rewrite length_firstn in Ht.
    rewrite length_app. unfold MAX_PROFILES in *.
    change (List.length [d]) with 1%nat in *. lia.
  - destruct (parse_profile_obj root _ None) as [d|]; [|discriminate].
    intros E. injection E as _ <- _. unfold MAX_PROFILES. cbn. lia.
Qed.

Lemma profile_table_bounded_witness :
  (1 <= List.length (g_profiles sample_store) <= MAX_PROFILES)%nat.
Proof.
  apply (@profile_table_bounded plain_json_c (Some sample_document)
           "config.json" 0 sample_store
           (log_of (@config_load_all plain_json_c (Some sample_document)
                      "config.json"))).
  reflexivity.
Defined.

(** X7. After every load that returns, the load has returned 0, profile
    0 exists, is named "default", and is the active one. *)
Theorem default_profile_first {J : json_c} (root : option json)
    (path : string) (r : Z) (s : store) (log : list log_line) :
  config_load_all root path = Some (r, s, log) ->
  r = 0 /\ g_active_profile s = O
  /\ exists p0 : profile,
       nth_error (g_profiles s) 0 = Some p0 /\ name p0 = "default".
Proof.
  intros H.
  destruct (config_load_all_store_ok _ _ _ _ _ H) as [[_ Hlen] [Ha [Hd Hr]]].
  split; [exact Hr|]. split; [exact Ha|].
  destruct (g_profiles s) as [|p0 ps]; [cbn in Hlen; lia|].
  exists p0. split; [reflexivity|exact Hd].
Qed.

Lemma default_profile_first_witness :
  exists p0 : profile,
    nth_error (g_profiles sample_store) 0 = Some p0 /\ name p0 = "default".
Proof.
  apply (@default_profile_first plain_json_c (Some sample_document)
           "config.json" 0 sample_store
           (log_of (@config_load_all plain_json_c (Some sample_document)
                      "config.json")) eq_refl).
Defined.

(** X8. A button release, and a button index outside 0..15, change
    nothing and call nothing; a press of a show-desktop button toggles
    the shown state, whatever the collaborators. *)
Theorem button_samples (c : config) (k : collaborators) (press : bool)
    (bnum : Z) (st : router_state) :
  handle_button c k false bnum st = (st, [])
  /\ (bnum < 0 \/ 16 <= bnum -> handle_button c k press bnum st = (st, []))
  /\ (0 <= bnum < 16 ->
      nth (Z.to_nat bnum) (btn_map c) BTNACT_NONE = BTNACT_SHOW_DESKTOP ->
      desktop_shown (fst (handle_button c k true bnum st))
      = negb (desktop_shown st)).
Proof.
  split; [reflexivity|]. split.
  - intros H. unfold handle_button. destruct (negb press); [reflexivity|].
    destruct (Z.ltb_spec bnum 0); [reflexivity|].
    destruct (Z.geb_spec bnum 16); [reflexivity|lia].
  - intros H Hb. unfold handle_button. cbn [negb].
    destruct (Z.ltb_spec bnum 0); [lia|].
    destruct (Z.geb_spec bnum 16); [lia|].
    cbn [orb]. now rewrite Hb.
Qed.

Lemma button_samples_witness :
  handle_button config_defaults no_collaborators true 16 initial_router_state
  = (initial_router_state, [])
  /\ desktop_shown
       (fst (handle_button config_defaults no_collaborators true 1
               initial_router_state)) = negb false.
Proof.
  pose proof (button_samples config_defaults no_collaborators true 16
                initial_router_state) as [_ [H16 _]].
  pose proof (button_samples config_defaults no_collaborators true 1
                initial_router_state) as [_ [_ H1]].
  split.
  - apply H16. right. lia.
  - apply H1; [lia|reflexivity].
Defined.

Lemma wm_class_entries_length {J : json_c} (items : list json) :
  forall wms : list string,
  (List.length (fold_left wm_class_entry items wms)
   <= List.length wms + List.length items)%nat.
Proof.
  induction items as [|item rest IH]; intros wms; cbn [fold_left List.length].
  - lia.
  - specialize (IH (wm_class_entry wms item)).
    assert (List.length (wm_class_entry wms item) <= S (List.length wms))%nat.
    { unfold wm_class_entry. destruct (json_object_get_string item).
      - rewrite length_app. cbn. lia.
      - lia. }
    lia.
Qed.

(* ================================================================== *)
(** * Further properties of the code *)

(* ------------------------------------------------------------------ *)
(** ** Range and symmetry of the curve *)

Lemma clamp_range (x : R) : (0 <= clamp 0 1 x <= 1)%R.
Proof.
  unfold clamp, Rmax, Rmin.
  destruct (Rle_dec 1 x); destruct (Rle_dec 0 1);
    repeat match goal with
           | |- context [Rle_dec ?a ?b] => destruct (Rle_dec a b)
           end; lra.
Qed.

Lemma c_pow_base_one (e : R) : c_pow 1 e = 1%R.
Proof.
  unfold c_pow. destruct (Req_dec_T e 0); [reflexivity|].
  destruct (Rlt_dec 0 1); [|lra].
  unfold Rpower. now rewrite ln_1, Rmult_0_r, exp_0.
Qed.

Lemma c_pow_le_one (x e : R) :
  (0 <= x <= 1)%R -> (0 <= e)%R -> (c_pow x e <= 1)%R.
Proof.
  intros [Hx0 Hx1] He. unfold c_pow.
  destruct (Req_dec_T e 0); [lra|].
  destruct (Rlt_dec 0 x); [|lra].
  apply Rle_trans with (Rpower 1 e); [apply Rle_Rpower_l; lra|].
  unfold Rpower. rewrite ln_1, Rmult_0_r, exp_0. lra.
Qed.

(** The magnitude of the curve's result against the scale. The division
    by [350 - deadzone] is by zero at a deadzone of 350, where C
    computes with an infinity or a NaN; that deadzone is left out. *)
Lemma apply_curve_magnitude (raw deadzone : Z) (exponent scale : double) :
  deadzone <> 350 -> (0 <= exponent)%R ->
  (Rabs (apply_curve raw deadzone exponent scale) <= Rabs scale)%R.
Proof.
  intros _ He. rewrite apply_curve_shape. unfold shape.
  destruct (Z.abs raw <? deadzone).
  - rewrite Rabs_R0. apply Rabs_pos.
  - rewrite !Rabs_mult, Rabs_sign_of_curve, Rmult_1_l.
    rewrite Rabs_pos_eq by apply c_pow_nonneg.
    rewrite <- (Rmult_1_l (Rabs scale)) at 2.
    apply Rmult_le_compat_r; [apply Rabs_pos|].
    apply c_pow_le_one; [apply clamp_range|exact He].
Qed.

(** X10. For a deadzone other than 350 and an exponent that is not
    negative, the magnitude of the curve's result never exceeds the
    magnitude of the scale, whatever the sample. *)
Theorem apply_curve_bounded (raw deadzone : Z) (exponent scale : double) :
  deadzone <> 350 -> (0 <= exponent)%R ->
  (Rabs (apply_curve raw deadzone exponent scale) <= Rabs scale)%R.
Proof. exact (apply_curve_magnitude raw deadzone exponent scale). Qed.

Lemma apply_curve_bounded_witness :
  (Rabs (apply_curve 200 15 2 3) <= Rabs 3)%R.
Proof. apply (apply_curve_bounded 200 15 2 3); [lia|lra]. Defined.

(** X11. For a deadzone below 350, every sample of magnitude 350 or
    more is mapped to the full scale with the sample's sign, whatever
    the exponent: the curve saturates at [MAX_RAW]. *)
Theorem apply_curve_saturates (raw deadzone : Z) (exponent scale : double) :
  deadzone < MAX_RAW -> MAX_RAW <= Z.abs raw ->
  apply_curve raw deadzone exponent scale = (sgn raw * scale)%R.
Proof.
  intros Hdz Hraw. rewrite apply_curve_shape. unfold shape.
  destruct (Z.ltb_spec (Z.abs raw) deadzone); [lia|].
  assert (Hc : clamp 0 1 (IZR (Z.abs raw - deadzone) / IZR (MAX_RAW - deadzone))
               = 1%R).
  { assert (Hd : (0 < IZR (MAX_RAW - deadzone))%R) by (apply IZR_lt; lia).
    assert (Hn : (IZR (MAX_RAW - deadzone) <= IZR (Z.abs raw - deadzone))%R)
      by (apply IZR_le; lia).
    assert (Hq : (1 <= IZR (Z.abs raw - deadzone) / IZR (MAX_RAW - deadzone))%R).
    { apply (Rmult_le_reg_r (IZR (MAX_RAW - deadzone))); [assumption|].
      unfold Rdiv. rewrite Rmult_assoc, Rinv_l by lra. lra. }
    unfold clamp. rewrite Rmin_left by exact Hq.
    apply Rmax_right. lra. }
  rewrite Hc, c_pow_base_one, sign_of_curve_sgn, Rmult_1_r; [reflexivity|].
  unfold MAX_RAW in Hraw. lia.
Qed.

Lemma apply_curve_saturates_witness :
  apply_curve (-400) 15 2 3 = (sgn (-400) * 3)%R.
Proof.
  apply (apply_curve_saturates (-400) 15 2 3); unfold MAX_RAW; simpl; lia.
Defined.

(** X12. The curve is odd: for a sample other than 0 (and other than
    [INT_MIN], whose opposite is no [int]), the opposite sample gives
    the opposite result. *)
Theorem apply_curve_odd (raw deadzone : Z) (exponent scale : double) :
  INT_MIN < raw <= INT_MAX -> raw <> 0 ->
  apply_curve (- raw) deadzone exponent scale
  = (- apply_curve raw deadzone exponent scale)%R.
Proof.
  intros _ Hraw. rewrite !apply_curve_shape. unfold shape.
  rewrite Z.abs_opp. destruct (Z.abs raw <? deadzone); [lra|].
  assert (Hs : sign_of_curve (- raw) = (- sign_of_curve raw)%R).
  { unfold sign_of_curve.
    destruct (Z.ltb_spec 0 (- raw)); destruct (Z.ltb_spec 0 raw);
      try lia; lra. }
  rewrite Hs. lra.
Qed.

Lemma apply_curve_odd_witness :
  apply_curve (- 100) 15 2 3 = (- apply_curve 100 15 2 3)%R.
Proof.
  apply (apply_curve_odd 100 15 2 3); [unfold INT_MIN, INT_MAX; lia|lia].
Defined.

(* ------------------------------------------------------------------ *)
(** ** Invariants of the router *)


Lemma trunc_small (x : R) : (Rabs x < 1)%R -> trunc x = 0.
Proof.
  intros H. apply Rabs_def2 in H. unfold trunc.
  destruct (Rle_dec 0 x).
  - symmetry. apply Int_part_spec. simpl. lra.
  - rewrite <- (Int_part_spec (- x) 0); [reflexivity|simpl; lra].
Qed.

Lemma scroll_acc_consume_small (acc : double) :
  (Rabs acc < 1)%R -> scroll_acc_consume acc = (0, acc).
Proof.
  intros H. unfold scroll_acc_consume. cbv zeta.
  rewrite double_to_int_in_range.
  - rewrite trunc_small by exact H. now rewrite Rminus_0_r.
  - apply Rabs_def2 in H. int_range. lra.
Qed.

Lemma scroll_acc_consume_in_range (acc : double) :
  (Rabs acc < IZR INT_MAX + 1)%R ->
  (Rabs (snd (scroll_acc_consume acc)) < 1)%R.
Proof.
  intros H. unfold scroll_acc_consume. cbv zeta. cbn [snd].
  rewrite double_to_int_in_range; [apply trunc_bounds|].
  apply Rabs_def2 in H. int_range. lra.
Qed.

Lemma speed_bound_nonneg (c : config) : (0 <= speed_bound c)%R.
Proof.
  unfold speed_bound. apply Rmult_le_pos; [|apply Rabs_pos].
  apply Rle_trans with (Rabs (scroll_speed c)); [apply Rabs_pos|apply Rmax_l].
Qed.

(** What one axis adds to an accumulator is bounded by [speed_bound]. *)
Lemma axis_value_bounded (c : config) (raw : Z) (speed : double) (inv : bool) :
  deadzone c <> 350 -> (0 <= scroll_exponent c)%R ->
  (Rabs speed <= Rmax (Rabs (scroll_speed c)) (Rabs (zoom_speed c)))%R ->
  (Rabs (let val := (apply_curve raw (deadzone c) (scroll_exponent c) speed
                     * sensitivity c)%R in
         if inv then (- val)%R else val) <= speed_bound c)%R.
Proof.
  intros Hd He Hs. cbv zeta.
  assert (H : (Rabs (apply_curve raw (deadzone c) (scroll_exponent c) speed
                      * sensitivity c) <= speed_bound c)%R).
  { rewrite Rabs_mult. unfold speed_bound.
    apply Rmult_le_compat_r; [apply Rabs_pos|].
    eapply Rle_trans; [apply apply_curve_magnitude; assumption|exact Hs]. }
  destruct inv; [rewrite Rabs_Ropp|]; exact H.
Qed.

Lemma route_axis_drift (c : config) (k : collaborators) (now : Z)
    (action : axis_action) (raw : Z) (st : router_state) :
  deadzone c <> 350 -> (0 <= scroll_exponent c)%R ->
  let st' := fst (route_axis c k now action raw st) in
  (Rabs (acc_x (sacc st') - acc_x (sacc st)) <= speed_bound c)%R
  /\ (Rabs (acc_y (sacc st') - acc_y (sacc st)) <= speed_bound c)%R
  /\ (Rabs (acc_z (sacc st') - acc_z (sacc st)) <= speed_bound c)%R.
Proof.
  intros Hd He. cbv zeta.
  pose proof (speed_bound_nonneg c) as HB.
  assert (Z0 : forall x : R, (Rabs (x - x) <= speed_bound c)%R).
  { intros x. replace (x - x)%R with 0%R by lra. now rewrite Rabs_R0. }
  unfold route_axis. destruct action; cbn [fst sacc acc_x acc_y acc_z];
    try (repeat split; apply Z0).
  - repeat split; try apply Z0.
    pose proof (axis_value_bounded c raw (scroll_speed c) (invert_scroll_x c)
                  Hd He (Rmax_l _ _)) as H. cbv zeta in H.
    match goal with |- (Rabs (?a + ?v - ?a) <= _)%R =>
      replace (a + v - a)%R with v by lra end. exact H.
  - repeat split; try apply Z0.
    pose proof (axis_value_bounded c raw (scroll_speed c) (invert_scroll_y c)
                  Hd He (Rmax_l _ _)) as H. cbv zeta in H.
    match goal with |- (Rabs (?a - ?v - ?a) <= _)%R =>
      replace (a - v - a)%R with (- v)%R by lra end.
    rewrite Rabs_Ropp. exact H.
  - repeat split; try apply Z0.
    pose proof (axis_value_bounded c raw (zoom_speed c) false
                  Hd He (Rmax_r _ _)) as H. cbv zeta in H.
    match goal with |- (Rabs (?a + ?v - ?a) <= _)%R =>
      replace (a + v - a)%R with v by lra end. exact H.
  - destruct (dswitch_gate c (last_dswitch st) raw now) as [[d|] last];
      cbn [fst sacc acc_x acc_y acc_z]; repeat split; apply Z0.
Qed.

Lemma route_axes_drift (c : config) (k : collaborators) (clock : nat -> Z) :
  deadzone c <> 350 -> (0 <= scroll_exponent c)%R ->
  forall (axes : list Z) (i : nat) (st : router_state),
  let st' := fst (route_axes c k clock i axes st) in
  (Rabs (acc_x (sacc st') - acc_x (sacc st))
   <= INR (List.length axes) * speed_bound c)%R
  /\ (Rabs (acc_y (sacc st') - acc_y (sacc st))
      <= INR (List.length axes) * speed_bound c)%R
  /\ (Rabs (acc_z (sacc st') - acc_z (sacc st))
      <= INR (List.length axes) * speed_bound c)%R.
Proof.
  intros Hd He. induction axes as [|raw rest IH]; intros i st; cbv zeta.
  - cbn [route_axes fst List.length INR].
    assert (Z0 : forall x : R, (Rabs (x - x) <= 0 * speed_bound c)%R).
    { intros x. replace (x - x)%R with 0%R by lra. rewrite Rabs_R0. lra. }
    repeat split; apply Z0.
  - cbn [route_axes].
    pose proof (route_axis_drift c k (clock i) (nth i (axis_map c) ACT_NONE)
                  raw st Hd He) as H1. cbv zeta in H1.
    destruct (route_axis c k (clock i) (nth i (axis_map c) ACT_NONE) raw st)
      as [st1 out1].
    specialize (IH (S i) st1). cbv zeta in IH.
    destruct (route_axes c k clock (S i) rest st1) as [st2 out2].
    cbn [fst] in *. rewrite length_cons, S_INR.
    destruct H1 as [Hx [Hy Hz]]. destruct IH as [Ix [Iy Iz]].
    assert (T : forall a b m n p : R,
               (Rabs (b - a) <= p)%R -> (Rabs (m - b) <= n * p)%R ->
               (Rabs (m - a) <= (n + 1) * p)%R).
    { intros a b m n p H1 H2.
      replace (m - a)%R with ((m - b) + (b - a))%R by lra.
      eapply Rle_trans; [apply Rabs_triang|]. lra. }
    repeat split; eapply T; eassumption.
Qed.

Lemma handle_motion_remainders (c : config) (k : collaborators)
    (clock : nat -> Z) (axes : list Z) (st : router_state) :
  bounded_config c -> 0 <= g_uinput_fd k -> List.length axes = 6%nat ->
  remainders (sacc st) ->
  remainders (sacc (fst (handle_motion c k clock axes st))).
Proof.
  intros [Hd [He HB]] Hfd Hlen [Rx [Ry Rz]]. unfold handle_motion.
  pose proof (route_axes_drift c k clock Hd He axes 0 st) as D. cbv zeta in D.
  destruct (route_axes c k clock 0 axes st) as [st1 out]. cbn [fst] in D.
  rewrite Hlen in D.
  replace (INR 6) with 6%R in D by (simpl; lra).
  destruct D as [Dx [Dy Dz]].
  destruct (Z.geb_spec (g_uinput_fd k) 0); [|lia].
  assert (T : forall a b : R,
             (Rabs a < 1)%R -> (Rabs (b - a) <= 6 * speed_bound c)%R ->
             (Rabs b < IZR INT_MAX + 1)%R).
  { intros a b Ha Hb. replace b with ((b - a) + a)%R by lra.
    eapply Rle_lt_trans; [apply Rabs_triang|]. int_range. lra. }
  pose proof (scroll_acc_consume_in_range _ (T _ _ Rx Dx)) as Cx.
  pose proof (scroll_acc_consume_in_range _ (T _ _ Ry Dy)) as Cy.
  pose proof (scroll_acc_consume_in_range _ (T _ _ Rz Dz)) as Cz.
  destruct (scroll_acc_consume (acc_x (sacc st1))) as [sx ax].
  destruct (scroll_acc_consume (acc_y (sacc st1))) as [sy ay].
  destruct (scroll_acc_consume (acc_z (sacc st1))) as [sz az].
  cbn [fst snd sacc acc_x acc_y acc_z] in *. repeat split; assumption.
Qed.

Lemma bounded_config_defaults : bounded_config config_defaults.
Proof.
  unfold bounded_config, speed_bound. cbn.
  unfold DEFAULT_DEADZONE, DEFAULT_SCROLL_EXP, DEFAULT_SCROLL_SPEED,
    DEFAULT_ZOOM_SPEED, DEFAULT_SENSITIVITY. int_range.
  split; [lia|]. split; [lra|].
  rewrite !Rabs_pos_eq by lra. rewrite Rmax_left by lra. lra.
Qed.

Lemma scroll_acc_consume_convertible (acc : double) :
  convertible acc ->
  scroll_acc_consume acc = (trunc acc, (acc - IZR (trunc acc))%R)
  /\ (Rabs (acc - IZR (trunc acc)) < 1)%R.
Proof.
  intros H. unfold scroll_acc_consume. cbv zeta.
  rewrite double_to_int_in_range by exact H.
  split; [reflexivity|apply trunc_bounds].
Qed.

(** X13. With the emitter present, the block that ends the handling of
    a motion event writes the integer parts of the accumulators and
    keeps the fractions: for accumulators that truncate to an [int],
    as the routing of the event has left them, the scroll written is
    the truncation of [acc_x] and [acc_y] and the zoom that of
    [acc_z]; each accumulator is left with what it held less the
    integer written, strictly within (-1, 1); and [last_dswitch] and
    [desktop_shown] are as they were. Nothing in the block rounds: the
    integers convert back exactly, and the fractions are doubles. *)
Theorem motion_consumes_integer_parts (c : config) (k : collaborators)
    (clock : nat -> Z) (axes : list Z) (st st1 : router_state) :
  0 <= g_uinput_fd k ->
  convertible (acc_x (sacc st1)) -> convertible (acc_y (sacc st1)) ->
  convertible (acc_z (sacc st1)) ->
  handle_motion c k clock axes st
  = (fst (consume_block k (fst (route_axes c k clock 0 axes st))),
     snd (route_axes c k clock 0 axes st)
     ++ snd (consume_block k (fst (route_axes c k clock 0 axes st))))
  /\ consume_block k st1
     = (mk_router_state
          (mk_scroll_acc
             (acc_x (sacc st1) - IZR (trunc (acc_x (sacc st1))))
             (acc_y (sacc st1) - IZR (trunc (acc_y (sacc st1))))
             (acc_z (sacc st1) - IZR (trunc (acc_z (sacc st1)))))
          (last_dswitch st1) (desktop_shown st1),
        emit_scroll (g_uinput_fd k) (trunc (acc_x (sacc st1)))
          (trunc (acc_y (sacc st1)))
        ++ (if trunc (acc_z (sacc st1)) =? 0 then []
            else emit_zoom (g_uinput_fd k) (trunc (acc_z (sacc st1)))))
  /\ remainders (sacc (fst (consume_block k st1))).
Proof.
  intros Hfd Hx Hy Hz.
  destruct (scroll_acc_consume_convertible _ Hx) as [Ex Bx].
  destruct (scroll_acc_consume_convertible _ Hy) as [Ey By].
  destruct (scroll_acc_consume_convertible _ Hz) as [Ez Bz].
  assert (E : consume_block k st1
              = (mk_router_state
                   (mk_scroll_acc
                      (acc_x (sacc st1) - IZR (trunc (acc_x (sacc st1))))
                      (acc_y (sacc st1) - IZR (trunc (acc_y (sacc st1))))
                      (acc_z (sacc st1) - IZR (trunc (acc_z (sacc st1)))))
                   (last_dswitch st1) (desktop_shown st1),
                 emit_scroll (g_uinput_fd k) (trunc (acc_x (sacc st1)))
                   (trunc (acc_y (sacc st1)))
                 ++ (if trunc (acc_z (sacc st1)) =? 0 then []
                     else emit_zoom (g_uinput_fd k)
                            (trunc (acc_z (sacc st1)))))).
  { unfold consume_block.
    destruct (Z.geb_spec (g_uinput_fd k) 0); [|lia].
    cbv zeta. now rewrite Ex, Ey, Ez. }
  split; [|split; [exact E|]].
  - unfold handle_motion, consume_block.
    destruct (route_axes c k clock 0 axes st) as [st0 out]. cbn [fst snd].
    destruct (g_uinput_fd k >=? 0); [|now rewrite app_nil_r].
    cbv zeta.
    destruct (scroll_acc_consume (acc_x (sacc st0))) as [sx ax].
    destruct (scroll_acc_consume (acc_y (sacc st0))) as [sy ay].
    destruct (scroll_acc_consume (acc_z (sacc st0))) as [sz az].
    reflexivity.
  - rewrite E. cbn [fst sacc]. unfold remainders. cbn [acc_x acc_y acc_z].
    repeat split; assumption.
Qed.

Lemma motion_consumes_integer_parts_witness :
  consume_block with_uinput routed_state
  = (mk_router_state
       (mk_scroll_acc (2.5 - IZR (trunc 2.5)) (-1.25 - IZR (trunc (-1.25)))
          (0.75 - IZR (trunc 0.75)))
       0 false,
     emit_scroll 3 (trunc 2.5) (trunc (-1.25))
     ++ (if trunc 0.75 =? 0 then [] else emit_zoom 3 (trunc 0.75)))
  /\ remainders (sacc (fst (consume_block with_uinput routed_state))).
Proof.
  destruct (motion_consumes_integer_parts config_defaults with_uinput
              (fun _ => 1000) [300; -120; 40; 0; 10; 0]
              initial_router_state routed_state)
    as [_ [E R]].
  - cbn. lia.
  - unfold convertible. cbn. int_range. lra.
  - unfold convertible. cbn. int_range. lra.
  - unfold convertible. cbn. int_range. lra.
  - split; [exact E|exact R].
Defined.

Lemma apply_curve_inside_deadzone (raw deadzone : Z) (exponent scale : double) :
  Z.abs raw < deadzone -> apply_curve raw deadzone exponent scale = 0%R.
Proof.
  intros H. unfold apply_curve. cbv zeta.
  pose proof (deadzone_test raw deadzone) as T.
  destruct (Rlt_dec (fabs (int_to_double raw)) (int_to_double deadzone));
    [reflexivity|].
  symmetry in T. apply Z.ltb_ge in T. lia.
Qed.

Lemma route_axis_at_rest (c : config) (k : collaborators) (now : Z)
    (action : axis_action) (raw : Z) (st : router_state) :
  Z.abs raw < deadzone c -> c_abs raw <= dswitch_threshold c ->
  route_axis c k now action raw st = (st, []).
Proof.
  intros Hd Ht. unfold route_axis. cbv zeta.
  rewrite !apply_curve_inside_deadzone by exact Hd.
  destruct st as [[x y z] l d]. cbn [sacc acc_x acc_y acc_z last_dswitch
                                       desktop_shown].
  destruct action; try reflexivity.
  - destruct (invert_scroll_x c); do 3 f_equal; lra.
  - destruct (invert_scroll_y c); do 3 f_equal; lra.
  - do 3 f_equal; lra.
  - unfold dswitch_gate.
    destruct (Z.gtb_spec (c_abs raw) (dswitch_threshold c)); [lia|].
    reflexivity.
Qed.

Lemma route_axes_at_rest (c : config) (k : collaborators) (clock : nat -> Z) :
  forall (axes : list Z) (i : nat) (st : router_state),
  Forall (fun raw => Z.abs raw < deadzone c
                     /\ c_abs raw <= dswitch_threshold c) axes ->
  route_axes c k clock i axes st = (st, []).
Proof.
  induction axes as [|raw rest IH]; intros i st H; cbn [route_axes];
    [reflexivity|].
  inversion H as [|? ? [Hd Ht] Hrest]; subst.
  rewrite route_axis_at_rest by assumption.
  now rewrite IH.
Qed.

(** X14. A device at rest is silent: when every axis of a motion sample
    lies inside the deadzone and at or below the desktop-switch
    threshold, and the accumulators hold remainders, the sample
    produces no effect and leaves the router's state as it was,
    whatever the mappings and whether or not the collaborators are
    there. *)
Theorem resting_device (c : config) (k : collaborators) (clock : nat -> Z)
    (axes : list Z) (st : router_state) :
  Forall (fun raw => Z.abs raw < deadzone c
                     /\ c_abs raw <= dswitch_threshold c) axes ->
  remainders (sacc st) ->
  handle_motion c k clock axes st = (st, []).
Proof.
  intros H [Rx [Ry Rz]]. unfold handle_motion.
  rewrite route_axes_at_rest by exact H.
  destruct (g_uinput_fd k >=? 0); [|reflexivity].
  cbv zeta. rewrite !scroll_acc_consume_small by assumption.
  destruct st as [[x y z] l d]. reflexivity.
Qed.

Lemma resting_device_witness :
  handle_motion config_defaults with_uinput (fun _ => 1000)
    [3; -14; 0; 7; -2; 1] initial_router_state
  = (initial_router_state, []).
Proof.
  apply (resting_device config_defaults with_uinput (fun _ => 1000)
           [3; -14; 0; 7; -2; 1] initial_router_state).
  - repeat constructor; vm_compute; congruence.
  - unfold remainders. cbn. rewrite Rabs_R0. repeat split; lra.
Defined.

Lemma route_axis_switches (c : config) (k : collaborators) (now : Z)
    (action : axis_action) (raw : Z) (st : router_state) :
  let r := route_axis c k now action raw st in
  (filter is_switch (snd r) = [] /\ last_dswitch (fst r) = last_dswitch st)
  \/ ((List.length (filter is_switch (snd r)) <= 1)%nat
      /\ last_dswitch (fst r) = now
      /\ now - last_dswitch st > dswitch_cooldown_ms c).
Proof.
  cbv zeta. unfold route_axis. cbv zeta.
  destruct action; cbn [fst snd last_dswitch filter]; try (left; now split).
  unfold dswitch_gate.
  destruct (Z.gtb_spec (c_abs raw) (dswitch_threshold c)) as [Ha|Ha];
    destruct (Z.gtb_spec (now - last_dswitch st) (dswitch_cooldown_ms c))
      as [Hc|Hc];
    cbn [andb fst snd last_dswitch filter]; try (left; now split).
  right. split; [|split; [reflexivity|lia]].
  unfold dbus_call_kwin. destruct (g_dbus k); [|cbn; lia].
  destruct (message_allocated k); cbn; lia.
Qed.

Lemma route_axes_after_switch (c : config) (k : collaborators)
    (clock : nat -> Z) :
  (forall i j : nat, clock j - clock i <= dswitch_cooldown_ms c) ->
  forall (axes : list Z) (i : nat) (st : router_state),
  (exists j : nat, last_dswitch st = clock j) ->
  filter is_switch (snd (route_axes c k clock i axes st)) = []
  /\ last_dswitch (fst (route_axes c k clock i axes st)) = last_dswitch st.
Proof.
  intros Hclock. induction axes as [|raw rest IH]; intros i st [j Hj];
    cbn [route_axes]; [now split|].
  pose proof (route_axis_switches c k (clock i) (nth i (axis_map c) ACT_NONE)
                raw st) as H1. cbv zeta in H1.
  destruct (route_axis c k (clock i) (nth i (axis_map c) ACT_NONE) raw st)
    as [st1 out1]. cbn [fst snd] in H1.
  destruct H1 as [[E1 L1]|[_ [_ Hgt]]].
  - assert (Hex : exists j : nat, last_dswitch st1 = clock j)
      by (exists j; congruence).
    specialize (IH (S i) st1 Hex).
    destruct (route_axes c k clock (S i) rest st1) as [st2 out2].
    cbn [fst snd] in *. rewrite filter_app, E1. cbn [app].
    destruct IH as [E2 L2]. split; [exact E2|congruence].
  - rewrite Hj in Hgt. specialize (Hclock j i). lia.
Qed.

Lemma route_axes_one_switch (c : config) (k : collaborators)
    (clock : nat -> Z) :
  (forall i j : nat, clock j - clock i <= dswitch_cooldown_ms c) ->
  forall (axes : list Z) (i : nat) (st : router_state),
  (List.length (filter is_switch (snd (route_axes c k clock i axes st)))
   <= 1)%nat.
Proof.
  intros Hclock. induction axes as [|raw rest IH]; intros i st;
    cbn [route_axes]; [cbn; lia|].
  pose proof (route_axis_switches c k (clock i) (nth i (axis_map c) ACT_NONE)
                raw st) as H1. cbv zeta in H1.
  destruct (route_axis c k (clock i) (nth i (axis_map c) ACT_NONE) raw st)
    as [st1 out1]. cbn [fst snd] in H1.
  destruct H1 as [[E1 L1]|[Hlen [Hlast _]]].
  - specialize (IH (S i) st1).
    destruct (route_axes c k clock (S i) rest st1) as [st2 out2].
    cbn [fst snd] in *. rewrite filter_app, E1. exact IH.
  - assert (Hex : exists j : nat, last_dswitch st1 = clock j)
      by (exists i; exact Hlast).
    pose proof (route_axes_after_switch c k clock Hclock rest (S i) st1 Hex)
      as [E2 _].
    destruct (route_axes c k clock (S i) rest st1) as [st2 out2].
    cbn [fst snd] in *. rewrite filter_app, E2, app_nil_r. exact Hlen.
Qed.

Lemma emit_scroll_no_switch (fd dx dy : Z) :
  filter is_switch (emit_scroll fd dx dy) = [].
Proof.
  unfold emit_scroll, emit_event.
  destruct (dy =? 0), (dx =? 0); reflexivity.
Qed.

Lemma emit_zoom_no_switch (fd dz : Z) :
  filter is_switch (emit_zoom fd dz) = [].
Proof.
  unfold emit_zoom, emit_event. destruct (dz =? 0); reflexivity.
Qed.

(** X15. One motion sample switches the desktop at most once, however
    many axes are mapped to [desktop_switch] and however far they are
    pushed: when the readings of the clock taken during the sample lie
    within one cooldown of one another, the sample's effects hold at
    most one call to KWin. *)
Theorem one_switch_per_sample (c : config) (k : collaborators)
    (clock : nat -> Z) (axes : list Z) (st : router_state) :
  (forall i j : nat, clock j - clock i <= dswitch_cooldown_ms c) ->
  (List.length (filter is_switch (snd (handle_motion c k clock axes st)))
   <= 1)%nat.
Proof.
  intros Hclock. unfold handle_motion.
  pose proof (route_axes_one_switch c k clock Hclock axes 0 st) as H.
  destruct (route_axes c k clock 0 axes st) as [st1 out]. cbn [snd] in H.
  destruct (g_uinput_fd k >=? 0); [|exact H].
  destruct (scroll_acc_consume (acc_x (sacc st1))) as [sx ax].
  destruct (scroll_acc_consume (acc_y (sacc st1))) as [sy ay].
  destruct (scroll_acc_consume (acc_z (sacc st1))) as [sz az].
  cbn [snd]. rewrite !filter_app, emit_scroll_no_switch.
  destruct (sz =? 0); [|rewrite emit_zoom_no_switch]; cbn [filter app];
    rewrite app_nil_r; exact H.
Qed.

Lemma one_switch_per_sample_witness :
  (List.length
     (filter is_switch
        (snd (handle_motion all_switch_config through_session (fun _ => 5000)
                [340; 340; -340; 340; 340; 340] initial_router_state)%Z))
   <= 1)%nat.
Proof.
  apply (one_switch_per_sample all_switch_config through_session
           (fun _ => 5000) [340; 340; -340; 340; 340; 340]
           initial_router_state).
  intros i j. vm_compute. congruence.
Defined.

Lemma emit_scroll_shape (fd dx dy : Z) :
  ctrl_values (emit_scroll fd dx dy) = []
  /\ (emit_scroll fd dx dy = []
      \/ exists front,
           emit_scroll fd dx dy = front ++ [EMIT fd EV_SYN SYN_REPORT 0]).
Proof.
  unfold emit_scroll, emit_event.
  destruct (dy =? 0), (dx =? 0); cbn; (split; [reflexivity|]).
  - now left.
  - right. now exists [EMIT fd EV_REL REL_HWHEEL dx;
                       EMIT fd EV_REL REL_HWHEEL_HI_RES (wrap_int (dx * 120))].
  - right. now exists [EMIT fd EV_REL REL_WHEEL dy;
                       EMIT fd EV_REL REL_WHEEL_HI_RES (wrap_int (dy * 120))].
  - right. now exists [EMIT fd EV_REL REL_WHEEL dy;
                       EMIT fd EV_REL REL_WHEEL_HI_RES (wrap_int (dy * 120));
                       EMIT fd EV_REL REL_HWHEEL dx;
                       EMIT fd EV_REL REL_HWHEEL_HI_RES (wrap_int (dx * 120))].
Qed.

Lemma emit_zoom_shape (fd dz : Z) :
  dz <> 0 ->
  ctrl_values (emit_zoom fd dz) = [1; 0]
  /\ exists front, emit_zoom fd dz = front ++ [EMIT fd EV_SYN SYN_REPORT 0].
Proof.
  intros H. unfold emit_zoom, emit_event.
  destruct (Z.eqb_spec dz 0); [contradiction|]. cbn. split; [reflexivity|].
  now exists [EMIT fd EV_KEY KEY_LEFTCTRL 1; EMIT fd EV_SYN SYN_REPORT 0;
              EMIT fd EV_REL REL_WHEEL dz;
              EMIT fd EV_REL REL_WHEEL_HI_RES (wrap_int (dz * 120));
              EMIT fd EV_SYN SYN_REPORT 0; EMIT fd EV_KEY KEY_LEFTCTRL 0].
Qed.

Lemma ctrl_values_app (a b : list effect) :
  ctrl_values (a ++ b) = ctrl_values a ++ ctrl_values b.
Proof. unfold ctrl_values. apply flat_map_app. Qed.

Lemma uinput_writes_app (a b : list effect) :
  uinput_writes (a ++ b) = uinput_writes a ++ uinput_writes b.
Proof. unfold uinput_writes. apply filter_app. Qed.

Lemma route_axes_no_writes (c : config) (k : collaborators) (clock : nat -> Z)
    (axes : list Z) (i : nat) (st : router_state) :
  uinput_writes (snd (route_axes c k clock i axes st)) = []
  /\ ctrl_values (snd (route_axes c k clock i axes st)) = [].
Proof.
  pose proof (route_axes_no_uinput c k clock axes i st) as H.
  induction (snd (route_axes c k clock i axes st)) as [|e out IH];
    [now split|].
  cbn [forallb] in H. apply andb_prop in H. destruct H as [He Hout].
  destruct (IH Hout) as [I1 I2].
  destruct e; try discriminate He; cbn; now split.
Qed.

(** X16. What a motion sample writes to the virtual device is well
    formed: either nothing is written, or the writes end with a
    [SYN_REPORT], every write goes to the open descriptor, and the
    Control key is either untouched or pressed once and released once,
    in that order, so the key is never left held. *)
Theorem motion_writes_well_formed (c : config) (k : collaborators)
    (clock : nat -> Z) (axes : list Z) (st : router_state) :
  let out := snd (handle_motion c k clock axes st) in
  (uinput_writes out = []
   \/ exists front,
        uinput_writes out
        = front ++ [EMIT (g_uinput_fd k) EV_SYN SYN_REPORT 0])
  /\ (ctrl_values out = [] \/ ctrl_values out = [1; 0])
  /\ Forall (fun e => match e with
                      | EMIT fd _ _ _ => fd = g_uinput_fd k /\ 0 <= fd
                      | _ => True
                      end) out.
Proof.
  cbv zeta. unfold handle_motion.
  pose proof (route_axes_no_writes c k clock axes 0 st) as [W C].
  pose proof (route_axes_no_uinput c k clock axes 0 st) as NU.
  destruct (route_axes c k clock 0 axes st) as [st1 out]. cbn [snd] in *.
  assert (Fout : Forall (fun e => match e with
                                  | EMIT fd _ _ _ =>
                                      fd = g_uinput_fd k /\ 0 <= fd
                                  | _ => True
                                  end) out).
  { clear W C. induction out as [|e out IH]; [constructor|].
    cbn [forallb] in NU. apply andb_prop in NU. destruct NU as [He Hout].
    constructor; [|now apply IH].
    destruct e; try exact I. discriminate He. }
  destruct (Z.geb_spec (g_uinput_fd k) 0) as [Hfd|Hfd].
  2:{ cbn [snd]. rewrite W, C. repeat split; try now left. exact Fout. }
  destruct (scroll_acc_consume (acc_x (sacc st1))) as [sx ax].
  destruct (scroll_acc_consume (acc_y (sacc st1))) as [sy ay].
  destruct (scroll_acc_consume (acc_z (sacc st1))) as [sz az].
  cbn [snd].
  rewrite !uinput_writes_app, !ctrl_values_app, W, C. cbn [app].
  destruct (emit_scroll_shape (g_uinput_fd k) sx sy) as [SC SS].
  rewrite SC. cbn [app].
  assert (Fscroll : Forall (fun e => match e with
                                     | EMIT fd _ _ _ =>
                                         fd = g_uinput_fd k /\ 0 <= fd
                                     | _ => True
                                     end) (emit_scroll (g_uinput_fd k) sx sy)).
  { unfold emit_scroll, emit_event.
    destruct (sy =? 0), (sx =? 0); cbn; repeat constructor; lia. }
  assert (Uscroll : uinput_writes (emit_scroll (g_uinput_fd k) sx sy)
                    = emit_scroll (g_uinput_fd k) sx sy).
  { unfold emit_scroll, emit_event.
    destruct (sy =? 0), (sx =? 0); reflexivity. }
  rewrite Uscroll.
  destruct (Z.eqb_spec sz 0) as [Hz|Hz].
  - cbn [uinput_writes filter ctrl_values flat_map]. rewrite !app_nil_r.
    split; [exact SS|]. split; [now left|].
    apply Forall_app. split; [exact Fout|exact Fscroll].
  - destruct (emit_zoom_shape (g_uinput_fd k) sz Hz) as [ZC [front ZS]].
    rewrite ZC.
    assert (Uzoom : uinput_writes (emit_zoom (g_uinput_fd k) sz)
                    = emit_zoom (g_uinput_fd k) sz).
    { unfold emit_zoom, emit_event. destruct (sz =? 0); reflexivity. }
    rewrite Uzoom. split; [|split; [now right|]].
    + right. exists (emit_scroll (g_uinput_fd k) sx sy ++ front).
      rewrite ZS. now rewrite app_assoc.
    + apply Forall_app. split; [exact Fout|].
      apply Forall_app. split; [exact Fscroll|].
      unfold emit_zoom, emit_event. destruct (sz =? 0); cbn;
        repeat constructor; lia.
Qed.

(* ------------------------------------------------------------------ *)
(** ** Tables a load produces *)

Section LoadedTables.

Context {J : json_c}.

Lemma parse_wm_classes_length (obj : json) (wms : list string) :
  parse_wm_classes obj [] = Some wms ->
  (List.length wms <= MAX_WM_CLASSES)%nat.
Proof.
  unfold parse_wm_classes.
  destruct (json_object_object_get_ex obj "match_wm_class") as [wmarr|].
  - destruct (json_object_array wmarr) as [items|]; [|discriminate].
    intros E. injection E as <-.
    pose proof (wm_class_entries_length (firstn MAX_WM_CLASSES items) []) as H.
    pose proof (firstn_le_length MAX_WM_CLASSES items) as H8.
    eapply Nat.le_trans; [exact H|exact H8].
  - intros E. injection E as <-. cbn. lia.
Qed.

Lemma parse_profile_obj_within_bounds (obj : json) (p p' : profile)
    (defaults : option config) :
  List.length
    (axis_map (match defaults with Some d => d | None => config_defaults end))
  = 6%nat ->
  List.length
    (btn_map (match defaults with Some d => d | None => config_defaults end))
  = 16%nat ->
  wm_classes p = [] -> (String.length (name p) <= 63)%nat ->
  parse_profile_obj obj p defaults = Some p' -> within_bounds p'.
Proof.
  intros Ha Hb Hw Hn Hp.
  destruct (parse_profile_obj_inherits obj p p' defaults Ha Hb Hp)
    as [En [_ [La Lb]]].
  unfold within_bounds. rewrite En. split; [exact Hn|].
  split; [|split; assumption].
  revert Hp. unfold parse_profile_obj.
  destruct (parse_button_mapping obj _); [|discriminate].
  rewrite Hw.
  destruct (parse_wm_classes obj []) as [wms|] eqn:Ew; [|discriminate].
  intros E. injection E as <-. cbn [wm_classes].
  exact (parse_wm_classes_length obj wms Ew).
Qed.

Lemma load_named_within_bounds (d : config) (members : list (string * json)) :
  List.length (axis_map d) = 6%nat -> List.length (btn_map d) = 16%nat ->
  forall loaded ps : list profile,
  Forall within_bounds loaded ->
  load_named d members loaded = Some ps ->
  Forall within_bounds ps.
Proof.
  intros Ha Hb.
  induction members as [|[pname obj] rest IH]; intros loaded ps Hl;
    cbn [load_named].
  - intros E. now injection E as <-.
  - destruct (negb (strcmp_eq pname "default")
              && (List.length loaded <? MAX_PROFILES)%nat).
    + destruct (parse_profile_obj obj _ (Some d)) as [p|] eqn:Ep;
        [|discriminate].
      apply IH. apply Forall_app. split; [exact Hl|].
      constructor; [|constructor].
      apply (parse_profile_obj_within_bounds obj _ p (Some d) Ha Hb)
        in Ep; [exact Ep|reflexivity|].
      cbn [name]. apply (snprintf_length 64).
    + now apply IH.
Qed.

Lemma within_bounds_defaults (n : string) :
  (String.length n <= 63)%nat ->
  within_bounds (mk_profile n [] config_defaults).
Proof.
  intros H. unfold within_bounds, MAX_WM_CLASSES. cbn. repeat split; lia.
Qed.

Lemma config_load_all_within_bounds (root : option json) (path : string)
    (r : Z) (s : store) (log : list log_line) :
  config_load_all root path = Some (r, s, log) ->
  Forall within_bounds (g_profiles s).
Proof.
  unfold config_load_all.
  set (p0 := mk_profile (snprintf 64 "default") [] empty_config).
  assert (Hp0 : forall obj d, parse_profile_obj obj p0 None = Some d ->
                              within_bounds d).
  { intros obj d.
    apply (parse_profile_obj_within_bounds obj p0 d None);
      try reflexivity. cbn. lia. }
  destruct root as [root|].
  - destruct (json_object_object_get_ex root "profiles") as [profiles_obj|].
    + destruct (match json_object_object_get_ex profiles_obj "default" with
                | Some def_obj => parse_profile_obj def_obj p0 None
                | None => Some (mk_profile (name p0) [] config_defaults)
                end) as [d|] eqn:Ed; [|discriminate].
      destruct (json_object_iter profiles_obj) as [members|]; [|discriminate].
      destruct (load_named (cfg d) members [d]) as [ps|] eqn:El;
        [|discriminate].
      intros E. injection E as _ <- _. cbn [g_profiles].
      assert (Hd : within_bounds d).
      { destruct (json_object_object_get_ex profiles_obj "default").
        - eapply Hp0; exact Ed.
        - injection Ed as <-. apply within_bounds_defaults. cbn. lia. }
      destruct Hd as [Hn [Hw [Ha Hb]]].
      eapply (load_named_within_bounds (cfg d) members Ha Hb); [|exact El].
      constructor; [|constructor]. repeat split; assumption.
    + destruct (parse_profile_obj root p0 None) as [d|] eqn:Ed;
        [|discriminate].
      intros E. injection E as _ <- _. cbn [g_profiles].
      constructor; [|constructor]. eapply Hp0; exact Ed.
  - intros E. injection E as _ <- _. cbn [g_profiles].
    constructor; [|constructor]. apply within_bounds_defaults. cbn. lia.
Qed.

(** X9. After every load, every profile of the table fits
    [struct profile]: a name of at most 63 bytes, at most
    [MAX_WM_CLASSES] window classes however long the document's
    [match_wm_class] is, six axis slots and sixteen button slots. *)
Theorem loaded_table_within_bounds (root : option json) (path : string)
    (r : Z) (s : store) (log : list log_line) :
  config_load_all root path = Some (r, s, log) ->
  Forall within_bounds (g_profiles s).
Proof. exact (config_load_all_within_bounds root path r s log). Qed.

(** X17. A document without a [profiles] member is read in the legacy
    flat format: the table holds the single profile "default", whose
    configuration is what the document's root gives over the built-in
    values, field by field and entry by entry, and the load logs one
    profile. *)
Theorem legacy_document (root : json) (path : string)
    (r : Z) (s : store) (log : list log_line) :
  json_object_object_get_ex root "profiles" = None ->
  config_load_all (Some root) path = Some (r, s, log) ->
  exists d : profile,
    s = mk_store [d] 0
    /\ name d = "default"
    /\ inherits root (cfg d) config_defaults
    /\ log = [LOG_loaded 1 path;
              LOG_profile 0 "default" (List.length (wm_classes d))].
Proof.
  intros Hp. unfold config_load_all. rewrite Hp.
  set (p0 := mk_profile (snprintf 64 "default") [] empty_config).
  destruct (parse_profile_obj root p0 None) as [d|] eqn:Ed; [|discriminate].
  intros E. injection E as _ <- <-. exists d.
  destruct (parse_profile_obj_inherits root p0 d None eq_refl eq_refl Ed)
    as [En [Hi _]].
  change (name p0) with "default" in En.
  split; [reflexivity|]. split; [exact En|]. split; [exact Hi|].
  cbn [log_profiles]. now rewrite En.
Qed.

(** X18. On the table of any load, [PROFILE] followed by "default" in
    any mix of cases selects profile 0 and answers [OK default]: the
    search stops at the first name that matches without regard to
    case, and profile 0 is always named "default". *)
Theorem default_selected_in_any_case (root : option json) (path : string)
    (r : Z) (s : store) (log : list log_line) (g_reload : bool)
    (received name0 : string) :
  config_load_all root path = Some (r, s, log) ->
  command_line received = ("PROFILE " ++ name0)%string ->
  strcasecmp_eq "default" name0 = true ->
  cmd_handle_client s g_reload (Some received)
  = (s, g_reload, Some ("OK default" ++ LF)%string).
Proof.
  intros Hload Hline Hcase.
  destruct (config_load_all_store_ok _ _ _ _ _ Hload)
    as [[_ Hlen] [Ha [Hd _]]].
  unfold cmd_handle_client.
  destruct (Nat.eqb_spec
              (String.length (substring 0 (CMD_BUF_SIZE - 1) received)) 0)
    as [Hz|_].
  - apply empty_command_line in Hz. rewrite Hz in Hline. discriminate.
  - rewrite Hline. cbn [strip_prefix append Ascii.eqb Bool.eqb].
    destruct s as [ps a]. cbn [g_profiles g_active_profile] in *. subst a.
    destruct ps as [|p rest]; [cbn in Hlen; lia|].
    cbn [profile_at nth] in Hd. cbn [find_index]. rewrite Hd, Hcase.
    cbn [profile_at nth]. rewrite Hd. reflexivity.
Qed.

Lemma find_index_before {A : Type} (f : A -> bool) (d : A) :
  forall (l : list A) (i : nat),
  find_index f l = Some i ->
  forall j : nat, (j < i)%nat -> f (nth j l d) = false.
Proof.
  induction l as [|x t IH]; intros i; cbn; [discriminate|].
  destruct (f x) eqn:Ex.
  - intros E. injection E as <-. intros j Hj. lia.
  - destruct (find_index f t) as [k|] eqn:Ek; cbn; [|discriminate].
    intros E. injection E as <-. intros [|j] Hj; [exact Ex|].
    apply (IH k eq_refl). lia.
Qed.

Lemma reload_of_first_with_name (root : option json) (path : string)
    (r : Z) (s0 : store) (log : list log_line) (i : nat) :
  config_load_all root path = Some (r, s0, log) ->
  first_with_name (g_profiles s0) i ->
  reload root path (mk_store (g_profiles s0) i)
  = Some (mk_store (g_profiles s0) i, false, scroll_acc_reset, log).
Proof.
  intros Hload [Hi Hfirst].
  destruct (config_load_all_store_ok _ _ _ _ _ Hload) as [[Hn _] _].
  unfold reload. cbn [g_profiles g_active_profile]. rewrite Hload.
  assert (Hold : snprintf 64 (name (profile_at (g_profiles s0) i))
                 = name (profile_at (g_profiles s0) i)).
  { apply snprintf_fits. rewrite Forall_forall in Hn.
    specialize (Hn _ (nth_In _ empty_profile Hi)).
    unfold profile_at. lia. }
  rewrite Hold.
  rewrite (find_index_first _ empty_profile (g_profiles s0) i Hi).
  - reflexivity.
  - apply String.eqb_refl.
  - intros j Hj. apply String.eqb_neq. apply (Hfirst j Hj).
Qed.

Lemma cmd_handle_client_first_with_name (s : store) (g_reload : bool)
    (received : option string) :
  first_with_name (g_profiles s) (g_active_profile s) ->
  first_with_name (g_profiles s)
    (g_active_profile (fst (fst (cmd_handle_client s g_reload received)))).
Proof.
  intros Hs. unfold cmd_handle_client.
  destruct received as [received|]; [|exact Hs].
  destruct (String.length _ =? 0)%nat; [exact Hs|].
  destruct (strip_prefix "PROFILE " (command_line received)) as [name0|].
  - destruct (find_index _ (g_profiles s)) as [i|] eqn:Ef; [|exact Hs].
    cbn [fst g_active_profile].
    destruct (find_index_found _ empty_profile _ _ Ef) as [Hi Hm].
    split; [exact Hi|]. intros j Hj E.
    pose proof (find_index_before _ empty_profile _ _ Ef j Hj) as Hb.
    cbn beta in Hb, Hm. unfold profile_at in E. rewrite E in Hb.
    rewrite Hm in Hb. discriminate.
  - destruct (strcmp_eq (command_line received) "RELOAD"); [exact Hs|].
    destruct (strcmp_eq (command_line received) "STATUS"); exact Hs.
Qed.

(** X19. A reload of an unchanged document undoes nothing a client has
    done: after a load and any one command, the reload gives the same
    table with the same profile active, clears the reload flag and
    logs what the load logged. In particular a profile selected with
    [PROFILE] stays selected. *)
Theorem command_survives_reload (root : option json) (path : string)
    (r : Z) (s0 : store) (log : list log_line) (g_reload : bool)
    (received : option string) :
  config_load_all root path = Some (r, s0, log) ->
  reload root path (fst (fst (cmd_handle_client s0 g_reload received)))
  = Some (fst (fst (cmd_handle_client s0 g_reload received)),
          false, scroll_acc_reset, log).
Proof.
  intros Hload.
  destruct (config_load_all_store_ok _ _ _ _ _ Hload)
    as [[_ Hlen] [Ha _]].
  assert (H0 : first_with_name (g_profiles s0) (g_active_profile s0)).
  { split; [exact Hlen|]. rewrite Ha. intros j Hj. lia. }
  pose proof (cmd_handle_client_first_with_name s0 g_reload received H0)
    as H1.
  pose proof (cmd_handle_client_profiles s0 g_reload received) as Hps.
  destruct (fst (fst (cmd_handle_client s0 g_reload received))) as [ps1 a1].
  cbn [g_profiles g_active_profile] in *. subst ps1.
  exact (reload_of_first_with_name root path r s0 log a1 Hload H1).
Qed.

(** X20. Reloading is idempotent: a second reload of the same document
    right after the first changes nothing, whatever table and active
    index the first one started from. *)
Theorem reload_idempotent (root : option json) (path : string)
    (s s1 : store) (flag : bool) (acc : scroll_acc) (log : list log_line) :
  reload root path s = Some (s1, flag, acc, log) ->
  reload root path s1 = Some (s1, flag, acc, log).
Proof.
  unfold reload at 1.
  destruct (config_load_all root path) as [[[r s0] log0]|] eqn:Hload;
    [|discriminate].
  destruct (config_load_all_store_ok _ _ _ _ _ Hload) as [[_ Hlen] [Ha _]].
  rewrite Ha in Hlen.
  set (old := snprintf 64 _).
  intros E. injection E as <- <- <- <-.
  apply (reload_of_first_with_name root path r s0 log0 _ Hload).
  destruct (find_index (fun p => strcmp_eq (name p) old) (g_profiles s0))
    as [i|] eqn:Ef.
  - destruct (find_index_found _ empty_profile _ _ Ef) as [Hi Hm].
    split; [exact Hi|]. intros j Hj E.
    pose proof (find_index_before _ empty_profile _ _ Ef j Hj) as Hb.
    cbn beta in Hb, Hm. unfold profile_at in E. rewrite E in Hb.
    rewrite Hm in Hb. discriminate.
  - split; [exact Hlen|]. intros j Hj. lia.
Qed.

End LoadedTables.

Lemma loaded_table_within_bounds_witness :
  Forall within_bounds (g_profiles sample_store).
Proof.
  apply (@loaded_table_within_bounds plain_json_c (Some sample_document)
           "config.json" 0 sample_store
           (log_of (@config_load_all plain_json_c (Some sample_document)
                      "config.json"))).
  reflexivity.
Defined.

Lemma legacy_document_witness :
  exists d : profile,
    store_of (@config_load_all plain_json_c (Some flat_document) "config.json")
    = mk_store [d] 0
    /\ name d = "default"
    /\ @inherits plain_json_c flat_document (cfg d) config_defaults
    /\ log_of (@config_load_all plain_json_c (Some flat_document)
                 "config.json")
       = [LOG_loaded 1 "config.json";
          LOG_profile 0 "default" (List.length (wm_classes d))].
Proof.
  apply (@legacy_document plain_json_c flat_document "config.json" 0
           (store_of (@config_load_all plain_json_c (Some flat_document)
                        "config.json"))
           (log_of (@config_load_all plain_json_c (Some flat_document)
                      "config.json")));
    reflexivity.
Defined.

Lemma default_selected_in_any_case_witness :
  cmd_handle_client sample_store true (Some ("PROFILE DeFault" ++ LF)%string)
  = (sample_store, true, Some ("OK default" ++ LF)%string).
Proof.
  apply (@default_selected_in_any_case plain_json_c (Some sample_document)
           "config.json" 0 sample_store
           (log_of (@config_load_all plain_json_c (Some sample_document)
                      "config.json"))
           true ("PROFILE DeFault" ++ LF)%string "DeFault");
    reflexivity.
Defined.

Lemma command_survives_reload_witness :
  @reload plain_json_c (Some sample_document) "config.json"
    (fst (fst (cmd_handle_client sample_store false
                 (Some ("PROFILE web" ++ LF)%string))))
  = Some (fst (fst (cmd_handle_client sample_store false
                      (Some ("PROFILE web" ++ LF)%string))),
          false, scroll_acc_reset,
          log_of (@config_load_all plain_json_c (Some sample_document)
                    "config.json")).
Proof.
  apply (@command_survives_reload plain_json_c (Some sample_document)
           "config.json" 0 sample_store
           (log_of (@config_load_all plain_json_c (Some sample_document)
                      "config.json"))
           false (Some ("PROFILE web" ++ LF)%string)).
  reflexivity.
Defined.

Lemma reload_idempotent_witness :
  @reload plain_json_c (Some sample_document) "config.json"
      (mk_store (g_profiles scenario_store) 2)
  = Some (mk_store (g_profiles sample_store) 1, false, scroll_acc_reset,
          log_of (@config_load_all plain_json_c (Some sample_document)
                    "config.json"))
  /\ @reload plain_json_c (Some sample_document) "config.json"
       (mk_store (g_profiles sample_store) 1)
     = Some (mk_store (g_profiles sample_store) 1, false, scroll_acc_reset,
             log_of (@config_load_all plain_json_c (Some sample_document)
                       "config.json")).
Proof.
  assert (H : @reload plain_json_c (Some sample_document) "config.json"
                (mk_store (g_profiles scenario_store) 2)
              = Some (mk_store (g_profiles sample_store) 1, false,
                      scroll_acc_reset,
                      log_of (@config_load_all plain_json_c
                                (Some sample_document) "config.json")))
    by reflexivity.
  split; [exact H|].
  exact (@reload_idempotent plain_json_c (Some sample_document) "config.json"
           (mk_store (g_profiles scenario_store) 2) _ false scroll_acc_reset _ H).
Defined.

(* ------------------------------------------------------------------ *)
(** ** Responses of the command socket *)

Lemma string_app_assoc (a b c : string) :
  ((a ++ b) ++ c)%string = (a ++ b ++ c)%string.
Proof. induction a as [|x a IH]; cbn; [reflexivity|now rewrite IH]. Qed.

Lemma substring_length_exact (s : string) : forall n : nat,
  (n <= String.length s)%nat -> String.length (substring 0 n s) = n.
Proof.
  induction s as [|c s IH]; intros [|n] H; cbn in *; try reflexivity; try lia.
  rewrite IH by lia. reflexivity.
Qed.

Lemma snprintf_ends_with_LF (n : nat) (text : string) :
  (String.length (snprintf (S n) (text ++ LF)) < n)%nat ->
  ends_with_LF (snprintf (S n) (text ++ LF)).
Proof.
  unfold snprintf. replace (S n - 1)%nat with n by lia. intros H.
  destruct (Nat.le_gt_cases (String.length (text ++ LF)%string) n) as [Hs|Hl].
  - rewrite substring_short by exact Hs. now exists text.
  - rewrite substring_length_exact in H by lia. lia.
Qed.

Lemma snprintf_nonempty (n : nat) (c : ascii) (text : string) :
  (1 <= String.length (snprintf (S (S n)) (String c text)))%nat.
Proof. unfold snprintf. cbn. lia. Qed.

Lemma strncat_length (dest src : string) (n : nat) :
  (String.length dest <= String.length (strncat dest src n)
   <= String.length dest + n)%nat.
Proof.
  unfold strncat. rewrite string_length_app.
  pose proof (substring_length_le src n). lia.
Qed.

Lemma status_names_length (ps : list profile) : forall response : string,
  (String.length response <= CMD_BUF_SIZE - 1)%nat ->
  (String.length response <= String.length (status_names response ps)
   <= CMD_BUF_SIZE - 1)%nat.
Proof.
  unfold CMD_BUF_SIZE.
  induction ps as [|p rest IH]; intros response H; cbn [status_names];
    [lia|].
  unfold CMD_BUF_SIZE in *.
  destruct (Nat.ltb_spec (256 - String.length response - 1) 2) as [Hr|Hr];
    [lia|].
  pose proof (strncat_length response " "
                (256 - String.length response - 1)) as H1.
  assert (E1 : String.length
                 (strncat response " " (256 - String.length response - 1))
               = S (String.length response)).
  { unfold strncat. rewrite string_length_app.
    destruct (256 - String.length response - 1)%nat as [|m] eqn:Em; [lia|].
    destruct m; cbn [substring String.length]; lia. }
  pose proof (strncat_length
                (strncat response " " (256 - String.length response - 1))
                (name p) (256 - String.length response - 1 - 1)) as H2.
  specialize (IH (strncat
                    (strncat response " " (256 - String.length response - 1))
                    (name p) (256 - String.length response - 1 - 1))).
  lia.
Qed.

(** X21. Every response fits [char response[256]] and is one the
    client can read: for every table and every request, a response is
    written unless nothing was read; it is never empty and never
    longer than 255 bytes, also for a [STATUS] over a table whose names
    do not fit and for a [PROFILE] with an over-long name; and a
    response shorter than 255 bytes ends with a line feed. *)
Theorem response_within_buffer (s : store) (g_reload : bool)
    (received : option string) :
  match snd (cmd_handle_client s g_reload received) with
  | Some t =>
      (1 <= String.length t <= CMD_BUF_SIZE - 1)%nat
      /\ ((String.length t < CMD_BUF_SIZE - 1)%nat -> ends_with_LF t)
  | None => received = None \/ received = Some ""%string
  end.
Proof.
  unfold cmd_handle_client.
  destruct received as [received|]; [|now left].
  destruct (Nat.eqb_spec
              (String.length (substring 0 (CMD_BUF_SIZE - 1) received)) 0)
    as [Hz|Hz].
  { right. destruct received; [reflexivity|discriminate Hz]. }
  assert (Hsn : forall (c : ascii) (text : string),
            (1 <= String.length (snprintf CMD_BUF_SIZE (String c text ++ LF))
             <= CMD_BUF_SIZE - 1)%nat
            /\ ((String.length (snprintf CMD_BUF_SIZE (String c text ++ LF))
                 < CMD_BUF_SIZE - 1)%nat ->
                ends_with_LF (snprintf CMD_BUF_SIZE (String c text ++ LF)))).
  { intros c text. split; [split|].
    - apply (snprintf_nonempty 254).
    - apply snprintf_length.
    - apply (snprintf_ends_with_LF 255). }
  destruct (strip_prefix "PROFILE " (command_line received)) as [name0|].
  - destruct (find_index _ (g_profiles s)) as [i|]; cbn [snd].
    + change ("OK " ++ name (profile_at (g_profiles s) i) ++ LF)%string
        with (String "O" ("K " ++ name (profile_at (g_profiles s) i)) ++ LF)%string.
      apply Hsn.
    + replace ("ERR unknown profile '" ++ name0 ++ "'" ++ LF)%string
        with (String "E" ("RR unknown profile '" ++ name0 ++ "'") ++ LF)%string
        by (cbn; now rewrite !string_app_assoc).
      apply Hsn.
  - destruct (strcmp_eq (command_line received) "RELOAD"); cbn [snd];
      [apply (Hsn "O"%char "K reloading"%string)|].
    destruct (strcmp_eq (command_line received) "STATUS"); cbn [snd];
      [|apply (Hsn "E"%char "RR unknown command"%string)].
    set (first := snprintf CMD_BUF_SIZE _).
    assert (H0 : (1 <= String.length first <= CMD_BUF_SIZE - 1)%nat).
    { split; [apply (snprintf_nonempty 254)|apply snprintf_length]. }
    pose proof (status_names_length (g_profiles s) first (proj2 H0)) as H1.
    set (response := status_names first (g_profiles s)) in *.
    unfold strncat, CMD_BUF_SIZE in *. rewrite string_length_app.
    destruct (256 - String.length response - 1)%nat as [|m] eqn:Em.
    + change (substring 0 0 LF) with ""%string. cbn [String.length].
      split; [lia|]. intros Hlt. lia.
    + assert (E : substring 0 (S m) LF = LF) by (destruct m; reflexivity).
      rewrite E. change (String.length LF) with 1%nat.
      split; [lia|]. intros _. now exists response.
Qed.

Lemma strip_trailing_eol (e : string) :
  all_eol e = true -> strip_trailing e = ""%string.
Proof.
  induction e as [|c e IH]; cbn; [reflexivity|].
  intros H. apply andb_true_iff in H. destruct H as [Hc He].
  now rewrite (IH He), Hc.
Qed.

Lemma strip_trailing_app_eol (r e : string) :
  all_eol e = true -> strip_trailing (r ++ e) = strip_trailing r.
Proof.
  intros He. induction r as [|c r IH]; cbn.
  - now apply strip_trailing_eol.
  - now rewrite IH.
Qed.

(** X22. The line end of a request is optional: a request that is not
    empty is handled the same, with the same response and the same
    effect on the table and the reload flag, whether or not it is
    followed by line feeds and carriage returns, in any number and
    order, as long as the whole fits the read of 255 bytes. *)
Theorem line_end_is_optional (s : store) (g_reload : bool) (r e : string) :
  r <> ""%string -> all_eol e = true ->
  (String.length (r ++ e) <= CMD_BUF_SIZE - 1)%nat ->
  cmd_handle_client s g_reload (Some (r ++ e)%string)
  = cmd_handle_client s g_reload (Some r).
Proof.
  intros Hr He Hlen. unfold cmd_handle_client, command_line.
  rewrite string_length_app in Hlen.
  rewrite (substring_short (r ++ e))
    by (rewrite string_length_app; exact Hlen).
  rewrite (substring_short r) by lia.
  rewrite strip_trailing_app_eol by exact He.
  destruct r as [|c r]; [contradiction|]. reflexivity.
Qed.

Lemma line_end_is_optional_witness :
  cmd_handle_client scenario_store false
    (Some ("PROFILE web" ++ String "013" LF)%string)
  = cmd_handle_client scenario_store false (Some "PROFILE web"%string).
Proof.
  apply (line_end_is_optional scenario_store false "PROFILE web"
           (String "013" LF)).
  - discriminate.
  - reflexivity.
  - vm_compute. lia.
Defined.

Lemma status_names_fits (ps : list profile) : forall response : string,
  (String.length response + String.length (names_text ps) + 1
   <= CMD_BUF_SIZE - 1)%nat ->
  status_names response ps = (response ++ names_text ps)%string.
Proof.
  unfold CMD_BUF_SIZE.
  induction ps as [|p rest IH]; intros response H;
    cbn [status_names names_text].
  - clear H. induction response as [|c t IHt]; cbn; [reflexivity|].
    now rewrite <- IHt.
  - cbn [names_text] in H. unfold CMD_BUF_SIZE.
    change (String.length (" " ++ name p ++ names_text rest)%string)
      with (S (String.length (name p ++ names_text rest)%string)) in H.
    rewrite string_length_app in H.
    destruct (Nat.ltb_spec (256 - String.length response - 1) 2) as [Hr|Hr];
      [lia|].
    unfold strncat.
    rewrite (substring_short " ")
      by (change (String.length " ") with 1%nat; lia).
    rewrite (substring_short (name p)) by lia.
    rewrite IH.
    + now rewrite !string_app_assoc.
    + rewrite !string_length_app.
      change (String.length " ") with 1%nat. lia.
Qed.

(** X5. When the text fits, [STATUS] answers with the active
    profile's name on the first line and every profile of the table, in
    table order, on the second, and changes neither the table nor the
    reload flag. *)
Theorem status_lists_table (s : store) (g_reload : bool) (received : string) :
  command_line received = "STATUS"%string ->
  (String.length (status_text s) <= CMD_BUF_SIZE - 1)%nat ->
  cmd_handle_client s g_reload (Some received)
  = (s, g_reload, Some (status_text s)).
Proof.
  intros Hline Hfit. unfold cmd_handle_client.
  destruct (Nat.eqb_spec
              (String.length (substring 0 (CMD_BUF_SIZE - 1) received)) 0)
    as [Hz|_].
  { apply empty_command_line in Hz. rewrite Hz in Hline. discriminate. }
  rewrite Hline. cbn [strip_prefix Ascii.eqb Bool.eqb strcmp_eq String.eqb].
  cbv zeta. unfold status_text in *.
  set (n := name (profile_at (g_profiles s) (g_active_profile s))) in *.
  unfold CMD_BUF_SIZE in *.
  rewrite !string_length_app in Hfit.
  change (String.length "ACTIVE ") with 7%nat in Hfit.
  change (String.length LF) with 1%nat in Hfit.
  change (String.length "PROFILES") with 8%nat in Hfit.
  rewrite snprintf_fits
    by (rewrite !string_length_app; cbn [String.length LF]; lia).
  rewrite status_names_fits
    by (unfold CMD_BUF_SIZE; rewrite !string_length_app;
        cbn [String.length LF]; lia).
  unfold strncat. rewrite (substring_short LF).
  - apply f_equal. apply f_equal. now rewrite !string_app_assoc.
  - rewrite !string_length_app. cbn [String.length LF]. lia.
Qed.

Lemma status_lists_table_witness :
  cmd_handle_client scenario_store false (Some ("STATUS" ++ LF)%string)
  = (scenario_store, false,
     Some ("ACTIVE Blender" ++ LF ++ "PROFILES default Blender Web" ++ LF)%string).
Proof.
  apply (status_lists_table scenario_store false ("STATUS" ++ LF)%string).
  - reflexivity.
  - vm_compute. lia.
Defined.

(* ------------------------------------------------------------------ *)
(** ** Invariants of the main loop *)

Lemma within_bounds_store_ok (s : store) :
  Forall within_bounds (g_profiles s) ->
  (g_active_profile s < List.length (g_profiles s))%nat -> store_ok s.
Proof.
  intros H Ha. split; [|exact Ha].
  eapply Forall_impl; [|exact H]. intros p [Hn _]. exact Hn.
Qed.

Section MainLoopInvariants.

Context {J : json_c}.

Variable path : string.
Variable k : collaborators.
Variable cmd_fd : Z.

Lemma reload_block_ok (i : turn) (m m1 : main_state) (log : list log_line) :
  main_state_ok m ->
  reload_block path i m = Some (m1, log) -> main_state_ok m1.
Proof.
  intros Hm. unfold reload_block.
  destruct (m_reload m || sighup i); [|intros E; now injection E as <- _].
  unfold reload.
  destruct (config_load_all (document i) path) as [[[r s'] log']|] eqn:Hload;
    [|discriminate].
  intros E. injection E as <- _.
  destruct (config_load_all_store_ok _ _ _ _ _ Hload)
    as [[Hn Hlen] [Ha _]].
  pose proof (config_load_all_within_bounds _ _ _ _ _ Hload) as Hb.
  unfold main_state_ok. cbn [m_store g_profiles g_active_profile].
  split; [|exact Hb]. split; [exact Hn|].
  cbn [g_profiles g_active_profile].
  destruct (find_index _ (g_profiles s')) as [j|] eqn:Ef.
  - now destruct (find_index_found _ empty_profile _ _ Ef).
  - now rewrite Ha in Hlen.
Qed.

Lemma reload_block_total (i : turn) (m : main_state) :
  document_ok (document i) = true ->
  exists m1 log, reload_block path i m = Some (m1, log).
Proof.
  intros Hdoc. unfold reload_block.
  destruct (m_reload m || sighup i); [|eexists; eexists; reflexivity].
  unfold reload.
  destruct (config_load_all_total (document i) path Hdoc) as [s' [log ->]].
  eexists; eexists; reflexivity.
Qed.

Lemma command_block_ok (cmd_in : bool) (i : turn) (m : main_state) :
  main_state_ok m -> main_state_ok (fst (command_block cmd_fd cmd_in i m)).
Proof.
  intros [Hs Hb]. unfold command_block.
  destruct ((cmd_fd >=? 0) && cmd_in); [|now split].
  pose proof (cmd_handle_client_store_ok (m_store m) (m_reload m) (client i)
                Hs) as Hs'.
  pose proof (cmd_handle_client_profiles (m_store m) (m_reload m) (client i))
    as Hp.
  destruct (cmd_handle_client (m_store m) (m_reload m) (client i))
    as [[s' flag] resp].
  cbn [fst] in *. split; cbn [m_store]; [exact Hs'|now rewrite Hp].
Qed.

Lemma events_block_store (spnav_in : bool) (i : turn) (m : main_state) :
  m_store (fst (events_block k spnav_in i m)) = m_store m
  /\ m_reload (fst (events_block k spnav_in i m)) = m_reload m.
Proof.
  unfold events_block. destruct spnav_in; [|now split].
  cbv zeta. destruct (drain_events _ k (pending i) (m_router m)). now split.
Qed.

Lemma main_loop_turn_ok (i : turn) (m : main_state) :
  document_ok (document i) = true -> main_state_ok m ->
  exists m1 n o,
    main_loop_turn path k cmd_fd i m = Some (m1, n, o) /\ main_state_ok m1.
Proof.
  intros Hdoc Hm. unfold main_loop_turn.
  destruct (reload_block_total i m Hdoc) as [m1 [log E1]]. rewrite E1.
  pose proof (reload_block_ok i m m1 log Hm E1) as H1.
  destruct (polled i) as [| | |spnav_in cmd_in];
    try (eexists; eexists; eexists; split; [reflexivity|exact H1]).
  pose proof (command_block_ok cmd_in i m1 H1) as H2.
  destruct (command_block cmd_fd cmd_in i m1) as [m2 resp]. cbn [fst] in H2.
  pose proof (events_block_store spnav_in i m2) as [H3 _].
  destruct (events_block k spnav_in i m2) as [m3 out]. cbn [fst] in H3.
  eexists; eexists; eexists; split; [reflexivity|].
  unfold main_state_ok in *. now rewrite H3.
Qed.

(** X23. The main loop never indexes outside the profile table: from a
    state whose active index is within a table of profiles that fit
    their structure, and for every sequence of turns (signals, poll
    results, client requests, events, reloads of documents json-c can
    iterate), the loop runs to its end and leaves such a state. *)
Theorem main_loop_keeps_table_safe (turns : list turn) :
  forall m : main_state,
  Forall (fun i => document_ok (document i) = true) turns ->
  main_state_ok m ->
  exists m' os,
    main_loop path k cmd_fd turns m = Some (m', os) /\ main_state_ok m'.
Proof.
  induction turns as [|i rest IH]; intros m Hdocs Hm; cbn [main_loop].
  - exists m, []. now split.
  - inversion Hdocs as [|? ? Hdoc Hrest]; subst.
    destruct (sigterm i); [exists m, []; now split|].
    destruct (main_loop_turn_ok i m Hdoc Hm) as [m1 [n [o [E1 H1]]]].
    rewrite E1. destruct n.
    + destruct (IH m1 Hrest H1) as [m2 [os [E2 H2]]]. rewrite E2.
      exists m2, (o :: os). now split.
    + exists m1, [o]. now split.
Qed.

Lemma bounded_empty_config : bounded_config empty_config.
Proof.
  unfold bounded_config, speed_bound. cbn. int_range.
  split; [lia|]. split; [lra|].
  rewrite Rabs_R0, Rmax_left by lra. lra.
Qed.

Lemma bounded_active (s : store) (j : nat) :
  bounded_table s -> bounded_config (cfg (profile_at (g_profiles s) j)).
Proof.
  intros H. unfold profile_at.
  destruct (Nat.lt_ge_cases j (List.length (g_profiles s))) as [Hj|Hj].
  - unfold bounded_table in H. rewrite Forall_forall in H.
    apply H. now apply nth_In.
  - rewrite nth_overflow by exact Hj. exact bounded_empty_config.
Qed.

Lemma handle_event_remainders (c : config) (ev : spnav_event * (nat -> Z))
    (st : router_state) :
  bounded_config c -> 0 <= g_uinput_fd k -> remainders (sacc st) ->
  remainders (sacc (fst (handle_event c k ev st))).
Proof.
  intros Hc Hfd Hr. unfold handle_event.
  destruct (fst ev) as [x y z rx ry rz|press bnum|].
  - now apply handle_motion_remainders.
  - unfold handle_button. destruct (negb (negb (press =? 0))); [exact Hr|].
    destruct ((bnum <? 0) || (bnum >=? 16)); [exact Hr|].
    destruct (nth (Z.to_nat bnum) (btn_map c) BTNACT_NONE); exact Hr.
  - exact Hr.
Qed.

Lemma drain_events_remainders (c : config)
    (evs : list (spnav_event * (nat -> Z))) : forall st : router_state,
  bounded_config c -> 0 <= g_uinput_fd k -> remainders (sacc st) ->
  remainders (sacc (fst (drain_events c k evs st))).
Proof.
  induction evs as [|ev rest IH]; intros st Hc Hfd Hr; cbn [drain_events];
    [exact Hr|].
  pose proof (handle_event_remainders c ev st Hc Hfd Hr) as H1.
  destruct (handle_event c k ev st) as [st1 out1]. cbn [fst] in H1.
  specialize (IH st1 Hc Hfd H1).
  destruct (drain_events c k rest st1) as [st2 out2]. exact IH.
Qed.

Lemma remainders_reset : remainders scroll_acc_reset.
Proof. unfold remainders. cbn. rewrite Rabs_R0. repeat split; lra. Qed.

Lemma main_loop_turn_remainders (i : turn) (m m1 : main_state)
    (n : next_step) (o : turn_output) :
  0 <= g_uinput_fd k ->
  (forall r s log, config_load_all (document i) path = Some (r, s, log) ->
                   bounded_table s) ->
  bounded_table (m_store m) -> remainders (sacc (m_router m)) ->
  main_loop_turn path k cmd_fd i m = Some (m1, n, o) ->
  bounded_table (m_store m1) /\ remainders (sacc (m_router m1)).
Proof.
  intros Hfd Hdoc Hb Hr. unfold main_loop_turn.
  destruct (reload_block path i m) as [[m0 log]|] eqn:E0; [|discriminate].
  assert (H0 : bounded_table (m_store m0) /\ remainders (sacc (m_router m0))).
  { revert E0. unfold reload_block.
    destruct (m_reload m || sighup i);
      [|intros E; injection E as <- _; now split].
    unfold reload.
    destruct (config_load_all (document i) path) as [[[r s'] log']|]
      eqn:Hload; [|discriminate].
    intros E. injection E as <- _. cbn [m_store m_router sacc].
    split; [|exact remainders_reset].
    exact (Hdoc r s' log' eq_refl). }
  destruct H0 as [Hb0 Hr0].
  destruct (polled i) as [| | |spnav_in cmd_in];
    try (intros E; injection E as <- _ _; now split).
  assert (H2 : bounded_table (m_store (fst (command_block cmd_fd cmd_in i m0)))
               /\ remainders
                    (sacc (m_router (fst (command_block cmd_fd cmd_in i m0))))).
  { unfold command_block. destruct ((cmd_fd >=? 0) && cmd_in); [|now split].
    pose proof (cmd_handle_client_profiles (m_store m0) (m_reload m0)
                  (client i)) as Hp.
    destruct (cmd_handle_client (m_store m0) (m_reload m0) (client i))
      as [[s' flag] resp].
    cbn [fst m_store m_router sacc] in *.
    split; [|exact remainders_reset].
    unfold bounded_table. now rewrite Hp. }
  destruct (command_block cmd_fd cmd_in i m0) as [m2 resp]. cbn [fst] in H2.
  destruct H2 as [Hb2 Hr2].
  unfold events_block. destruct spnav_in.
  - cbv zeta.
    pose proof (drain_events_remainders
                  (cfg (profile_at (g_profiles (m_store m2))
                          (g_active_profile (m_store m2))))
                  (pending i) (m_router m2)
                  (bounded_active _ _ Hb2) Hfd Hr2) as H3.
    destruct (drain_events _ k (pending i) (m_router m2)) as [st out].
    intros E. injection E as <- _ _. now split.
  - intros E. injection E as <- _ _. now split.
Qed.

(** X24. With the emitter present, the accumulators stay remainders
    over the whole run: when every configuration of the table, and of
    every table a reload brings, is bounded (six axes add at most 2^30
    to an accumulator, half the range of [int]), and each accumulator
    lies strictly within (-1, 1) at the start, then each does at the
    end, whatever signals, requests and events the turns bring. The
    arithmetic is that of the real numbers; the half of the range that
    the bound leaves free is what keeps the rounding of binary64 from
    carrying an accumulator out of the range of [int]. *)
Theorem main_loop_keeps_remainders (turns : list turn) :
  forall (m m' : main_state) (os : list turn_output),
  0 <= g_uinput_fd k ->
  Forall (fun i => forall r s log,
            config_load_all (document i) path = Some (r, s, log) ->
            bounded_table s) turns ->
  bounded_table (m_store m) -> remainders (sacc (m_router m)) ->
  main_loop path k cmd_fd turns m = Some (m', os) ->
  bounded_table (m_store m') /\ remainders (sacc (m_router m')).
Proof.
  induction turns as [|i rest IH]; intros m m' os Hfd Hdocs Hb Hr;
    cbn [main_loop].
  - intros E. injection E as <- _. now split.
  - inversion Hdocs as [|? ? Hdoc Hrest]; subst.
    destruct (sigterm i); [intros E; injection E as <- _; now split|].
    destruct (main_loop_turn path k cmd_fd i m) as [[[m1 n] o]|] eqn:E1;
      [|discriminate].
    destruct (main_loop_turn_remainders i m m1 n o Hfd Hdoc Hb Hr E1)
      as [Hb1 Hr1].
    destruct n.
    + destruct (main_loop path k cmd_fd rest m1) as [[m2 os2]|] eqn:E2;
        [|discriminate].
      intros E. injection E as <- _.
      exact (IH m1 m2 os2 Hfd Hrest Hb1 Hr1 E2).
    + intros E. injection E as <- _. now split.
Qed.

End MainLoopInvariants.

Lemma initial_main_state_ok : main_state_ok initial_main_state.
Proof.
  split.
  - split; [repeat constructor; cbn; lia|cbn; lia].
  - repeat constructor; cbn; unfold MAX_WM_CLASSES; lia.
Qed.

(** The sample session runs to its end. *)
Lemma sample_run_returns :
  exists m' os,
    @main_loop plain_json_c "config.json" through_session 4 sample_turns
      initial_main_state = Some (m', os).
Proof.
  unfold sample_turns. cbn [main_loop sigterm zoom_turn].
  destruct (@main_loop_turn_ok plain_json_c "config.json" through_session 4
              zoom_turn initial_main_state eq_refl initial_main_state_ok)
    as [m1 [n1 [o1 [E1 H1]]]].
  fold zoom_turn. rewrite E1.
  destruct n1; [|eexists; eexists; reflexivity].
  cbn [sigterm client_turn]. fold client_turn.
  destruct (@main_loop_turn_ok plain_json_c "config.json" through_session 4
              client_turn m1 eq_refl H1) as [m2 [n2 [o2 [E2 H2]]]].
  rewrite E2. destruct n2; [|eexists; eexists; reflexivity].
  cbn [sigterm hangup_turn]. fold hangup_turn.
  destruct (@main_loop_turn_ok plain_json_c "config.json" through_session 4
              hangup_turn m2 eq_refl H2) as [m3 [n3 [o3 [E3 H3]]]].
  rewrite E3. destruct n3; eexists; eexists; reflexivity.
Qed.

Lemma main_loop_keeps_table_safe_witness :
  exists m' os,
    @main_loop plain_json_c "config.json" through_session 4 sample_turns
      initial_main_state = Some (m', os)
    /\ main_state_ok m'.
Proof.
  apply (@main_loop_keeps_table_safe plain_json_c "config.json"
           through_session 4 sample_turns initial_main_state).
  - repeat constructor.
  - exact initial_main_state_ok.
Defined.

Lemma bounded_default_table (path : string) (r : Z) (s : store)
    (log : list log_line) :
  @config_load_all plain_json_c None path = Some (r, s, log) ->
  bounded_table s.
Proof.
  intros E. injection E as _ <- _.
  constructor; [exact bounded_config_defaults|constructor].
Qed.

Lemma main_loop_keeps_remainders_witness :
  exists m' os,
    @main_loop plain_json_c "config.json" through_session 4 sample_turns
      initial_main_state = Some (m', os)
    /\ bounded_table (m_store m') /\ remainders (sacc (m_router m')).
Proof.
  destruct sample_run_returns as [m' [os E]].
  exists m', os. split; [exact E|].
  apply (@main_loop_keeps_remainders plain_json_c "config.json"
           through_session 4 sample_turns initial_main_state m' os).
  - cbn. lia.
  - repeat constructor; apply bounded_default_table.
  - constructor; [exact bounded_config_defaults|constructor].
  - exact remainders_reset.
  - exact E.
Defined.

(* ------------------------------------------------------------------ *)
(** ** The Control key over a run *)

Lemma balanced_app_both (b : list Z) :
  balanced b = true ->
  forall a : list Z,
  (balanced a = true -> balanced (a ++ b) = true)
  /\ (forall x : Z, balanced (x :: a) = true ->
                    balanced (x :: a ++ b) = true).
Proof.
  intros Hb. induction a as [|y a [IH1 IH2]].
  - split; [intros _; exact Hb|].
    intros x H. destruct x as [|[p|p|]|]; discriminate H.
  - split; [apply IH2|].
    intros x H.
    destruct x as [|[p|p|]|]; try discriminate H.
    destruct y as [|p|p]; try discriminate H.
    cbn [balanced app] in *. now apply IH1.
Qed.

Lemma balanced_app (a b : list Z) :
  balanced a = true -> balanced b = true -> balanced (a ++ b) = true.
Proof. intros Ha Hb. now apply (balanced_app_both b Hb a). Qed.

Lemma handle_motion_ctrl (c : config) (k : collaborators) (clock : nat -> Z)
    (axes : list Z) (st : router_state) :
  balanced (ctrl_values (snd (handle_motion c k clock axes st))) = true.
Proof.
  unfold handle_motion.
  pose proof (route_axes_no_writes c k clock axes 0 st) as [_ C].
  destruct (route_axes c k clock 0 axes st) as [st1 out]. cbn [snd] in C.
  destruct (g_uinput_fd k >=? 0); [|cbn [snd]; now rewrite C].
  destruct (scroll_acc_consume (acc_x (sacc st1))) as [sx ax].
  destruct (scroll_acc_consume (acc_y (sacc st1))) as [sy ay].
  destruct (scroll_acc_consume (acc_z (sacc st1))) as [sz az].
  cbn [snd]. rewrite !ctrl_values_app, C.
  destruct (emit_scroll_shape (g_uinput_fd k) sx sy) as [-> _].
  cbn [app]. destruct (Z.eqb_spec sz 0) as [Hz|Hz]; [reflexivity|].
  destruct (emit_zoom_shape (g_uinput_fd k) sz Hz) as [-> _]. reflexivity.
Qed.

Lemma handle_button_ctrl (c : config) (k : collaborators) (press : bool)
    (bnum : Z) (st : router_state) :
  ctrl_values (snd (handle_button c k press bnum st)) = [].
Proof.
  unfold handle_button, dbus_call_kglobalaccel.
  destruct (negb press); [reflexivity|].
  destruct ((bnum <? 0) || (bnum >=? 16)); [reflexivity|].
  destruct (nth (Z.to_nat bnum) (btn_map c) BTNACT_NONE); cbn [snd];
    try reflexivity.
  - destruct (g_dbus k); [|reflexivity].
    destruct (message_allocated k); reflexivity.
  - destruct (message_allocated k); reflexivity.
Qed.

Lemma drain_events_ctrl (c : config) (k : collaborators)
    (evs : list (spnav_event * (nat -> Z))) : forall st : router_state,
  balanced (ctrl_values (snd (drain_events c k evs st))) = true.
Proof.
  induction evs as [|ev rest IH]; intros st; cbn [drain_events];
    [reflexivity|].
  assert (H1 : balanced (ctrl_values (snd (handle_event c k ev st))) = true).
  { unfold handle_event.
    destruct (fst ev) as [x y z rx ry rz|press bnum|].
    - apply handle_motion_ctrl.
    - now rewrite handle_button_ctrl.
    - reflexivity. }
  destruct (handle_event c k ev st) as [st1 out1]. cbn [snd] in H1.
  specialize (IH st1).
  destruct (drain_events c k rest st1) as [st2 out2]. cbn [snd] in *.
  rewrite ctrl_values_app. now apply balanced_app.
Qed.

Section ControlKey.

Context {J : json_c}.

Variable path : string.
Variable k : collaborators.
Variable cmd_fd : Z.

Lemma main_loop_turn_ctrl (i : turn) (m m1 : main_state) (n : next_step)
    (o : turn_output) :
  main_loop_turn path k cmd_fd i m = Some (m1, n, o) ->
  balanced (ctrl_values (effects o)) = true.
Proof.
  unfold main_loop_turn.
  destruct (reload_block path i m) as [[m0 log]|]; [|discriminate].
  destruct (polled i) as [| | |spnav_in cmd_in];
    try (intros E; injection E as _ _ <-; reflexivity).
  destruct (command_block cmd_fd cmd_in i m0) as [m2 resp].
  unfold events_block. destruct spnav_in.
  - cbv zeta.
    pose proof (drain_events_ctrl
                  (cfg (profile_at (g_profiles (m_store m2))
                          (g_active_profile (m_store m2))))
                  k (pending i) (m_router m2)) as H.
    destruct (drain_events _ k (pending i) (m_router m2)) as [st out].
    intros E. injection E as _ _ <-. exact H.
  - intros E. injection E as _ _ <-. reflexivity.
Qed.

(** X25. The Control key is never left held: over any run of the main
    loop, the values written for [KEY_LEFTCTRL] are a press followed by
    a release, over and over, whatever the events, the configuration
    and the points at which the table is reloaded or the profile
    switched. *)
Theorem control_key_released (turns : list turn) :
  forall (m m' : main_state) (os : list turn_output),
  main_loop path k cmd_fd turns m = Some (m', os) ->
  balanced (ctrl_values (all_effects os)) = true.
Proof.
  induction turns as [|i rest IH]; intros m m' os; cbn [main_loop].
  - intros E. injection E as _ <-. reflexivity.
  - destruct (sigterm i); [intros E; injection E as _ <-; reflexivity|].
    destruct (main_loop_turn path k cmd_fd i m) as [[[m1 n] o]|] eqn:E1;
      [|discriminate].
    pose proof (main_loop_turn_ctrl i m m1 n o E1) as H1.
    destruct n.
    + destruct (main_loop path k cmd_fd rest m1) as [[m2 os2]|] eqn:E2;
        [|discriminate].
      intros E. injection E as _ <-.
      unfold all_effects. cbn [flat_map]. rewrite ctrl_values_app.
      apply balanced_app; [exact H1|]. exact (IH m1 m2 os2 E2).
    + intros E. injection E as _ <-.
      unfold all_effects. cbn [flat_map]. now rewrite app_nil_r.
Qed.

(** X3. A [RELOAD] request is served at the top of the next turn, not
    at once: in the turn of the request the table stays as it was, the
    client is answered [OK reloading], nothing is printed on stderr,
    and the events of that turn are routed with the old configuration
    from cleared accumulators; in the next turn the reload block
    runs before anything else is handled: the table is the one the
    document gives at that time, and the turn prints the lines of that
    load, followed by the line of a profile switched by the client
    served in that turn, if any. *)
Theorem reload_request_served_next_turn (i1 i2 : turn)
    (m m1 m2 : main_state) (n1 n2 : next_step) (o1 o2 : turn_output)
    (r : string) :
  0 <= cmd_fd -> m_reload m = false -> sighup i1 = false ->
  polled i1 = POLL_READY true true ->
  client i1 = Some r -> command_line r = "RELOAD"%string ->
  main_loop_turn path k cmd_fd i1 m = Some (m1, n1, o1) ->
  main_loop_turn path k cmd_fd i2 m1 = Some (m2, n2, o2) ->
  (m_store m1 = m_store m /\ m_reload m1 = true
   /\ logged o1 = []
   /\ response o1 = Some ("OK reloading" ++ LF)%string
   /\ effects o1
      = snd (drain_events
               (cfg (profile_at (g_profiles (m_store m))
                       (g_active_profile (m_store m))))
               k (pending i1)
               (mk_router_state scroll_acc_reset
                  (last_dswitch (m_router m)) (desktop_shown (m_router m)))))
  /\ exists (s2 : store) (log : list log_line),
       reload (document i2) path (m_store m)
       = Some (s2, false, scroll_acc_reset, log)
       /\ config_load_all (document i2) path
          = Some (0, mk_store (g_profiles s2) 0, log)
       /\ g_profiles (m_store m2) = g_profiles s2
       /\ logged o2
          = log ++ match polled i2 with
                   | POLL_READY _ cmd_in =>
                       if (cmd_fd >=? 0) && cmd_in
                       then cmd_handle_client_stderr s2 (client i2)
                       else []
                   | _ => []
                   end.
Proof.
  intros Hfd Hflag Hup Hpoll Hclient Hline.
  unfold main_loop_turn at 1. unfold reload_block at 1.
  rewrite Hflag, Hup, Hpoll. cbn [orb].
  unfold command_block, command_block_stderr.
  destruct (Z.geb_spec cmd_fd 0) as [_|]; [|lia].
  cbn [andb]. rewrite Hclient, Hflag.
  rewrite (reload_command (m_store m) false r Hline).
  assert (Hquiet : cmd_handle_client_stderr (m_store m) (Some r) = []).
  { unfold cmd_handle_client_stderr. rewrite Hline.
    now destruct (String.length _ =? 0)%nat. }
  rewrite Hquiet.
  unfold events_block. cbv zeta. cbn [m_store m_reload m_router].
  destruct (drain_events _ k (pending i1) _) as [st out] eqn:Ed.
  intros E1. injection E1 as <- _ <-.
  cbn [m_store m_reload effects logged response snd app].
  intros E2. split; [repeat split|].
  revert E2. unfold main_loop_turn, reload_block. cbn [m_reload orb m_store].
  destruct (reload (document i2) path (m_store m))
    as [[[[s2 flag] acc] log]|] eqn:Hreload; [|discriminate].
  assert (Hshape : flag = false /\ acc = scroll_acc_reset
                   /\ config_load_all (document i2) path
                      = Some (0, mk_store (g_profiles s2) 0, log)).
  { revert Hreload. unfold reload.
    destruct (config_load_all (document i2) path) as [[[r0 s'] log']|]
      eqn:Hload; [|discriminate].
    destruct (config_load_all_store_ok _ _ _ _ _ Hload) as [_ [Ha [_ ->]]].
    intros E. injection E as <- <- <- <-. cbn [g_profiles].
    destruct s' as [ps a]. cbn [g_profiles g_active_profile] in *.
    now subst a. }
  destruct Hshape as [-> [-> Hload]].
  intros E2. exists s2, log. split; [reflexivity|]. split; [exact Hload|].
  revert E2. destruct (polled i2) as [| | |spnav_in cmd_in].
  - intros E. injection E as <- _ <-.
    cbn [m_store logged]. now rewrite app_nil_r.
  - intros E. injection E as <- _ <-.
    cbn [m_store logged]. now rewrite app_nil_r.
  - intros E. injection E as <- _ <-.
    cbn [m_store logged]. now rewrite app_nil_r.
  - unfold command_block, command_block_stderr. cbn [m_store m_reload].
    pose proof (cmd_handle_client_profiles s2 false (client i2)) as Hp.
    replace (cmd_fd >=? 0) with true by (symmetry; apply Z.geb_le; lia).
    cbn [andb]. destruct cmd_in.
    + destruct (cmd_handle_client s2 false (client i2)) as [[s3 flag] resp].
      cbn [fst] in Hp.
      match goal with
      | |- context [events_block k spnav_in i2 ?m3] =>
          destruct (events_block_store k spnav_in i2 m3) as [Hs _];
          destruct (events_block k spnav_in i2 m3) as [m4 out2]
      end.
      cbn [fst m_store] in Hs.
      intros E. injection E as <- _ <-. cbn [logged].
      split; [congruence|reflexivity].
    + match goal with
      | |- context [events_block k spnav_in i2 ?m3] =>
          destruct (events_block_store k spnav_in i2 m3) as [Hs _];
          destruct (events_block k spnav_in i2 m3) as [m4 out2]
      end.
      cbn [fst m_store] in Hs.
      intros E. injection E as <- _ <-. cbn [logged].
      split; [congruence|reflexivity].
Qed.

End ControlKey.

Lemma control_key_released_witness :
  exists m' os,
    @main_loop plain_json_c "config.json" through_session 4 sample_turns
      initial_main_state = Some (m', os)
    /\ balanced (ctrl_values (all_effects os)) = true.
Proof.
  destruct sample_run_returns as [m' [os E]].
  exists m', os. split; [exact E|].
  exact (@control_key_released plain_json_c "config.json" through_session 4
           sample_turns initial_main_state m' os E).
Defined.

Lemma reload_request_served_next_turn_witness :
  exists (s2 : store) (log : list log_line),
    @reload plain_json_c (document client_turn) "config.json" default_store
    = Some (s2, false, scroll_acc_reset, log)
    /\ [LOG_config_not_found "config.json"; LOG_switched "default"]
       = log ++ cmd_handle_client_stderr s2 (client client_turn).
Proof.
  destruct (@reload_request_served_next_turn plain_json_c "config.json"
              through_session 4 reload_turn client_turn
              initial_main_state
              (mk_main_state default_store true initial_router_state)
              (mk_main_state default_store false initial_router_state)
              CONTINUE CONTINUE
              (mk_turn_output [KGLOBALACCEL_CALL Session_bus "ExposeAll"] []
                 (Some ("OK reloading" ++ LF)%string))
              (mk_turn_output [KGLOBALACCEL_CALL Session_bus "ExposeAll"]
                 [LOG_config_not_found "config.json"; LOG_switched "default"]
                 (Some ("OK default" ++ LF)%string))
              ("RELOAD" ++ LF)%string)
    as [_ [s2 [log [Hreload [_ [_ Hlog]]]]]]; try reflexivity.
  - lia.
  - exists s2, log. split; [exact Hreload|exact Hlog].
Defined.

(* ------------------------------------------------------------------ *)
(** ** What changes the active profile *)

Lemma cmd_handle_client_other_line (s : store) (g_reload : bool)
    (received : option string) :
  (forall r, received = Some r ->
             strip_prefix "PROFILE " (command_line r) = None) ->
  fst (fst (cmd_handle_client s g_reload received)) = s.
Proof.
  intros H. unfold cmd_handle_client.
  destruct received as [r|]; [|reflexivity].
  destruct (String.length _ =? 0)%nat; [reflexivity|].
  rewrite (H r eq_refl).
  destruct (strcmp_eq (command_line r) "RELOAD"); [reflexivity|].
  destruct (strcmp_eq (command_line r) "STATUS"); reflexivity.
Qed.

(** X26. Only a reload or a [PROFILE] request changes the table or the
    active profile: in a turn with no reload pending and no [PROFILE]
    line from a client, the table and the active index are after the
    turn what they were before it, whatever motions and button presses
    the turn routes; the window classes a profile lists are never
    consulted. *)
Theorem active_profile_changes_on_request_only {J : json_c} (path : string)
    (k : collaborators) (cmd_fd : Z) (i : turn) (m m1 : main_state)
    (n : next_step) (o : turn_output) :
  m_reload m = false -> sighup i = false ->
  (forall r, client i = Some r ->
             strip_prefix "PROFILE " (command_line r) = None) ->
  main_loop_turn path k cmd_fd i m = Some (m1, n, o) ->
  m_store m1 = m_store m /\ logged o = [].
Proof.
  intros Hflag Hup Hline. unfold main_loop_turn, reload_block.
  rewrite Hflag, Hup. cbn [orb].
  destruct (polled i) as [| | |spnav_in cmd_in];
    try (intros E; injection E as <- _ <-; now split).
  assert (H2 : m_store (fst (command_block cmd_fd cmd_in i m)) = m_store m).
  { unfold command_block. destruct ((cmd_fd >=? 0) && cmd_in); [|reflexivity].
    pose proof (cmd_handle_client_other_line (m_store m) (m_reload m)
                  (client i) Hline) as Hc.
    destruct (cmd_handle_client (m_store m) (m_reload m) (client i))
      as [[s' flag] resp]. exact Hc. }
  assert (Hq : command_block_stderr cmd_fd cmd_in i m = []).
  { unfold command_block_stderr, cmd_handle_client_stderr.
    destruct ((cmd_fd >=? 0) && cmd_in); [|reflexivity].
    destruct (client i) as [r|]; [|reflexivity].
    rewrite (Hline r eq_refl).
    now destruct (String.length _ =? 0)%nat. }
  destruct (command_block cmd_fd cmd_in i m) as [m2 resp]. cbn [fst] in H2.
  destruct (events_block_store k spnav_in i m2) as [H3 _].
  destruct (events_block k spnav_in i m2) as [m3 out]. cbn [fst] in H3.
  intros E. injection E as <- _ <-. cbn [logged app].
  split; [congruence|exact Hq].
Qed.

Lemma active_profile_changes_on_request_only_witness :
  m_store (mk_main_state scenario_store false initial_router_state)
  = scenario_store
  /\ logged
       (mk_turn_output [KGLOBALACCEL_CALL Session_bus "ExposeAll"] []
          (Some ("ACTIVE Blender" ++ LF
                 ++ "PROFILES default Blender Web" ++ LF)%string)) = [].
Proof.
  apply (@active_profile_changes_on_request_only plain_json_c "config.json"
           through_session 4
           (mk_turn false false None (POLL_READY true true)
              (Some ("STATUS" ++ LF)%string)
              [(SPNAV_EVENT_BUTTON 1 0, fun _ => 2000)])
           (mk_main_state scenario_store false initial_router_state)
           (mk_main_state scenario_store false initial_router_state)
           CONTINUE
           (mk_turn_output [KGLOBALACCEL_CALL Session_bus "ExposeAll"] []
              (Some ("ACTIVE Blender" ++ LF
                     ++ "PROFILES default Blender Web" ++ LF)%string))).
  - reflexivity.
  - reflexivity.
  - intros r E. injection E as <-. reflexivity.
  - reflexivity.
Defined.

(* ------------------------------------------------------------------ *)
(** ** The clock and the command line *)

Lemma wrap_long_long_small (n : Z) :
  LONG_MIN <= n <= LONG_MAX -> wrap_long_long n = n.
Proof.
  unfold LONG_MIN, LONG_MAX, wrap_long_long. intros H.
  rewrite Z.mod_small by lia. lia.
Qed.

Lemma time_ms_exact (tv_sec tv_nsec : Z) :
  0 <= tv_sec <= 9000000000000000 -> 0 <= tv_nsec < 1000000000 ->
  time_ms tv_sec tv_nsec = tv_sec * 1000 + tv_nsec / 1000000.
Proof.
  intros Hs Hn. unfold time_ms.
  rewrite Z.quot_div_nonneg by lia.
  assert (0 <= tv_nsec / 1000000 < 1000).
  { split; [apply Z.div_pos; lia|apply Z.div_lt_upper_bound; lia]. }
  rewrite (wrap_long_long_small (tv_sec * 1000))
    by (unfold LONG_MIN, LONG_MAX; lia).
  apply wrap_long_long_small. unfold LONG_MIN, LONG_MAX. lia.
Qed.

(** X27. The clock of the cooldown never runs backwards: for two
    readings of the monotonic clock, each with nanoseconds below 10^9
    and seconds that leave the milliseconds within [long long], a
    reading that is not later gives a [time_ms] that is not larger, so
    the difference the desktop-switch gate compares with the cooldown
    is never negative. *)
Theorem time_ms_monotone (s1 n1 s2 n2 : Z) :
  0 <= s1 <= 9000000000000000 -> 0 <= n1 < 1000000000 ->
  0 <= s2 <= 9000000000000000 -> 0 <= n2 < 1000000000 ->
  not_later s1 n1 s2 n2 ->
  0 <= time_ms s2 n2 - time_ms s1 n1.
Proof.
  intros Hs1 Hn1 Hs2 Hn2 Hle.
  rewrite !time_ms_exact by assumption.
  assert (0 <= n1 / 1000000 < 1000).
  { split; [apply Z.div_pos; lia|apply Z.div_lt_upper_bound; lia]. }
  assert (0 <= n2 / 1000000 < 1000).
  { split; [apply Z.div_pos; lia|apply Z.div_lt_upper_bound; lia]. }
  destruct Hle as [Hlt|[-> Hn]].
  - lia.
  - assert (n1 / 1000000 <= n2 / 1000000) by (apply Z.div_le_mono; lia).
    lia.
Qed.

Lemma time_ms_monotone_witness :
  0 <= time_ms 12 3000000 - time_ms 11 999999999.
Proof.
  apply (time_ms_monotone 11 999999999 12 3000000); try lia.
  left. lia.
Defined.

Lemma parse_options_run (opts : list getopt_result) :
  forallb (fun o => negb (is_exit o)) opts = true ->
  forall (foreground : bool) (g_config_path : string),
  parse_options opts foreground g_config_path
  = inr (foreground || has_f opts,
         match fold_left
                 (fun acc o => match o with OPT_c a => Some a | _ => acc end)
                 opts None with
         | Some a => snprintf 512 a
         | None => g_config_path
         end).
Proof.
  induction opts as [|o rest IH]; intros H foreground g_config_path.
  - cbn. now rewrite orb_false_r.
  - cbn [forallb] in H. apply andb_true_iff in H. destruct H as [Ho Hrest].
    destruct o as [|a| |]; try discriminate Ho; cbn [parse_options].
    + rewrite (IH Hrest). cbn [has_f existsb fold_left].
      now rewrite orb_true_r.
    + rewrite (IH Hrest). cbn [has_f existsb fold_left orb].
      fold (has_f rest). f_equal. f_equal.
      assert (G : forall (l : list getopt_result) (x : option string),
                fold_left
                  (fun acc o => match o with OPT_c a => Some a | _ => acc end)
                  l x
                = match fold_left
                          (fun acc o =>
                             match o with OPT_c a => Some a | _ => acc end)
                          l None with
                  | Some b => Some b
                  | None => x
                  end).
      { induction l as [|y l IHl]; intros x; cbn [fold_left].
        - reflexivity.
        - destruct y; try apply IHl.
          rewrite (IHl (Some optarg)).
          destruct (fold_left _ l None); reflexivity. }
      rewrite (G rest (Some a)).
      destruct (fold_left _ rest None); reflexivity.
Qed.

Lemma parse_options_exit (front rest : list getopt_result)
    (o : getopt_result) :
  forallb (fun o => negb (is_exit o)) front = true -> is_exit o = true ->
  forall (foreground : bool) (g_config_path : string),
  parse_options (front ++ o :: rest) foreground g_config_path
  = inl (match o with OPT_h => 0 | _ => 1 end).
Proof.
  intros Hfront Ho.
  induction front as [|x front IH]; intros foreground g_config_path.
  - destruct o; try discriminate Ho; reflexivity.
  - cbn [forallb] in Hfront. apply andb_true_iff in Hfront.
    destruct Hfront as [Hx Hfront].
    destruct x; try discriminate Hx; cbn [app parse_options];
      now apply IH.
Qed.

(** X28. The options are taken in order. Without [-h] and without an
    unknown option, [main] goes on with the foreground flag set exactly
    when [-f] occurs and with the path of the last [-c], cut to the 511
    bytes [g_config_path] holds, or else the default path, below
    [$HOME] when that is set; the first [-h] ends the program with
    status 0 and the first unknown option with status 1, whatever
    follows. *)
Theorem options_in_order (home : option string)
    (front rest : list getopt_result) :
  forallb (fun o => negb (is_exit o)) front = true ->
  parse_options front false (default_config_path home)
  = inr (has_f front,
         match last_config front with
         | Some a => snprintf 512 a
         | None => default_config_path home
         end)
  /\ parse_options (front ++ OPT_h :: rest) false (default_config_path home)
     = inl 0
  /\ parse_options (front ++ OPT_unknown :: rest) false
       (default_config_path home)
     = inl 1.
Proof.
  intros H. split; [|split].
  - exact (parse_options_run front H false (default_config_path home)).
  - exact (parse_options_exit front rest OPT_h H eq_refl false _).
  - exact (parse_options_exit front rest OPT_unknown H eq_refl false _).
Qed.

Lemma options_in_order_witness :
  parse_options [OPT_c "a.json"; OPT_f; OPT_c "b.json"] false
    (default_config_path (Some "/home/u"%string))
  = inr (true, "b.json"%string)
  /\ parse_options ([OPT_c "a.json"; OPT_f; OPT_c "b.json"]
                    ++ OPT_h :: [OPT_f]) false
       (default_config_path (Some "/home/u"%string))
     = inl 0
  /\ parse_options ([OPT_c "a.json"; OPT_f; OPT_c "b.json"]
                    ++ OPT_unknown :: [OPT_f]) false
       (default_config_path (Some "/home/u"%string))
     = inl 1.
Proof.
  apply (options_in_order (Some "/home/u"%string)
           [OPT_c "a.json"; OPT_f; OPT_c "b.json"] [OPT_f]).
  reflexivity.
Defined.
